(** * VoidAI model builder: the build session of [PromptBuilder.tsx] and the
      intent updates of [IntentEditor.tsx]

    The development follows the two React components that carry the build
    flow.  [JS] holds the few JavaScript primitives the handlers rely on
    (string trimming, [parseInt], truthiness, a stable [sort], a heap of
    objects and arrays); [IntentEditor] embeds [updateTask],
    [updatePreprocessing] and [toggleModel] over that heap; [PromptBuilder]
    embeds the component state and the handlers [handleSubmit],
    [handleStartTraining], [handleReset] and [loadModel] as trees of state
    updates and awaited backend calls. *)

From Stdlib Require Import String Ascii ZArith QArith List Lia Permutation Sorted.
From Stdlib Require Import DecimalString DecimalPos.
From stdpp Require Import gmap strings list pretty.

Close Scope Q_scope.
Open Scope string_scope.
Open Scope list_scope.

(* ===================================================================== *)
(** * JavaScript primitives                                               *)
(* ===================================================================== *)

Module JS.

(** A string is a sequence of code units; [ascii] covers the code units
    below 256.  The white space of [String.prototype.trim] and of
    [parseInt] in that range: TAB, LF, VT, FF, CR, SP and NBSP. *)
Definition isWhiteSpace (c : ascii) : bool :=
  let n := N_of_ascii c in
  ((n =? 9) || (n =? 10) || (n =? 11) || (n =? 12) || (n =? 13)
   || (n =? 32) || (n =? 160))%N.

Fixpoint trimStart (s : string) : string :=
  match s with
  | EmptyString => EmptyString
  | String c s' => if isWhiteSpace c then trimStart s' else s
  end.

Fixpoint trimEnd (s : string) : string :=
  match s with
  | EmptyString => EmptyString
  | String c s' =>
      match trimEnd s' with
      | EmptyString => if isWhiteSpace c then EmptyString else String c EmptyString
      | t => String c t
      end
  end.

(** [s.trim()] *)
Definition trim (s : string) : string := trimEnd (trimStart s).

(** every code unit of [s] is white space (the empty string included) *)
Fixpoint blank (s : string) : bool :=
  match s with
  | EmptyString => true
  | String c s' => isWhiteSpace c && blank s'
  end.

(** Truthiness of a string: [!s] is [true] exactly on the empty string. *)
Definition truthy_string (s : string) : bool :=
  match s with EmptyString => false | _ => true end.

(** A number is NaN or a finite value; the finite doubles are rationals, and
    the handlers only compare them, subtract them and test them against
    zero.  The infinities do not occur: every number here is read from a
    JSON body or produced by [parseInt] on a digit string. *)
Inductive number : Type :=
  | NaN
  | Fin (q : Q).

Definition of_Z (z : Z) : number := Fin (inject_Z z).

Definition truthy_number (n : number) : bool :=
  match n with
  | NaN => false
  | Fin q => negb (Qeq_bool q 0)
  end.

(** ** [parseInt(s)] with no radix argument *)

Definition digit_value (radix : Z) (c : ascii) : option Z :=
  let n := Z.of_N (N_of_ascii c) in
  let v :=
    if (48 <=? n)%Z && (n <=? 57)%Z then Some (n - 48)%Z
    else if (97 <=? n)%Z && (n <=? 122)%Z then Some (n - 87)%Z
    else if (65 <=? n)%Z && (n <=? 90)%Z then Some (n - 55)%Z
    else None in
  match v with
  | Some d => if (d <? radix)%Z then Some d else None
  | None => None
  end.

(** The longest prefix of radix digits, read left to right; [None] when the
    prefix is empty. *)
Fixpoint parse_digits (radix : Z) (acc : option Z) (s : string) : option Z :=
  match s with
  | EmptyString => acc
  | String c s' =>
      match digit_value radix c with
      | Some d =>
          parse_digits radix
            (Some (match acc with Some a => a * radix + d | None => d end)%Z) s'
      | None => acc
      end
  end.

Definition strip_sign (s : string) : Z * string :=
  match s with
  | String "-" s' => ((-1)%Z, s')
  | String "+" s' => (1%Z, s')
  | _ => (1%Z, s)
  end.

Definition strip_hex_prefix (s : string) : Z * string :=
  match s with
  | String "0" (String "x" s') => (16%Z, s')
  | String "0" (String "X" s') => (16%Z, s')
  | _ => (10%Z, s)
  end.

Definition parseInt (s : string) : number :=
  let '(sign, s1) := strip_sign (trimStart s) in
  let '(radix, s2) := strip_hex_prefix s1 in
  match parse_digits radix None s2 with
  | None => NaN
  | Some m => of_Z (sign * m)
  end.

(** [n.toString()] of an integer-valued number: its decimal digits. *)
Definition toString (z : Z) : string := NilZero.string_of_int (Z.to_int z).

(** [s.split('.')[0]]: the part of [s] before its first dot. *)
Fixpoint before_dot (s : string) : string :=
  match s with
  | EmptyString => EmptyString
  | String c s' => if Ascii.eqb c "." then EmptyString else String c (before_dot s')
  end.

(** ** [Array.prototype.sort(compareFn)]

    The sort is stable, and on a consistent comparator its result is the
    one stable arrangement; [compareFn a b] is reduced to the sign the sort
    looks at ([Gt]: [a] goes after [b]). *)
Section Sort.
Context {A : Type} (compareFn : A -> A -> comparison).

Fixpoint sort_insert (x : A) (l : list A) : list A :=
  match l with
  | [] => [x]
  | y :: l' =>
      match compareFn x y with
      | Gt => y :: sort_insert x l'
      | _ => x :: l
      end
  end.

Fixpoint sort (l : list A) : list A :=
  match l with
  | [] => []
  | x :: l' => sort_insert x (sort l')
  end.
End Sort.

(** ** Values and the heap

    A value of type [any]: a primitive, or a reference to a heap cell.  Two
    references are [===] exactly when they are the same location. *)
Abbreviation loc := nat.

Inductive val : Type :=
  | VUndefined
  | VNull
  | VBool (b : bool)
  | VNumber (n : number)
  | VString (s : string)
  | VRef (l : loc).

(** A plain object holds its own properties; an array holds its elements. *)
Inductive cell : Type :=
  | CObject (props : gmap string val)
  | CArray (elems : list val).

(** The heap grows at its end: a new cell gets the first unused location
    and no existing location is reused. *)
Abbreviation heap := (list cell).

Definition truthy (v : val) : bool :=
  match v with
  | VUndefined | VNull => false
  | VBool b => b
  | VNumber n => truthy_number n
  | VString s => truthy_string s
  | VRef _ => true
  end.

(** A heap is closed when every reference stored in it points into it, as
    in any heap a running program can reach. *)
Definition valid (h : heap) (v : val) : Prop :=
  match v with
  | VRef l => l < length h
  | _ => True
  end.

Definition cell_closed (h : heap) (c : cell) : Prop :=
  match c with
  | CObject o => map_Forall (fun _ v => valid h v) o
  | CArray xs => Forall (valid h) xs
  end.

Definition closed (h : heap) : Prop := Forall (cell_closed h) h.

#[export] Instance valid_dec h v : Decision (valid h v).
Proof. destruct v; simpl; apply _. Defined.

#[export] Instance cell_closed_dec h c : Decision (cell_closed h c).
Proof. destruct c; simpl; apply _. Defined.

#[export] Instance closed_dec h : Decision (closed h).
Proof. unfold closed. apply _. Defined.

(** Heap computations that may throw a [TypeError] ([None]). *)
Definition M (A : Type) : Type := heap -> option (A * heap).

Definition ret {A} (a : A) : M A := fun h => Some (a, h).
Definition throw {A} : M A := fun _ => None.
Definition bind {A B} (m : M A) (k : A -> M B) : M B :=
  fun h => match m h with
           | Some (a, h') => k a h'
           | None => None
           end.

Notation "'let*' x ':=' m 'in' k" := (bind m (fun x => k))
  (at level 10, x pattern, m at level 100, k at level 200).

Definition alloc (c : cell) : M val := fun h => Some (VRef (length h), h ++ [c]).

Definition store (l : loc) (c : cell) : M unit := fun h => Some (tt, <[l := c]> h).

Definition index_props (xs : list val) : gmap string val :=
  list_to_map (imap (fun i x => (pretty i, x)) xs).

Definition chars (s : string) : list val :=
  map (fun c => VString (String c EmptyString)) (list_ascii_of_string s).

(** [v.k] for a property name [k] that is neither an array index nor a
    built-in member (the editor reads [task], [preprocessing],
    [search_space], [models] and [name]): an object answers its own
    property or [undefined], arrays and primitives answer [undefined], and
    [undefined] and [null] throw. *)
Definition get (v : val) (k : string) : M val := fun h =>
  match v with
  | VUndefined | VNull => None
  | VRef l =>
      match h !! l with
      | Some (CObject o) => Some (default VUndefined (o !! k), h)
      | Some (CArray _) => Some (VUndefined, h)
      | None => None
      end
  | _ => Some (VUndefined, h)
  end.

(** What [v.k] reads in heap [h], [undefined] where the access throws. *)
Definition prop (h : heap) (v : val) (k : string) : val :=
  match get v k h with
  | Some (x, _) => x
  | None => VUndefined
  end.

(** The own enumerable properties copied by an object spread [{...v}]. *)
Definition spread (h : heap) (v : val) : gmap string val :=
  match v with
  | VRef l =>
      match h !! l with
      | Some (CObject o) => o
      | Some (CArray xs) => index_props xs
      | None => ∅
      end
  | VString s => index_props (chars s)
  | _ => ∅
  end.

(** The elements produced by an array spread [[...v]]; it throws on a
    value that is not iterable. *)
Definition iterate (v : val) : M (list val) := fun h =>
  match v with
  | VRef l =>
      match h !! l with
      | Some (CArray xs) => Some (xs, h)
      | _ => None
      end
  | VString s => Some (chars s, h)
  | _ => None
  end.

(** [x || c] where [c] is an object or array literal. *)
Definition or_literal (v : val) (c : cell) : M val :=
  if truthy v then ret v else alloc c.

(** ** [toLowerCase] and [includes]

    On code units below 256 lower-casing moves [A]-[Z] and the accented
    capitals U+00C0-U+00DE (the sign U+00D7 apart) up by 32 and leaves the
    rest. *)
Definition lower (c : ascii) : ascii :=
  let n := N_of_ascii c in
  if ((65 <=? n) && (n <=? 90)
      || (192 <=? n) && (n <=? 222) && negb (n =? 215))%N
  then ascii_of_N (n + 32)
  else c.

Fixpoint toLowerCase (s : string) : string :=
  match s with
  | EmptyString => EmptyString
  | String c s' => String (lower c) (toLowerCase s')
  end.

(** [s.includes(sub)] *)
Fixpoint includes (s sub : string) : bool :=
  String.prefix sub s
  || match s with
     | EmptyString => false
     | String _ s' => includes s' sub
     end.

End JS.

(* ===================================================================== *)
(** * IntentEditor.tsx                                                    *)
(* ===================================================================== *)

Module IntentEditor.
Import JS.

(** The "safe access helpers" computed at each render from the [intent]
    prop. *)
Record locals : Type := {
  task : val;
  preprocessing : val;
  searchSpace : val;
  models : val
}.

Definition render (intent : val) : M locals :=
  let* t := get intent "task" in
  let* task := or_literal t (CObject ∅) in
  let* p := get intent "preprocessing" in
  let* preprocessing := or_literal p (CObject ∅) in
  let* s := get intent "search_space" in
  let* searchSpace := or_literal s (CObject ∅) in
  let* m := get searchSpace "models" in
  let* models := or_literal m (CArray []) in
  ret {| task := task; preprocessing := preprocessing;
         searchSpace := searchSpace; models := models |}.

(** Each handler returns the value it passes to [onChange].  An object
    literal with a nested literal takes two fresh locations; which of the
    two objects gets the lower one is not observable. *)
Definition updateTask (intent : val) (r : locals) (key : string) (value : val) : M val :=
  fun h =>
    (let* t := alloc (CObject (<[key := value]> (spread h (task r)))) in
     alloc (CObject (<["task" := t]> (spread h intent)))) h.

Definition updatePreprocessing (intent : val) (r : locals) (key : string) (value : val)
  : M val :=
  fun h =>
    (let* p := alloc (CObject (<[key := value]> (spread h (preprocessing r)))) in
     alloc (CObject (<["preprocessing" := p]> (spread h intent)))) h.

(** [m.name === modelName] *)
Definition has_name (modelName : string) (m : val) : M bool :=
  let* n := get m "name" in
  ret (match n with
       | VString s => String.eqb s modelName
       | _ => false
       end).

(** [xs.findIndex(m => m.name === modelName)], [None] standing for [-1];
    the elements after the first match are not visited. *)
Fixpoint findIndex (modelName : string) (xs : list val) : M (option nat) :=
  match xs with
  | [] => ret None
  | m :: xs' =>
      let* b := has_name modelName m in
      if b then ret (Some 0)
      else let* r := findIndex modelName xs' in ret (S <$> r)
  end.

Definition toggleModel (intent : val) (r : locals) (modelName : string) : M val :=
  let* elems := iterate (models r) in
  let* currentModels := alloc (CArray elems) in
  let* existingIndex := findIndex modelName elems in
  let* _ :=
    match currentModels, existingIndex with
    | VRef a, Some i => store a (CArray (delete i elems))
    | VRef a, None =>
        let* params := alloc (CObject ∅) in
        let* entry := alloc (CObject (<["name" := VString modelName]>
                                       (<["params" := params]> ∅))) in
        store a (CArray (elems ++ [entry]))
    | _, _ => throw
    end in
  fun h =>
    (let* s := alloc (CObject (<["models" := currentModels]> (spread h (searchSpace r)))) in
     alloc (CObject (<["search_space" := s]> (spread h intent)))) h.

(** A field path of the editor: a section of the intent and a key in it. *)
Inductive section : Type := Task | Preprocessing.

Definition section_name (s : section) : string :=
  match s with Task => "task" | Preprocessing => "preprocessing" end.

(** The editor as its parent sees it: render on the current intent, then
    run one handler; the result is the new intent handed to [onChange]. *)
Definition setField (intent : val) (s : section) (key : string) (value : val) : M val :=
  let* r := render intent in
  match s with
  | Task => updateTask intent r key value
  | Preprocessing => updatePreprocessing intent r key value
  end.

Definition toggle (intent : val) (modelName : string) : M val :=
  let* r := render intent in
  toggleModel intent r modelName.

(** What a later render reads as [models]. *)
Definition models_of (h : heap) (intent : val) : list val :=
  match iterate (prop h (prop h intent "search_space") "models") h with
  | Some (xs, _) => xs
  | None => []
  end.

Definition name_of (h : heap) (m : val) : val := prop h m "name".

Definition names (h : heap) (intent : val) : list val :=
  map (name_of h) (models_of h intent).

(** The field [key] of a section as a render reads it: the section object's
    own property, nothing when the section is missing. *)
Definition field (h : heap) (intent : val) (s : section) (key : string) : option val :=
  spread h (prop h intent (section_name s)) !! key.

(** The [models] value is one the editor can toggle: absent (falsy), or an
    array none of whose entries is [undefined] or [null]. *)
Definition is_entry (v : val) : Prop := v <> VUndefined /\ v <> VNull.

Definition models_ok (h : heap) (intent : val) : Prop :=
  let m := prop h (prop h intent "search_space") "models" in
  (truthy m = false
   \/ exists a xs, m = VRef a /\ h !! a = Some (CArray xs))
  /\ Forall is_entry (models_of h intent).

(** What one click on a model does to the list the editor shows: with no
    entry named [n], a new entry [{name: n, params: {}}] goes to the end;
    otherwise the first entry named [n] is taken out and the others keep
    their places. *)
Definition toggled (h h' : heap) (n : string) (xs xs' : list val) : Prop :=
  ((forall m, m ∈ xs -> name_of h m <> VString n)
   /\ exists e p,
       xs' = xs ++ [VRef e]
       /\ h' !! e = Some (CObject (<["name" := VString n]> (<["params" := VRef p]> ∅)))
       /\ h' !! p = Some (CObject ∅)
       /\ length h <= e /\ length h <= p)
  \/ (exists i m,
       xs !! i = Some m /\ name_of h m = VString n
       /\ (forall j m', j < i -> xs !! j = Some m' -> name_of h m' <> VString n)
       /\ xs' = delete i xs).

(** The cells [toggleModel] adds after the render, by the outcome of
    [findIndex]. *)
Definition toggled_cells (h1 : heap) (n : string) (xs : list val) (idx : option nat)
  : list cell :=
  match idx with
  | Some i => [CArray (delete i xs)]
  | None =>
      [ CArray (xs ++ [VRef (length h1 + 2)]);
        CObject ∅;
        CObject (<["name" := VString n]> (<["params" := VRef (length h1 + 1)]> ∅)) ]
  end.

(** Two clicks on the same model, each on a fresh render. *)
Definition toggle_twice (intent : val) (modelName : string) : M val :=
  let* once := toggle intent modelName in
  toggle once modelName.

(** [n] names at most one entry of the list.  The data model keeps the
    entries of [models] unique by name, which gives this for every [n]. *)
Definition listed_at_most_once (n : string) (ns : list val) : Prop :=
  forall i j, ns !! i = Some (VString n) -> ns !! j = Some (VString n) -> i = j.

(** ** The rest of the editor *)

(** The elements of an array value; a method call such as [models.some]
    throws on anything else the render can hold there. *)
Definition elements (v : val) : M (list val) := fun h =>
  match v with
  | VRef l =>
      match h !! l with
      | Some (CArray xs) => Some (xs, h)
      | _ => None
      end
  | _ => None
  end.

(** [xs.some(m => m.name === modelName)]: stops at the first match. *)
Fixpoint some (modelName : string) (xs : list val) : M bool :=
  match xs with
  | [] => ret false
  | m :: xs' =>
      let* b := has_name modelName m in
      if b then ret true else some modelName xs'
  end.

Definition isModelSelected (r : locals) (modelName : string) : M bool :=
  let* xs := elements (models r) in
  some modelName xs.

(** The check box of a model, on a fresh render of the intent. *)
Definition selected (intent : val) (modelName : string) : M bool :=
  let* r := render intent in
  isModelSelected r modelName.

(** The two "Missing Values" selects:
    [updatePreprocessing('missing_strategy',
       { ...preprocessing.missing_strategy, [which]: value })]
    with [which] one of [numeric] and [categorical]. *)
Definition onMissingStrategyChange (intent : val) (r : locals) (which value : string)
  : M val :=
  let* ms := get (preprocessing r) "missing_strategy" in
  let* strategy := (fun h => alloc (CObject (<[which := VString value]> (spread h ms))) h) in
  updatePreprocessing intent r "missing_strategy" strategy.

Definition setMissingStrategy (intent : val) (which value : string) : M val :=
  let* r := render intent in
  onMissingStrategyChange intent r which value.

#[export] Instance section_eq_dec : EqDecision section.
Proof. solve_decision. Defined.

(** Two field updates in a row, each on a fresh render. *)
Definition setField_twice (intent : val)
    (s1 : section) (k1 : string) (v1 : val) (s2 : section) (k2 : string) (v2 : val)
  : M val :=
  let* once := setField intent s1 k1 v1 in
  setField once s2 k2 v2.

(** [preprocessing.missing_strategy?.[which]] as a render reads it. *)
Definition missing_strategy (h : heap) (intent : val) (which : string) : option val :=
  spread h (prop h (prop h intent "preprocessing") "missing_strategy") !! which.

End IntentEditor.

(* ===================================================================== *)
(** * PromptBuilder.tsx                                                   *)
(* ===================================================================== *)

Module PromptBuilder.
Import JS.

(** ** Data carried by the component *)

Record File : Type := { file_name : string }.

Inductive SelectionMode : Type := upload | select.

(** The interfaces [Dataset] and [MLModel] of [types/api.ts], by the fields
    the component reads: [id: number] and [name: string] of a dataset;
    [id: number], [intent?: any] and [dataset?: number] of a model. *)
Record Dataset : Type := { ds_id : Z; ds_name : string }.

Record MLModel : Type := {
  mlm_id : Z;
  mlm_intent : val;
  mlm_dataset : option Z
}.

(** [IntentExtractionResponse] of [mlBuilderService.ts]; [dataset_info] is
    [any] and is read as a JSON object, [None] when [undefined] or [null]. *)
Record Validation : Type := {
  is_valid : bool;
  warnings : option (list string)
}.

Record ExperimentPlan : Type := {
  task_config : val;
  plan_preprocessing : val;
  experiments : list val
}.

Record IntentExtractionResponse : Type := {
  ier_success : bool;
  ier_intent : val;
  ier_model_id : option Z;
  ier_validation : option Validation;
  ier_experiment_plan : option ExperimentPlan;
  ier_dataset_info : option (gmap string val);
  ier_raw_prompt : string;
  ier_error : option string
}.

Record ExperimentResult : Type := {
  exp_id : string;
  exp_model : string;
  exp_status : string;
  cv_mean : option number;
  test_score : option number;
  training_time_seconds : option number
}.

Record TrainingResponse : Type := {
  tr_success : bool;
  tr_training_run_id : Z;
  tr_model_id : Z;
  tr_total_experiments : Z;
  tr_best_experiment_id : string;
  tr_best_score : number;
  tr_results : option (list ExperimentResult);
  tr_error : option string
}.

Record IntentExtractionRequest : Type := {
  req_prompt : string;
  req_dataset_id : number
}.

Record TrainingRequest : Type := {
  trq_intent : val;
  trq_model_id : option Z;
  trq_dataset_id : val;
  trq_project_id : Z;
  trq_model_name : string
}.

Inductive FormValue : Type :=
  | FormFile (f : File)
  | FormText (s : string).

Definition FormData := list (string * FormValue).

(** The [useState] cells of the component. *)
Record state : Type := {
  prompt : string;
  loading : bool;
  trainingLoading : bool;
  error : string;
  file : option File;
  selectionMode : SelectionMode;
  datasets : list Dataset;
  selectedDatasetId : string;
  intentResult : option IntentExtractionResponse;
  trainingResult : option TrainingResponse
}.

(** The state of a freshly mounted component. *)
Definition initial : state := {|
  prompt := ""; loading := false; trainingLoading := false; error := "";
  file := None; selectionMode := upload; datasets := [];
  selectedDatasetId := ""; intentResult := None; trainingResult := None
|}.

(** The state setters. *)
Inductive update : Type :=
  | setPrompt (v : string)
  | setLoading (v : bool)
  | setTrainingLoading (v : bool)
  | setError (v : string)
  | setFile (v : option File)
  | setSelectionMode (v : SelectionMode)
  | setDatasets (v : list Dataset)
  | setSelectedDatasetId (v : string)
  | setIntentResult (v : option IntentExtractionResponse)
  | setTrainingResult (v : option TrainingResponse).

Definition apply (u : update) (s : state) : state :=
  match u with
  | setPrompt v =>
      {| prompt := v; loading := loading s; trainingLoading := trainingLoading s;
         error := error s; file := file s; selectionMode := selectionMode s;
         datasets := datasets s; selectedDatasetId := selectedDatasetId s;
         intentResult := intentResult s; trainingResult := trainingResult s |}
  | setLoading v =>
      {| prompt := prompt s; loading := v; trainingLoading := trainingLoading s;
         error := error s; file := file s; selectionMode := selectionMode s;
         datasets := datasets s; selectedDatasetId := selectedDatasetId s;
         intentResult := intentResult s; trainingResult := trainingResult s |}
  | setTrainingLoading v =>
      {| prompt := prompt s; loading := loading s; trainingLoading := v;
         error := error s; file := file s; selectionMode := selectionMode s;
         datasets := datasets s; selectedDatasetId := selectedDatasetId s;
         intentResult := intentResult s; trainingResult := trainingResult s |}
  | setError v =>
      {| prompt := prompt s; loading := loading s; trainingLoading := trainingLoading s;
         error := v; file := file s; selectionMode := selectionMode s;
         datasets := datasets s; selectedDatasetId := selectedDatasetId s;
         intentResult := intentResult s; trainingResult := trainingResult s |}
  | setFile v =>
      {| prompt := prompt s; loading := loading s; trainingLoading := trainingLoading s;
         error := error s; file := v; selectionMode := selectionMode s;
         datasets := datasets s; selectedDatasetId := selectedDatasetId s;
         intentResult := intentResult s; trainingResult := trainingResult s |}
  | setSelectionMode v =>
      {| prompt := prompt s; loading := loading s; trainingLoading := trainingLoading s;
         error := error s; file := file s; selectionMode := v;
         datasets := datasets s; selectedDatasetId := selectedDatasetId s;
         intentResult := intentResult s; trainingResult := trainingResult s |}
  | setDatasets v =>
      {| prompt := prompt s; loading := loading s; trainingLoading := trainingLoading s;
         error := error s; file := file s; selectionMode := selectionMode s;
         datasets := v; selectedDatasetId := selectedDatasetId s;
         intentResult := intentResult s; trainingResult := trainingResult s |}
  | setSelectedDatasetId v =>
      {| prompt := prompt s; loading := loading s; trainingLoading := trainingLoading s;
         error := error s; file := file s; selectionMode := selectionMode s;
         datasets := datasets s; selectedDatasetId := v;
         intentResult := intentResult s; trainingResult := trainingResult s |}
  | setIntentResult v =>
      {| prompt := prompt s; loading := loading s; trainingLoading := trainingLoading s;
         error := error s; file := file s; selectionMode := selectionMode s;
         datasets := datasets s; selectedDatasetId := selectedDatasetId s;
         intentResult := v; trainingResult := trainingResult s |}
  | setTrainingResult v =>
      {| prompt := prompt s; loading := loading s; trainingLoading := trainingLoading s;
         error := error s; file := file s; selectionMode := selectionMode s;
         datasets := datasets s; selectedDatasetId := selectedDatasetId s;
         intentResult := intentResult s; trainingResult := v |}
  end.

(** ** Backend calls and thrown errors *)

(** What a [catch (err: any)] block reads of the value it caught:
    [err.response?.data?.error] and [err.message]. *)
Record Thrown : Type := {
  response_data_error : option string;
  message : option string
}.

(** [new Error(msg)] *)
Definition Error (msg : string) : Thrown :=
  {| response_data_error := None; message := Some msg |}.

Definition or_string (o : option string) (fallback : string) : string :=
  match o with
  | Some s => if truthy_string s then s else fallback
  | None => fallback
  end.

(** [err.response?.data?.error || err.message || fallback] *)
Definition error_text (err : Thrown) (fallback : string) : string :=
  or_string (response_data_error err) (or_string (message err) fallback).

Inductive result (A : Type) : Type :=
  | Ok (a : A)
  | Err (e : Thrown).
Arguments Ok {A} a.
Arguments Err {A} e.

(** The requests of [projectService] and [mlBuilderService]. *)
Inductive call : Type :=
  | getModel (id : Z)
  | getDatasets (projectId : option Z)
  | uploadDataset (formData : FormData)
  | extractIntent (data : IntentExtractionRequest)
  | startTraining (data : TrainingRequest).

(** The backend, as the answers it gives. *)
Record backend : Type := {
  on_getModel : Z -> result (option MLModel);
  on_getDatasets : option Z -> result (list Dataset);
  on_uploadDataset : FormData -> result Dataset;
  on_extractIntent : IntentExtractionRequest -> result IntentExtractionResponse;
  on_startTraining : TrainingRequest -> result TrainingResponse
}.

(** An async handler: state updates in program order, each [await]
    branching on how the promise settles.  The values a handler reads from
    the component ([prompt], [file], ...) are those of the render that
    created it. *)
Inductive handler : Type :=
  | Done
  | Set_ (u : update) (k : handler)
  | AwaitGetModel (id : Z) (k : result (option MLModel) -> handler)
  | AwaitGetDatasets (projectId : option Z) (k : result (list Dataset) -> handler)
  | AwaitUploadDataset (formData : FormData) (k : result Dataset -> handler)
  | AwaitExtractIntent (data : IntentExtractionRequest)
      (k : result IntentExtractionResponse -> handler)
  | AwaitStartTraining (data : TrainingRequest) (k : result TrainingResponse -> handler).

Inductive event : Type :=
  | EvSet (u : update)
  | EvCall (c : call).

(** Running a handler against a backend: the final state and the trace of
    updates and requests. *)
Fixpoint run (b : backend) (p : handler) (s : state) : state * list event :=
  match p with
  | Done => (s, [])
  | Set_ u k => let '(s', t) := run b k (apply u s) in (s', EvSet u :: t)
  | AwaitGetModel id k =>
      let '(s', t) := run b (k (on_getModel b id)) s in (s', EvCall (getModel id) :: t)
  | AwaitGetDatasets pid k =>
      let '(s', t) := run b (k (on_getDatasets b pid)) s in
      (s', EvCall (getDatasets pid) :: t)
  | AwaitUploadDataset fd k =>
      let '(s', t) := run b (k (on_uploadDataset b fd)) s in
      (s', EvCall (uploadDataset fd) :: t)
  | AwaitExtractIntent d k =>
      let '(s', t) := run b (k (on_extractIntent b d)) s in
      (s', EvCall (extractIntent d) :: t)
  | AwaitStartTraining d k =>
      let '(s', t) := run b (k (on_startTraining b d)) s in
      (s', EvCall (startTraining d) :: t)
  end.

Definition calls (t : list event) : list call :=
  omap (fun e => match e with EvCall c => Some c | EvSet _ => None end) t.

Definition updates (t : list event) : list update :=
  omap (fun e => match e with EvSet u => Some u | EvCall _ => None end) t.

(** ** The handlers *)

(** Truthiness of an optional integer ([projectId], [model.dataset]). *)
Definition truthy_id (o : option Z) : bool :=
  match o with
  | Some z => negb (z =? 0)%Z
  | None => false
  end.

Definition loadModel (id : Z) : handler :=
  let finally_ := Set_ (setLoading false) Done in
  Set_ (setLoading true)
    (AwaitGetModel id (fun r =>
       match r with
       | Ok (Some model) =>
           let dataset_part :=
             match mlm_dataset model with
             | Some d =>
                 if truthy_id (Some d)
                 then Set_ (setSelectionMode select)
                        (Set_ (setSelectedDatasetId (toString d)) finally_)
                 else finally_
             | None => finally_
             end in
           if truthy (mlm_intent model)
           then Set_ (setIntentResult (Some {|
                        ier_success := true;
                        ier_intent := mlm_intent model;
                        ier_model_id := Some (mlm_id model);
                        ier_validation := Some {| is_valid := true; warnings := None |};
                        ier_experiment_plan := None;
                        ier_dataset_info := Some ∅;
                        ier_raw_prompt := "";
                        ier_error := None |}))
                  dataset_part
           else dataset_part
       | Ok None => finally_
       | Err _ => Set_ (setError "Failed to load model details.") finally_
       end)).

Definition upload_form (f : File) (projectId : Z) : FormData :=
  [ ("file_path", FormFile f);
    ("name", FormText (before_dot (file_name f)));
    ("description", FormText "Uploaded via Model Builder");
    ("project", FormText (toString projectId)) ].

Definition handleSubmit (projectId : option Z) (s : state) : handler :=
  match projectId with
  | Some pid =>
    if negb (truthy_id projectId) then
      Set_ (setError "Project context missing. Please refresh the page.") Done
    else if negb (truthy_string (trim (prompt s))) then
      Set_ (setError "Please enter a prompt") Done
    else if match selectionMode s, file s with upload, None => true | _, _ => false end then
      Set_ (setError "Please upload a dataset file") Done
    else if match selectionMode s with
            | select => negb (truthy_string (selectedDatasetId s))
            | upload => false
            end then
      Set_ (setError "Please select a dataset") Done
    else
      let finally_ := Set_ (setLoading false) (Set_ (setTrainingLoading false) Done) in
      let catch (err : Thrown) :=
        Set_ (setError (error_text err "An error occurred. Please try again.")) finally_ in
      (* Step 2: extract intent, using the dataset id *)
      let extract (finalDatasetId : option number) :=
        match finalDatasetId with
        | Some n =>
            if negb (truthy_number n) then catch (Error "Failed to resolve dataset ID")
            else
              AwaitExtractIntent {| req_prompt := prompt s; req_dataset_id := n |}
                (fun r =>
                   match r with
                   | Ok result =>
                       if negb (ier_success result)
                       then catch (Error (or_string (ier_error result)
                                                    "Failed to extract intent"))
                       else Set_ (setIntentResult (Some result)) finally_
                   | Err e => catch e
                   end)
        | None => catch (Error "Failed to resolve dataset ID")
        end in
      Set_ (setLoading true)
        (Set_ (setError "")
           (Set_ (setIntentResult None)
              (Set_ (setTrainingResult None)
                 (* Step 1: handle the dataset, uploading it if needed *)
                 match selectionMode s, file s with
                 | upload, Some f =>
                     AwaitUploadDataset (upload_form f pid) (fun r =>
                       match r with
                       | Ok uploadedDataset =>
                           AwaitGetDatasets projectId (fun r' =>
                             match r' with
                             | Ok results =>
                                 Set_ (setDatasets results)
                                   (extract (Some (of_Z (ds_id uploadedDataset))))
                             | Err e => catch e
                             end)
                       | Err e => catch e
                       end)
                 | _, _ =>
                     if truthy_string (selectedDatasetId s)
                     then extract (Some (parseInt (selectedDatasetId s)))
                     else extract None
                 end)))
  | None => Set_ (setError "Project context missing. Please refresh the page.") Done
  end.

Definition handleReset : handler :=
  Set_ (setPrompt "")
    (Set_ (setFile None)
       (Set_ (setIntentResult None)
          (Set_ (setTrainingResult None)
             (Set_ (setError "") Done)))).

(** [intentResult.dataset_info?.dataset_id] *)
Definition extraction_dataset_id (r : IntentExtractionResponse) : val :=
  match ier_dataset_info r with
  | Some info => default VUndefined (info !! "dataset_id")
  | None => VUndefined
  end.

(** The dataset id [handleStartTraining] puts in its request. *)
Definition finalDatasetId (s : state) (r : IntentExtractionResponse) : val :=
  if match selectionMode s with
     | select => truthy_string (selectedDatasetId s)
     | upload => false
     end
  then VNumber (parseInt (selectedDatasetId s))
  else if truthy (extraction_dataset_id r) then extraction_dataset_id r
  else VNumber (of_Z 1).

(** [now] is the text of [new Date().toLocaleString()] at the click. *)
Definition handleStartTraining (projectId : option Z) (now : string) (s : state) : handler :=
  match intentResult s with
  | Some r =>
      if negb (truthy (ier_intent r)) then Set_ (setError "No intent available") Done
      else
        let finally_ := Set_ (setTrainingLoading false) Done in
        let trainingRequest := {|
          trq_intent := ier_intent r;
          trq_model_id := ier_model_id r;
          trq_dataset_id := finalDatasetId s r;
          trq_project_id := match projectId with
                            | Some pid => if truthy_id projectId then pid else 1%Z
                            | None => 1%Z
                            end;
          trq_model_name := "Model - " ++ now |} in
        Set_ (setTrainingLoading true)
          (Set_ (setError "")
             (AwaitStartTraining trainingRequest (fun res =>
                match res with
                | Ok result => Set_ (setTrainingResult (Some result)) finally_
                | Err err =>
                    Set_ (setError (error_text err
                                      "Failed to start training. Please try again."))
                      finally_
                end)))
  | None => Set_ (setError "No intent available") Done
  end.

(** The [onChange] passed to the editor:
    [setIntentResult({ ...intentResult, intent: newIntent })].  The editor
    is rendered only under [intentResult && intentResult.intent], so the
    closure always holds an extraction result. *)
Definition onChange (s : state) (newIntent : val) : handler :=
  match intentResult s with
  | Some r =>
      Set_ (setIntentResult (Some {|
              ier_success := ier_success r;
              ier_intent := newIntent;
              ier_model_id := ier_model_id r;
              ier_validation := ier_validation r;
              ier_experiment_plan := ier_experiment_plan r;
              ier_dataset_info := ier_dataset_info r;
              ier_raw_prompt := ier_raw_prompt r;
              ier_error := ier_error r |})) Done
  | None => Done
  end.

(** ** The results table *)

(** [x || 0] on an optional number *)
Definition or_zero (x : option number) : number :=
  match x with
  | Some n => if truthy_number n then n else Fin 0
  | None => Fin 0
  end.

Definition minus (a b : number) : number :=
  match a, b with
  | Fin x, Fin y => Fin (x - y)
  | _, _ => NaN
  end.

(** The sign [sort] reads off the comparator's result; NaN counts as 0. *)
Definition sign (n : number) : comparison :=
  match n with
  | NaN => Eq
  | Fin q => (q ?= 0)%Q
  end.

(** [(a, b) => (b.test_score || 0) - (a.test_score || 0)] *)
Definition compareFn (a b : ExperimentResult) : number :=
  minus (or_zero (test_score b)) (or_zero (test_score a)).

Definition completed (r : ExperimentResult) : bool := String.eqb (exp_status r) "completed".

(** The score a row is ranked by. *)
Definition score (r : ExperimentResult) : Q :=
  match or_zero (test_score r) with
  | Fin q => q
  | NaN => 0%Q
  end.

(** The rows of the results table, top to bottom. *)
Definition ranking (results : list ExperimentResult) : list ExperimentResult :=
  sort (fun a b => sign (compareFn a b)) (List.filter completed results).

(** ** Vocabulary of the statements *)

(** The selection is complete: a file attached in upload mode, a dataset id
    picked in select mode. *)
Definition complete (s : state) : bool :=
  match selectionMode s with
  | upload => match file s with Some _ => true | None => false end
  | select => truthy_string (selectedDatasetId s)
  end.

(** The messages [handleSubmit] shows when it refuses its input. *)
Definition input_errors : list string :=
  [ "Project context missing. Please refresh the page.";
    "Please enter a prompt";
    "Please upload a dataset file";
    "Please select a dataset" ].

(** Dataset resolution has begun: the handler went past its guards and
    raised the loading flag. *)
Definition resolution_started (t : list event) : Prop :=
  In (EvSet (setLoading true)) t.

(** Row [a] may stand above row [b]. *)
Definition descending (a b : ExperimentResult) : Prop := (score b <= score a)%Q.

(** The rows whose score equals [q]. *)
Definition tie (q : Q) (r : ExperimentResult) : bool := Qeq_bool (score r) q.

(** Row [a] stands above row [b] in the table. *)
Definition above (a b : ExperimentResult) (table : list ExperimentResult) : Prop :=
  exists l1 l2 l3, table = l1 ++ a :: l2 ++ b :: l3.

(** ** The rest of the component *)

(** The effect run when [initialModelId] is set or changes. *)
Definition resume (initialModelId : option Z) : handler :=
  match initialModelId with
  | Some id => if truthy_id initialModelId then loadModel id else Done
  | None => Done
  end.

(** The effect run on mount and when [projectId] changes; a failure is
    logged and nothing else. *)
Definition fetchDatasets (projectId : option Z) : handler :=
  AwaitGetDatasets projectId (fun r =>
    match r with
    | Ok results => Set_ (setDatasets results) Done
    | Err _ => Done
    end).

(** [selectedFile] is [e.target.files?.[0]]. *)
Definition handleFileChange (selectedFile : option File) : handler :=
  match selectedFile with
  | Some f => Set_ (setFile (Some f)) Done
  | None => Done
  end.

Definition removeFile : handler := Set_ (setFile None) Done.

Definition isSubmitDisabled (s : state) : bool :=
  negb (truthy_string (trim (prompt s)))
  || match selectionMode s, file s with upload, None => true | _, _ => false end
  || match selectionMode s with
     | select => negb (truthy_string (selectedDatasetId s))
     | upload => false
     end
  || loading s
  || trainingLoading s.

(** The state after a sequence of setter calls. *)
Definition apply_all (us : list update) (s : state) : state :=
  fold_left (fun s u => apply u s) us s.

(** [t] runs the steps of [l1] and of [l2], each in its own order,
    interleaved in some way. *)
Inductive interleaving {A : Type} : list A -> list A -> list A -> Prop :=
  | interleaving_nil : interleaving [] [] []
  | interleaving_left x l1 l2 t :
      interleaving l1 l2 t -> interleaving (x :: l1) l2 (x :: t)
  | interleaving_right x l1 l2 t :
      interleaving l1 l2 t -> interleaving l1 (x :: l2) (x :: t).

Definition sets_datasets (u : update) : bool :=
  match u with setDatasets _ => true | _ => false end.

End PromptBuilder.

(* ===================================================================== *)
(** * DatasetUploadModal.tsx                                              *)
(* ===================================================================== *)

Module DatasetUploadModal.
Import JS.
Import PromptBuilder (File, FormData, FormValue, FormFile, FormText, Dataset,
                      Thrown, response_data_error, result, Ok, Err, or_string).

Record state : Type := {
  file : option File;
  name : string;
  description : string;
  uploading : bool;
  error : string
}.

Inductive update : Type :=
  | setFile (v : option File)
  | setName (v : string)
  | setDescription (v : string)
  | setUploading (v : bool)
  | setError (v : string).

Definition apply (u : update) (s : state) : state :=
  match u with
  | setFile v =>
      {| file := v; name := name s; description := description s;
         uploading := uploading s; error := error s |}
  | setName v =>
      {| file := file s; name := v; description := description s;
         uploading := uploading s; error := error s |}
  | setDescription v =>
      {| file := file s; name := name s; description := v;
         uploading := uploading s; error := error s |}
  | setUploading v =>
      {| file := file s; name := name s; description := description s;
         uploading := v; error := error s |}
  | setError v =>
      {| file := file s; name := name s; description := description s;
         uploading := uploading s; error := v |}
  end.

(** What a handler does, in order: setter calls, the upload request, and the
    callbacks [onUploadSuccess] and [onClose] of the parent. *)
Inductive event : Type :=
  | EvSet (u : update)
  | EvUpload (formData : FormData)
  | EvUploadSuccess (dataset : Dataset)
  | EvClose.

Definition handleClose : list event :=
  [ EvSet (setFile None); EvSet (setName ""); EvSet (setDescription "");
    EvSet (setError ""); EvClose ].

(** [projectId = 1] in the parameter list: the default stands in for a
    prop that is not passed, and for that only. *)
Definition project_of (projectId : option Z) : Z :=
  match projectId with Some p => p | None => 1%Z end.

(** [uploadDataset] is the answer of the backend to the request. *)
Definition handleSubmit (projectId : option Z) (s : state)
    (uploadDataset : FormData -> result Dataset) : list event :=
  match file s with
  | Some f =>
      if negb (truthy_string (name s))
      then [ EvSet (setError "Please select a file and provide a name") ]
      else
        let formData : FormData :=
          [ ("file_path", FormFile f);
            ("name", FormText (name s));
            ("description", FormText (description s));
            ("project", FormText (toString (project_of projectId))) ] in
        [ EvSet (setUploading true); EvSet (setError ""); EvUpload formData ]
        ++ match uploadDataset formData with
           | Ok dataset => EvUploadSuccess dataset :: handleClose
           | Err err =>
               [ EvSet (setError (or_string (response_data_error err)
                                    "Failed to upload dataset. Please try again.")) ]
           end
        ++ [ EvSet (setUploading false) ]
  | None => [ EvSet (setError "Please select a file and provide a name") ]
  end.

(** The state after the setter calls of a trace. *)
Definition after (t : list event) (s : state) : state :=
  fold_left (fun s e => match e with EvSet u => apply u s | _ => s end) t s.

Definition uploads (t : list event) : list FormData :=
  omap (fun e => match e with EvUpload fd => Some fd | _ => None end) t.

End DatasetUploadModal.

(* ===================================================================== *)
(** * Models.tsx                                                          *)
(* ===================================================================== *)

Module Models.
Import JS.
Import PromptBuilder (result, Ok, Err).

(** The fields of [MLModel] this page reads. *)
Record MLModel : Type := {
  id : Z;
  name : string;
  algorithm : option string;
  status : string
}.

Record state : Type := {
  models : list MLModel;
  loading : bool;
  searchTerm : string;
  isDeleteDialogOpen : bool;
  modelToDelete : option MLModel
}.

Inductive update : Type :=
  | setModels (v : list MLModel)
  | setLoading (v : bool)
  | setSearchTerm (v : string)
  | setIsDeleteDialogOpen (v : bool)
  | setModelToDelete (v : option MLModel).

Definition apply (u : update) (s : state) : state :=
  match u with
  | setModels v =>
      {| models := v; loading := loading s; searchTerm := searchTerm s;
         isDeleteDialogOpen := isDeleteDialogOpen s; modelToDelete := modelToDelete s |}
  | setLoading v =>
      {| models := models s; loading := v; searchTerm := searchTerm s;
         isDeleteDialogOpen := isDeleteDialogOpen s; modelToDelete := modelToDelete s |}
  | setSearchTerm v =>
      {| models := models s; loading := loading s; searchTerm := v;
         isDeleteDialogOpen := isDeleteDialogOpen s; modelToDelete := modelToDelete s |}
  | setIsDeleteDialogOpen v =>
      {| models := models s; loading := loading s; searchTerm := searchTerm s;
         isDeleteDialogOpen := v; modelToDelete := modelToDelete s |}
  | setModelToDelete v =>
      {| models := models s; loading := loading s; searchTerm := searchTerm s;
         isDeleteDialogOpen := isDeleteDialogOpen s; modelToDelete := v |}
  end.

Inductive event : Type :=
  | EvSet (u : update)
  | EvDeleteModel (id : Z)
  | EvToastSuccess (msg : string)
  | EvToastError (msg : string).

Definition handleDeleteClick (model : MLModel) : list event :=
  [ EvSet (setModelToDelete (Some model)); EvSet (setIsDeleteDialogOpen true) ].

(** [deleteModel] is the answer of the backend to the request. *)
Definition confirmDelete (s : state) (deleteModel : Z -> result unit) : list event :=
  match modelToDelete s with
  | Some target =>
      EvDeleteModel (id target)
      :: match deleteModel (id target) with
         | Ok _ =>
             [ EvSet (setModels
                        (List.filter (fun m => negb (id m =? id target)%Z) (models s)));
               EvToastSuccess "Model deleted successfully" ]
         | Err _ => [ EvToastError "Failed to delete model" ]
         end
      ++ [ EvSet (setIsDeleteDialogOpen false); EvSet (setModelToDelete None) ]
  | None => []
  end.

Definition after (t : list event) (s : state) : state :=
  fold_left (fun s e => match e with EvSet u => apply u s | _ => s end) t s.

(** The search box: name or algorithm contains the term, case apart. *)
Definition matches (term : string) (model : MLModel) : bool :=
  includes (toLowerCase (name model)) (toLowerCase term)
  || match algorithm model with
     | Some a => includes (toLowerCase a) (toLowerCase term)
     | None => false
     end.

Definition filteredModels (s : state) : list MLModel :=
  List.filter (matches (searchTerm s)) (models s).

(** [occurs term s]: [s] has a piece equal to [term] up to the case of its
    letters. *)
Definition occurs (term s : string) : Prop :=
  exists a x b, s = String.append a (String.append x b)
                /\ toLowerCase x = toLowerCase term.

End Models.

(* ===================================================================== *)
(** * AuthProvider.tsx                                                    *)
(* ===================================================================== *)

Module AuthProvider.

(** The fields of firebase's [User] that [toAuthUser] reads. *)
Record User : Type := {
  user_uid : string;
  user_email : option string;
  user_displayName : option string;
  user_photoURL : option string;
  user_emailVerified : bool
}.

Record AuthUser : Type := {
  uid : string;
  email : option string;
  displayName : option string;
  photoURL : option string;
  emailVerified : bool
}.

Definition toAuthUser (user : User) : AuthUser :=
  {| uid := user_uid user; email := user_email user;
     displayName := user_displayName user; photoURL := user_photoURL user;
     emailVerified := user_emailVerified user |}.

(** The value of the context: the three state cells of the provider. *)
Record AuthContextType : Type := {
  user : option AuthUser;
  loading : bool;
  error : option string
}.

Definition initial : AuthContextType :=
  {| user := None; loading := true; error := None |}.

(** What the observer registered with [onAuthStateChanged] is told: the
    next user (or [null]), or an error of the observer. *)
Inductive notification : Type :=
  | NextUser (firebaseUser : option User)
  | ObserverError.

Definition onAuthStateChanged (n : notification) (s : AuthContextType)
    : AuthContextType :=
  match n with
  | NextUser firebaseUser =>
      {| user := match firebaseUser with
                 | Some u => Some (toAuthUser u)
                 | None => None
                 end;
         loading := false; error := None |}
  | ObserverError =>
      {| user := user s; loading := false;
         error := Some "Authentication error occurred" |}
  end.

Definition notified (ns : list notification) : AuthContextType :=
  fold_left (fun s n => onAuthStateChanged n s) ns initial.

End AuthProvider.

(* ===================================================================== *)
(** * App.tsx and ProtectedRoute.tsx                                      *)
(* ===================================================================== *)

Module App.
Import AuthProvider.

(** The routes of [App], by the [path] that matched: ["/"], ["/login"],
    ["/register"], ["/dashboard"] and ["*"]. *)
Inductive route : Type := Home | LoginRoute | RegisterRoute | DashboardRoute | CatchAll.

Inductive page : Type := Landing | Login | Register | Dashboard.

Inductive element : Type :=
  | Spinner
  | Page (p : page)
  | Navigate (to : route).

Definition ProtectedRoute (ctx : AuthContextType) (children : element) : element :=
  if loading ctx then Spinner
  else match user ctx with
       | None => Navigate LoginRoute
       | Some _ => children
       end.

Definition AuthRedirect (ctx : AuthContextType) (children : element) : element :=
  if loading ctx then Spinner
  else match user ctx with
       | Some _ => Navigate DashboardRoute
       | None => children
       end.

Definition App (ctx : AuthContextType) (location : route) : element :=
  match location with
  | Home => Page Landing
  | LoginRoute => AuthRedirect ctx (Page Login)
  | RegisterRoute => AuthRedirect ctx (Page Register)
  | DashboardRoute => ProtectedRoute ctx (Page Dashboard)
  | CatchAll => Navigate Home
  end.

End App.

(* ===================================================================== *)
(** * Sample data                                                         *)
(* ===================================================================== *)

Module Examples.
Import JS IntentEditor PromptBuilder.

Definition result_of (id status : string) (s : option number) : ExperimentResult :=
  {| exp_id := id; exp_model := "random_forest"; exp_status := status;
     cv_mean := None; test_score := s; training_time_seconds := None |}.

Definition example_results : list ExperimentResult :=
  [ result_of "a" "completed" (Some (Fin (8 # 10)));
    result_of "b" "failed" (Some (Fin (95 # 100)));
    result_of "c" "completed" (Some (Fin (9 # 10))) ].

(** Two completed runs of a regression scored by R2: one scored below zero,
    one with no score. *)
Definition negative_results : list ExperimentResult :=
  [ result_of "neg" "completed" (Some (Fin (-5 # 10)));
    result_of "missing" "completed" None ].

(** An extracted intent at location 0:
    [{task: {type, metric}, search_space: {models: [{name: "xgboost", params: {}}]}}]. *)
Definition example_heap : heap :=
  [ CObject (<["task" := VRef 1]> (<["search_space" := VRef 2]> ∅));
    CObject (<["type" := VString "regression"]> (<["metric" := VString "rmse"]> ∅));
    CObject (<["models" := VRef 3]> ∅);
    CArray [VRef 4];
    CObject (<["name" := VString "xgboost"]> (<["params" := VRef 5]> ∅));
    CObject ∅ ].

(** An intent at location 0 that lists ["xgboost"] twice. *)
Definition duplicate_heap : heap :=
  [ CObject (<["search_space" := VRef 1]> ∅);
    CObject (<["models" := VRef 2]> ∅);
    CArray [VRef 3; VRef 4];
    CObject (<["name" := VString "xgboost"]> (<["params" := VRef 5]> ∅));
    CObject (<["name" := VString "xgboost"]> (<["params" := VRef 5]> ∅));
    CObject ∅ ].

(** An intent at location 0 with preprocessing choices:
    [{preprocessing: {scaling: "minmax",
                      missing_strategy: {numeric: "mean", categorical: "constant"}}}]. *)
Definition strategy_heap : heap :=
  [ CObject (<["preprocessing" := VRef 1]> ∅);
    CObject (<["scaling" := VString "minmax"]> (<["missing_strategy" := VRef 2]> ∅));
    CObject (<["numeric" := VString "mean"]> (<["categorical" := VString "constant"]> ∅)) ].

(** An intent at location 0 with no [search_space]: [{task: null}]. *)
Definition bare_heap : heap := [ CObject (<["task" := VNull]> ∅) ].

Definition network_error : Thrown :=
  {| response_data_error := None; message := Some "Network Error" |}.

(** A backend that fails every request. *)
Definition offline : backend := {|
  on_getModel := fun _ => Err network_error;
  on_getDatasets := fun _ => Err network_error;
  on_uploadDataset := fun _ => Err network_error;
  on_extractIntent := fun _ => Err network_error;
  on_startTraining := fun _ => Err network_error
|}.

Definition extracted : IntentExtractionResponse := {|
  ier_success := true;
  ier_intent := VRef 0;
  ier_model_id := Some 5%Z;
  ier_validation := Some {| is_valid := true; warnings := Some ["Few rows"] |};
  ier_experiment_plan := None;
  ier_dataset_info := Some (<["dataset_id" := VNumber (of_Z 3)]> ∅);
  ier_raw_prompt := "predict churn";
  ier_error := None
|}.

(** A session reviewing an extracted intent, with dataset 7 picked from the
    list. *)
Definition reviewing : state := {|
  prompt := "predict churn"; loading := false; trainingLoading := false;
  error := ""; file := None; selectionMode := select;
  datasets := [ {| ds_id := 7; ds_name := "customers" |} ];
  selectedDatasetId := "7"; intentResult := Some extracted; trainingResult := None
|}.

(** The same session before the extraction. *)
Definition ready : state := {|
  prompt := "predict churn"; loading := false; trainingLoading := false;
  error := ""; file := None; selectionMode := select;
  datasets := [ {| ds_id := 7; ds_name := "customers" |} ];
  selectedDatasetId := "7"; intentResult := None; trainingResult := None
|}.

Definition rejection : IntentExtractionResponse := {|
  ier_success := false;
  ier_intent := VUndefined;
  ier_model_id := None;
  ier_validation := None;
  ier_experiment_plan := None;
  ier_dataset_info := None;
  ier_raw_prompt := "predict churn";
  ier_error := Some "Target column not found"
|}.

(** A backend whose extraction answers 200 with [success: false]. *)
Definition rejecting : backend := {|
  on_getModel := fun _ => Err network_error;
  on_getDatasets := fun _ => Err network_error;
  on_uploadDataset := fun _ => Err network_error;
  on_extractIntent := fun _ => Ok rejection;
  on_startTraining := fun _ => Err network_error
|}.

(** A persisted draft: intent at location 0, dataset 12. *)
Definition draft : MLModel :=
  {| mlm_id := 5; mlm_intent := VRef 0; mlm_dataset := Some 12%Z |}.

Definition serving_draft : backend := {|
  on_getModel := fun _ => Ok (Some draft);
  on_getDatasets := fun _ => Err network_error;
  on_uploadDataset := fun _ => Err network_error;
  on_extractIntent := fun _ => Err network_error;
  on_startTraining := fun _ => Err network_error
|}.

(** A backend that accepts an upload as dataset 9, lists the datasets and
    extracts an intent. *)
Definition uploading : backend := {|
  on_getModel := fun _ => Err network_error;
  on_getDatasets := fun _ =>
    Ok [ {| ds_id := 9; ds_name := "churn" |}; {| ds_id := 7; ds_name := "customers" |} ];
  on_uploadDataset := fun _ => Ok {| ds_id := 9; ds_name := "churn" |};
  on_extractIntent := fun _ => Ok extracted;
  on_startTraining := fun _ => Err network_error
|}.

(** A backend that accepts an upload and then fails. *)
Definition uploading_only : backend := {|
  on_getModel := fun _ => Err network_error;
  on_getDatasets := fun _ => Err network_error;
  on_uploadDataset := fun _ => Ok {| ds_id := 9; ds_name := "churn" |};
  on_extractIntent := fun _ => Ok extracted;
  on_startTraining := fun _ => Err network_error
|}.

(** A backend that serves the draft and a dataset list. *)
Definition resuming : backend := {|
  on_getModel := fun _ => Ok (Some draft);
  on_getDatasets := fun _ => Ok [ {| ds_id := 9; ds_name := "churn" |} ];
  on_uploadDataset := fun _ => Err network_error;
  on_extractIntent := fun _ => Err network_error;
  on_startTraining := fun _ => Err network_error
|}.

(** A training response with [success: false] and a backend that answers
    every training request with it. *)
Definition failed_training : TrainingResponse := {|
  tr_success := false;
  tr_training_run_id := 0;
  tr_model_id := 5;
  tr_total_experiments := 0;
  tr_best_experiment_id := "";
  tr_best_score := Fin 0;
  tr_results := None;
  tr_error := Some "No experiments could be compiled"
|}.

Definition training_failed : backend := {|
  on_getModel := fun _ => Err network_error;
  on_getDatasets := fun _ => Err network_error;
  on_uploadDataset := fun _ => Err network_error;
  on_extractIntent := fun _ => Err network_error;
  on_startTraining := fun _ => Ok failed_training
|}.

End Examples.

(* ===================================================================== *)
(** * Facts about the primitives                                          *)
(* ===================================================================== *)

Module JSFacts.
Import JS.

(** ** Trimming *)

Lemma trimStart_blank s : blank s = true -> trimStart s = "".
Proof.
  induction s as [|c s IH]; simpl; [reflexivity|].
  destruct (isWhiteSpace c); simpl; [exact IH|discriminate].
Qed.

Lemma trimEnd_head c s : isWhiteSpace c = false -> trimEnd (String c s) <> "".
Proof.
  intros Hc. simpl. destruct (trimEnd s); [rewrite Hc|]; discriminate.
Qed.

Lemma trimStart_not_blank s :
  blank s = false -> exists c s', trimStart s = String c s' /\ isWhiteSpace c = false.
Proof.
  induction s as [|c s IH]; simpl; [discriminate|].
  destruct (isWhiteSpace c) eqn:Hc; simpl; [exact IH|].
  intros _. now exists c, s.
Qed.

Lemma truthy_trim s : truthy_string (trim s) = negb (blank s).
Proof.
  unfold trim. destruct (blank s) eqn:Hb; simpl.
  - now rewrite trimStart_blank.
  - destruct (trimStart_not_blank s Hb) as (c & s' & -> & Hc).
    pose proof (trimEnd_head c s' Hc) as Hne.
    destruct (trimEnd (String c s')); [congruence|reflexivity].
Qed.

Lemma truthy_string_ne s : truthy_string s = true <-> s <> "".
Proof. destruct s; simpl; split; congruence. Qed.

(** ** Decimal round trip: [parseInt(n.toString())] is [n] *)

Lemma parse_digits_acc u p :
  parse_digits 10 (Some (Zpos p)) (NilEmpty.string_of_uint u)
  = Some (Zpos (Pos.of_uint_acc u p)).
Proof.
  revert p. induction u; intros p; cbn [NilEmpty.string_of_uint parse_digits Pos.of_uint_acc];
    try reflexivity;
    change (digit_value 10 _) with (Some 0%Z) ||
    change (digit_value 10 _) with (Some 1%Z) ||
    change (digit_value 10 _) with (Some 2%Z) ||
    change (digit_value 10 _) with (Some 3%Z) ||
    change (digit_value 10 _) with (Some 4%Z) ||
    change (digit_value 10 _) with (Some 5%Z) ||
    change (digit_value 10 _) with (Some 6%Z) ||
    change (digit_value 10 _) with (Some 7%Z) ||
    change (digit_value 10 _) with (Some 8%Z) ||
    change (digit_value 10 _) with (Some 9%Z);
    cbv iota; rewrite <- IHu; do 2 f_equal; lia.
Qed.

Lemma parse_digits_zero u :
  parse_digits 10 (Some 0%Z) (NilEmpty.string_of_uint u)
  = Some (Z.of_N (Pos.of_uint u)).
Proof.
  induction u; cbn [NilEmpty.string_of_uint parse_digits Pos.of_uint];
    try reflexivity; try exact IHu; apply parse_digits_acc.
Qed.

Lemma parse_digits_uint u :
  u <> Decimal.Nil ->
  parse_digits 10 None (NilEmpty.string_of_uint u) = Some (Z.of_N (Pos.of_uint u)).
Proof.
  destruct u; intros Hu; try congruence;
    cbn [NilEmpty.string_of_uint parse_digits Pos.of_uint];
    try apply parse_digits_zero; apply parse_digits_acc.
Qed.

(** The digits of a numeral start with a digit, and "0x" never occurs. *)
Lemma parseInt_uint u :
  u <> Decimal.Nil ->
  parseInt (NilEmpty.string_of_uint u) = of_Z (Z.of_N (Pos.of_uint u))
  /\ parseInt (String "-" (NilEmpty.string_of_uint u)) = of_Z (- Z.of_N (Pos.of_uint u)).
Proof.
  intros Hu. pose proof (parse_digits_uint u Hu) as Hp.
  assert (Hshape : trimStart (NilEmpty.string_of_uint u) = NilEmpty.string_of_uint u
                   /\ strip_sign (NilEmpty.string_of_uint u) = (1%Z, NilEmpty.string_of_uint u)
                   /\ strip_hex_prefix (NilEmpty.string_of_uint u)
                      = (10%Z, NilEmpty.string_of_uint u)).
  { destruct u as [|u|u|u|u|u|u|u|u|u|u]; try congruence; try (repeat split; reflexivity).
    destruct u; repeat split; reflexivity. }
  destruct Hshape as (H1 & H2 & H3). split.
  - unfold parseInt. rewrite H1, H2, H3, Hp. f_equal; lia.
  - unfold parseInt. cbn [trimStart]. 
    change (isWhiteSpace "-") with false. cbv iota. cbn [strip_sign].
    rewrite H3, Hp. f_equal; lia.
Qed.

Lemma parseInt_toString d : parseInt (toString d) = of_Z d.
Proof.
  unfold toString. destruct d as [|p|p].
  - reflexivity.
  - cbn [Z.to_int NilZero.string_of_int].
    assert (Hu : Pos.to_uint p <> Decimal.Nil) by apply DecimalPos.Unsigned.to_uint_nonnil.
    unfold NilZero.string_of_uint.
    destruct (parseInt_uint _ Hu) as [H _].
    rewrite DecimalPos.Unsigned.of_to in H.
    destruct (Pos.to_uint p); [congruence|exact H..].
  - cbn [Z.to_int NilZero.string_of_int].
    assert (Hu : Pos.to_uint p <> Decimal.Nil) by apply DecimalPos.Unsigned.to_uint_nonnil.
    unfold NilZero.string_of_uint.
    destruct (parseInt_uint _ Hu) as [_ H].
    rewrite DecimalPos.Unsigned.of_to in H.
    destruct (Pos.to_uint p); [congruence|exact H..].
Qed.

(** ** The stable sort *)

Section SortFacts.
Context {A : Type} (cmp : A -> A -> comparison).

Lemma sort_insert_perm x l : Permutation (sort_insert cmp x l) (x :: l).
Proof.
  induction l as [|y l IH]; simpl; [reflexivity|].
  destruct (cmp x y); try reflexivity.
  rewrite IH. apply perm_swap.
Qed.

Lemma sort_perm l : Permutation (sort cmp l) l.
Proof.
  induction l as [|x l IH]; simpl; [reflexivity|].
  rewrite sort_insert_perm. now rewrite IH.
Qed.
End SortFacts.

(** ** The heap *)

Section HeapFacts.
Implicit Types (h : heap) (v : val) (c : cell).

Lemma valid_prefix h h' v : h `prefix_of` h' -> valid h v -> valid h' v.
Proof.
  intros Hp. destruct v; simpl; auto.
  apply prefix_length in Hp. lia.
Qed.

Lemma cell_closed_prefix h h' c :
  h `prefix_of` h' -> cell_closed h c -> cell_closed h' c.
Proof.
  intros Hp. destruct c as [o|xs]; simpl.
  - intros H. eapply map_Forall_impl; [exact H|]. intros ? v. now apply valid_prefix.
  - intros H. eapply Forall_impl; [exact H|]. intros v. now apply valid_prefix.
Qed.

Lemma closed_snoc h c : closed h -> cell_closed h c -> closed (h ++ [c]).
Proof.
  intros Hh Hc. unfold closed. apply Forall_app. split.
  - eapply Forall_impl; [exact Hh|]. intros c'. apply cell_closed_prefix.
    now apply prefix_app_r.
  - constructor; [|constructor]. eapply cell_closed_prefix; [|exact Hc].
    now apply prefix_app_r.
Qed.

Lemma closed_lookup h l c : closed h -> h !! l = Some c -> cell_closed h c.
Proof. intros Hh Hl. eapply Forall_lookup_1; eauto. Qed.

Lemma closed_object h l o k v :
  closed h -> h !! l = Some (CObject o) -> o !! k = Some v -> valid h v.
Proof.
  intros Hh Hl Hk. apply (closed_lookup _ _ _ Hh) in Hl. simpl in Hl.
  exact (Hl k v Hk).
Qed.

Lemma closed_array h l xs : closed h -> h !! l = Some (CArray xs) -> Forall (valid h) xs.
Proof. intros Hh Hl. exact (closed_lookup _ _ _ Hh Hl). Qed.

Lemma lookup_valid h l : l < length h -> is_Some (h !! l).
Proof. apply lookup_lt_is_Some_2. Qed.

Lemma lookup_prefix h h' l : h `prefix_of` h' -> l < length h -> h' !! l = h !! l.
Proof.
  intros [e ->] Hl. now apply lookup_app_l.
Qed.

Lemma spread_prefix h h' v : h `prefix_of` h' -> valid h v -> spread h' v = spread h v.
Proof.
  intros Hp Hv. destruct v; try reflexivity.
  cbn [valid] in Hv. cbn [spread]. now rewrite (lookup_prefix h h').
Qed.

Lemma prop_prefix h h' v k : h `prefix_of` h' -> valid h v -> prop h' v k = prop h v k.
Proof.
  intros Hp Hv. unfold prop, get. destruct v; try reflexivity.
  cbn [valid] in Hv. rewrite (lookup_prefix h h') by assumption.
  destruct (h !! l) as [[o|xs]|]; reflexivity.
Qed.

Lemma valid_prop h v k : closed h -> valid h (prop h v k).
Proof.
  intros Hh. unfold prop, get. destruct v; try exact I.
  destruct (h !! l) as [[o|xs]|] eqn:Hl; try exact I.
  destruct (o !! k) as [x|] eqn:Hk; try exact I. cbn [default].
  eapply closed_object; eauto.
Qed.

Lemma get_prop h v k :
  valid h v -> v <> VUndefined -> v <> VNull -> get v k h = Some (prop h v k, h).
Proof.
  intros Hv H1 H2. unfold prop, get. destruct v; try congruence.
  cbn [valid] in Hv. destruct (lookup_valid h l Hv) as [c ->]. now destruct c.
Qed.

Lemma truthy_not_nullish v : truthy v = true -> v <> VUndefined /\ v <> VNull.
Proof. destruct v; simpl; intros; split; congruence. Qed.

Lemma spread_falsy h v : truthy v = false -> spread h v = ∅.
Proof.
  destruct v; simpl; try reflexivity; try discriminate.
  destruct s; [reflexivity|discriminate].
Qed.
End HeapFacts.

(** [x || {}] reads, as a spread source, like [x] itself. *)
Lemma or_literal_spec h v c :
  closed h -> valid h v -> cell_closed h c ->
  exists x h',
    or_literal v c h = Some (x, h') /\ h `prefix_of` h' /\ closed h' /\ valid h' x
    /\ truthy x = true
    /\ (truthy v = true /\ x = v /\ h' = h
        \/ truthy v = false /\ x = VRef (length h) /\ h' = h ++ [c]).
Proof.
  intros Hh Hv Hc. unfold or_literal. destruct (truthy v) eqn:Ht.
  - exists v, h. repeat split; auto.
  - exists (VRef (length h)), (h ++ [c]). repeat split; auto.
    + now apply prefix_app_r.
    + now apply closed_snoc.
    + simpl. rewrite length_app. simpl. lia.
Qed.

Lemma prop_falsy h v k : truthy v = false -> prop h v k = VUndefined.
Proof. destruct v; simpl; try reflexivity; discriminate. Qed.

Lemma or_literal_spread h v x h1 h' :
  closed h -> valid h v ->
  or_literal v (CObject ∅) h = Some (x, h1) -> h1 `prefix_of` h' ->
  spread h' x = spread h v.
Proof.
  intros Hh Hv Hor Hp.
  destruct (or_literal_spec h v (CObject ∅) Hh Hv) as (x' & h1' & Hor' & Hp1 & _ & _ & _ & Hcase).
  { apply map_Forall_empty. }
  rewrite Hor in Hor'. injection Hor' as <- <-.
  destruct Hcase as [(Ht & -> & ->)|(Ht & -> & ->)].
  - now apply spread_prefix.
  - rewrite (spread_falsy _ _ Ht). cbn [spread].
    assert (h' !! length h = Some (CObject ∅)) as ->; [|reflexivity].
    eapply prefix_lookup_Some; [|exact Hp]. now apply list_lookup_middle.
Qed.

Lemma prop_object h l o k : h !! l = Some (CObject o) -> prop h (VRef l) k = default VUndefined (o !! k).
Proof. intros Hl. unfold prop, get. now rewrite Hl. Qed.

Lemma bind_eq {A B} (m : M A) (k : A -> M B) h a h' :
  m h = Some (a, h') -> bind m k h = k a h'.
Proof. unfold bind. now intros ->. Qed.

Lemma closed_app h e : closed h -> Forall (cell_closed (h ++ e)) e -> closed (h ++ e).
Proof.
  intros Hh He. unfold closed. apply Forall_app. split; [|exact He].
  eapply Forall_impl; [exact Hh|]. intros c. apply cell_closed_prefix.
  now apply prefix_app_r.
Qed.

Lemma index_props_closed h xs :
  Forall (valid h) xs -> map_Forall (fun _ v => valid h v) (index_props xs).
Proof.
  intros Hxs k v Hk. unfold index_props in Hk.
  apply elem_of_list_to_map_2 in Hk.
  apply elem_of_lookup_imap in Hk as (i & x & Heq & Hi).
  injection Heq as _ ->. eapply Forall_lookup_1; eauto.
Qed.

Lemma spread_closed h v : closed h -> map_Forall (fun _ x => valid h x) (spread h v).
Proof.
  intros Hh. destruct v; cbn [spread]; try apply map_Forall_empty.
  - apply index_props_closed. unfold chars.
    apply Forall_forall. intros x Hx. apply list_elem_of_In, in_map_iff in Hx.
    destruct Hx as (c & <- & _). exact I.
  - destruct (h !! l) as [[o|xs]|] eqn:Hl; try apply map_Forall_empty.
    + exact (closed_lookup _ _ _ Hh Hl).
    + apply index_props_closed. exact (closed_lookup _ _ _ Hh Hl).
Qed.

Lemma insert_fresh (h : heap) c c' rest :
  <[length h := c']> (h ++ c :: rest) = h ++ c' :: rest.
Proof.
  rewrite insert_app_r_alt by lia. now rewrite Nat.sub_diag.
Qed.

(** ** Deleting from a list *)

Lemma map_delete {A B} (f : A -> B) (i : nat) (xs : list A) :
  map f (delete i xs) = delete i (map f xs).
Proof.
  revert i. induction xs as [|x xs IH]; intros [|i]; cbn; try reflexivity.
  now rewrite IH.
Qed.

Lemma NoDup_delete_not_in {A} (l : list A) i x :
  NoDup l -> l !! i = Some x -> x ∉ delete i l.
Proof.
  intros Hnd Hi. rewrite delete_take_drop.
  rewrite <- (take_drop_middle l i x Hi) in Hnd.
  apply NoDup_app in Hnd as (_ & Hdisj & Hnd2).
  apply NoDup_cons in Hnd2 as [Hx _].
  intros Hin. apply elem_of_app in Hin as [Hin|Hin]; [|contradiction].
  apply (Hdisj x Hin). now left.
Qed.

Lemma elem_of_delete_or {A} (l : list A) i x y :
  l !! i = Some x -> y ∈ l -> y = x \/ y ∈ delete i l.
Proof.
  intros Hi Hy. rewrite <- (take_drop_middle l i x Hi) in Hy.
  rewrite delete_take_drop.
  apply elem_of_app in Hy as [Hy|Hy]; [right; apply elem_of_app; now left|].
  apply elem_of_cons in Hy as [->|Hy]; [now left|right; apply elem_of_app; now right].
Qed.

Lemma elem_of_delete_sub {A} (l : list A) i y : y ∈ delete i l -> y ∈ l.
Proof.
  intros Hy. eapply elem_of_sublist; [exact Hy|]. apply sublist_delete.
Qed.

End JSFacts.

(* ===================================================================== *)
(** * The intent editor                                                   *)
(* ===================================================================== *)

Module IntentEditorSpec.
Import JS IntentEditor JSFacts.

Lemma models_of_eq h intent :
  models_of h intent
  = match iterate (prop h (prop h intent "search_space") "models") h with
    | Some (xs, _) => xs
    | None => []
    end.
Proof. reflexivity. Qed.

Lemma render_spec h l o :
  closed h -> h !! l = Some (CObject o) ->
  exists r h',
    render (VRef l) h = Some (r, h') /\ h `prefix_of` h' /\ closed h'
    /\ spread h' (task r) = spread h (prop h (VRef l) "task")
    /\ spread h' (preprocessing r) = spread h (prop h (VRef l) "preprocessing")
    /\ spread h' (searchSpace r) = spread h (prop h (VRef l) "search_space")
    /\ (models_ok h (VRef l) ->
        iterate (models r) h' = Some (models_of h (VRef l), h'))
    /\ valid h' (searchSpace r).
Proof.
  intros Hh Hl.
  assert (Hvl : valid h (VRef l)) by (apply lookup_lt_Some in Hl; exact Hl).
  assert (Hempty : forall h0, cell_closed h0 (CObject ∅)) by (intros; apply map_Forall_empty).
  set (intent := VRef l) in *.
  (* task *)
  destruct (or_literal_spec h (prop h intent "task") (CObject ∅) Hh
              (valid_prop _ _ _ Hh) (Hempty _))
    as (x1 & h1 & Hor1 & Hp1 & Hc1 & Hv1 & Ht1 & _).
  (* preprocessing *)
  destruct (or_literal_spec h1 (prop h intent "preprocessing") (CObject ∅) Hc1
              (valid_prefix _ _ _ Hp1 (valid_prop _ _ _ Hh)) (Hempty _))
    as (x2 & h2 & Hor2 & Hp2 & Hc2 & Hv2 & Ht2 & _).
  (* search_space *)
  assert (Hp02 : h `prefix_of` h2) by (etransitivity; eauto).
  destruct (or_literal_spec h2 (prop h intent "search_space") (CObject ∅) Hc2
              (valid_prefix _ _ _ Hp02 (valid_prop _ _ _ Hh)) (Hempty _))
    as (x3 & h3 & Hor3 & Hp3 & Hc3 & Hv3 & Ht3 & Hcase3).
  assert (Hp03 : h `prefix_of` h3) by (etransitivity; eauto).
  (* models *)
  assert (Hm : prop h3 x3 "models" = prop h (prop h intent "search_space") "models").
  { destruct Hcase3 as [(Ht & -> & ->)|(Ht & -> & ->)].
    - apply prop_prefix; [exact Hp02|]. now apply valid_prop.
    - rewrite (prop_falsy h _ _ Ht). unfold prop, get.
      now rewrite list_lookup_middle. }
  set (m := prop h (prop h intent "search_space") "models") in *.
  assert (Hvm : valid h m) by (apply valid_prop; exact Hh).
  destruct (or_literal_spec h3 m (CArray []) Hc3 (valid_prefix _ _ _ Hp03 Hvm))
    as (x4 & h4 & Hor4 & Hp4 & Hc4 & Hv4 & Ht4 & Hcase4).
  { constructor. }
  exists {| task := x1; preprocessing := x2; searchSpace := x3; models := x4 |}, h4.
  assert (Hp14 : h1 `prefix_of` h4) by (repeat (etransitivity; eauto)).
  assert (Hp24 : h2 `prefix_of` h4) by (repeat (etransitivity; eauto)).
  assert (Hp04 : h `prefix_of` h4) by (etransitivity; eauto).
  split; [|split; [exact Hp04|split; [exact Hc4|]]].
  - unfold render.
    rewrite (bind_eq _ _ h _ h (get_prop h intent "task" Hvl ltac:(discriminate) ltac:(discriminate))).
    rewrite (bind_eq _ _ _ _ _ Hor1).
    rewrite (bind_eq _ _ h1 _ h1 (get_prop h1 intent "preprocessing"
               (valid_prefix _ _ _ Hp1 Hvl) ltac:(discriminate) ltac:(discriminate))).
    rewrite (prop_prefix h h1 intent) by assumption.
    rewrite (bind_eq _ _ _ _ _ Hor2).
    rewrite (bind_eq _ _ h2 _ h2 (get_prop h2 intent "search_space"
               (valid_prefix _ _ _ Hp02 Hvl) ltac:(discriminate) ltac:(discriminate))).
    rewrite (prop_prefix h h2 intent) by assumption.
    rewrite (bind_eq _ _ _ _ _ Hor3).
    destruct (truthy_not_nullish _ Ht3) as [Hn1 Hn2].
    rewrite (bind_eq _ _ h3 _ h3 (get_prop h3 x3 "models" Hv3 Hn1 Hn2)).
    rewrite Hm.
    rewrite (bind_eq _ _ _ _ _ Hor4).
    reflexivity.
  - cbn [task preprocessing searchSpace models].
    split; [|split; [|split; [|split]]].
    5: now apply (valid_prefix h3).
    + eapply or_literal_spread; eauto using valid_prop.
    + rewrite <- (spread_prefix h h1) by (auto using valid_prop).
      eapply or_literal_spread; eauto.
      apply (valid_prefix h); auto using valid_prop.
    + rewrite <- (spread_prefix h h2) by (auto using valid_prop).
      eapply or_literal_spread; eauto.
      apply (valid_prefix h); auto using valid_prop.
    + intros [Hshape _]. rewrite models_of_eq. fold intent. fold m. fold m in Hshape.
      destruct Hcase4 as [(Ht & -> & ->)|(Ht & -> & ->)].
      * destruct Hshape as [Hf|(a & xs & Hma & Ha)]; [congruence|].
        rewrite Hma. unfold iterate. rewrite Ha.
        now rewrite (prefix_lookup_Some _ _ _ _ Ha Hp03).
      * unfold iterate at 1. rewrite list_lookup_middle by reflexivity.
        destruct m; try discriminate; try reflexivity.
        simpl in Ht. destruct s; [reflexivity|discriminate].
Qed.

Lemma section_name_inj s1 s2 : section_name s1 = section_name s2 -> s1 = s2.
Proof. destruct s1, s2; simpl; congruence. Qed.

Lemma update_section_spec h1 l o (secv : val) (name key : string) (value : val) :
  h1 !! l = Some (CObject o) ->
  let h' := h1 ++ [CObject (<[key := value]> (spread h1 secv));
                   CObject (<[name := VRef (length h1)]> o)] in
  (let* t := alloc (CObject (<[key := value]> (spread h1 secv))) in
   alloc (CObject (<[name := t]> (spread h1 (VRef l))))) h1
  = Some (VRef (S (length h1)), h').
Proof.
  intros Hl. unfold bind, alloc. cbn [spread]. rewrite Hl.
  rewrite length_app. cbn [length]. rewrite <- app_assoc. cbn [app].
  repeat f_equal. lia.
Qed.

Lemma example_heap_closed : closed Examples.example_heap.
Proof. apply (bool_decide_unpack _). vm_compute. exact I. Qed.

Lemma duplicate_heap_closed : closed Examples.duplicate_heap.
Proof. apply (bool_decide_unpack _). vm_compute. exact I. Qed.

Lemma example_models_ok : models_ok Examples.example_heap (VRef 0).
Proof.
  split.
  - right. exists 3, [VRef 4]. split; reflexivity.
  - change (Forall is_entry [VRef 4]). repeat constructor; discriminate.
Qed.

Lemma example_names : names Examples.example_heap (VRef 0) = [VString "xgboost"].
Proof. reflexivity. Qed.

(** C5.  A field update of the editor ([updateTask] or
    [updatePreprocessing], on the render of the current intent) hands
    [onChange] a new intent object: its reference differs from the old
    one, every cell that existed before is as it was (the old intent is
    not mutated), every other top-level property and every other key of
    the section keeps its value, and the path itself now reads [value]. *)
Theorem setField_copy_on_write h l o sec key value :
  closed h -> h !! l = Some (CObject o) ->
  exists l' h' o' ls t',
    setField (VRef l) sec key value h = Some (VRef l', h')
    /\ l' <> l
    /\ h `prefix_of` h'
    /\ h' !! l' = Some (CObject o')
    /\ (forall k, k <> section_name sec -> o' !! k = o !! k)
    /\ o' !! section_name sec = Some (VRef ls)
    /\ h' !! ls = Some (CObject t')
    /\ t' !! key = Some value
    /\ (forall k, k <> key -> t' !! k = field h (VRef l) sec k)
    /\ (forall sec' k, (sec', k) <> (sec, key) ->
          field h' (VRef l') sec' k = field h (VRef l) sec' k)
    /\ field h' (VRef l') sec key = Some value.
Proof.
  intros Hh Hl.
  destruct (render_spec h l o Hh Hl) as (r & h1 & Hr & Hp & Hc1 & Ht & Hpp & _ & _ & _).
  assert (Hl1 : h1 !! l = Some (CObject o)) by (eapply prefix_lookup_Some; eauto).
  assert (Hlt : l < length h1) by (now apply lookup_lt_Some in Hl1).
  set (secv := match sec with Task => task r | Preprocessing => preprocessing r end).
  assert (Hsecv : spread h1 secv = spread h (prop h (VRef l) (section_name sec)))
    by (destruct sec; assumption).
  set (t' := <[key := value]> (spread h1 secv)).
  set (o' := <[section_name sec := VRef (length h1)]> o).
  set (h' := h1 ++ [CObject t'; CObject o']).
  assert (Hrun : setField (VRef l) sec key value h = Some (VRef (S (length h1)), h')).
  { unfold setField. rewrite (bind_eq _ _ _ _ _ Hr).
    destruct sec; apply (update_section_spec h1 l o _ _ key value Hl1). }
  assert (Hp' : h `prefix_of` h').
  { etransitivity; [exact Hp|]. now apply prefix_app_r. }
  assert (Hnew : h' !! S (length h1) = Some (CObject o')).
  { unfold h'. rewrite lookup_app_r by lia.
    replace (S (length h1) - length h1) with 1 by lia. reflexivity. }
  assert (Hsec : h' !! length h1 = Some (CObject t')).
  { unfold h'. now rewrite list_lookup_middle. }
  assert (Hfield : forall k, t' !! k = if decide (key = k) then Some value
                                       else field h (VRef l) sec k).
  { intros k. unfold t', field. rewrite lookup_insert. now rewrite Hsecv. }
  assert (Ho1 : o' !! section_name sec = Some (VRef (length h1)))
    by (unfold o'; now rewrite lookup_insert_eq).
  assert (Ho2 : forall k, k <> section_name sec -> o' !! k = o !! k)
    by (intros k Hk; unfold o'; now rewrite lookup_insert_ne).
  clearbody h' t' o'.
  assert (Hread : forall k, field h' (VRef (S (length h1))) sec k = t' !! k).
  { intros k. unfold field. rewrite (prop_object h' _ o' _ Hnew).
    rewrite Ho1. simpl. now rewrite Hsec. }
  exists (S (length h1)), h', o', (length h1), t'.
  split; [exact Hrun|]. split; [lia|]. split; [exact Hp'|]. split; [exact Hnew|].
  split; [|split; [|split; [exact Hsec|split; [|split; [|split]]]]].
  - exact Ho2.
  - exact Ho1.
  - rewrite Hfield. now rewrite decide_True.
  - intros k Hk. rewrite Hfield. now rewrite decide_False.
  - intros sec' k Hne.
    assert (sec' = sec \/ sec' <> sec) as [->|Hs] by (destruct sec', sec; auto; right; discriminate).
    + rewrite Hread, Hfield. rewrite decide_False; [reflexivity|congruence].
    + unfold field. rewrite (prop_object h' _ o' _ Hnew), (prop_object h _ o _ Hl).
      rewrite Ho2 by (intros E; apply section_name_inj in E; congruence).
      rewrite (spread_prefix h h'); [reflexivity|exact Hp'|].
      rewrite <- (prop_object h _ o _ Hl). now apply valid_prop.
  - rewrite Hread, Hfield. now rewrite decide_True.
Qed.


Lemma setField_copy_on_write_witness :
  closed Examples.example_heap
  /\ Examples.example_heap !! 0
     = Some (CObject (<["task" := VRef 1]> (<["search_space" := VRef 2]> ∅)))
  /\ exists l' h',
      setField (VRef 0) Task "metric" (VString "mae") Examples.example_heap
      = Some (VRef l', h')
      /\ l' <> 0
      /\ field h' (VRef l') Task "metric" = Some (VString "mae")
      /\ field h' (VRef l') Task "type" = Some (VString "regression").
Proof.
  split; [exact example_heap_closed|]. split; [reflexivity|].
  destruct (setField_copy_on_write Examples.example_heap 0 _ Task "metric" (VString "mae")
              example_heap_closed eq_refl)
    as (l' & h' & o' & ls & t' & Hrun & Hne & _ & _ & _ & _ & _ & _ & _ & Hframe & Hset).
  exists l', h'. split; [exact Hrun|]. split; [exact Hne|]. split; [exact Hset|].
  rewrite (Hframe Task "type"); [reflexivity|]. intros E. discriminate E.
Defined.

Lemma has_name_spec h n m :
  is_entry m -> valid h m ->
  exists b, has_name n m h = Some (b, h)
            /\ (b = true <-> name_of h m = VString n).
Proof.
  intros [H1 H2] Hv. unfold has_name.
  rewrite (bind_eq _ _ _ _ _ (get_prop h m "name" Hv H1 H2)).
  unfold ret, name_of. eexists. split; [reflexivity|].
  destruct (prop h m "name"); try (split; [discriminate|congruence]).
  rewrite String.eqb_eq. split; congruence.
Qed.

Lemma findIndex_spec h n xs :
  Forall is_entry xs -> Forall (valid h) xs ->
  exists r, findIndex n xs h = Some (r, h)
    /\ match r with
       | Some i =>
           exists m, xs !! i = Some m /\ name_of h m = VString n
                     /\ forall j m', j < i -> xs !! j = Some m' -> name_of h m' <> VString n
       | None => forall m, m ∈ xs -> name_of h m <> VString n
       end.
Proof.
  induction xs as [|m xs IH]; intros He Hv.
  - exists None. split; [reflexivity|]. intros m Hm. inversion Hm.
  - apply Forall_cons in He as [He1 He], Hv as [Hv1 Hv].
    destruct (has_name_spec h n m He1 Hv1) as (b & Hb & Hiff).
    cbn [findIndex]. rewrite (bind_eq _ _ _ _ _ Hb). destruct b.
    + exists (Some 0). split; [reflexivity|]. exists m.
      split; [reflexivity|]. split; [now apply Hiff|]. intros j m' Hj. lia.
    + destruct (IH He Hv) as (r & Hr & Hspec).
      rewrite (bind_eq _ _ _ _ _ Hr). exists (S <$> r). split; [reflexivity|].
      assert (Hm : name_of h m <> VString n) by (intros E; apply Hiff in E; discriminate).
      destruct r as [i|]; cbn.
      * destruct Hspec as (m0 & Hi & Hn & Hbefore). exists m0.
        split; [exact Hi|]. split; [exact Hn|].
        intros [|j] m' Hj Hl; cbn in Hl.
        -- now injection Hl as <-.
        -- apply (Hbefore j m'); [lia|exact Hl].
      * intros m' Hin. apply elem_of_cons in Hin as [->|Hin]; auto.
Qed.

Lemma name_of_prefix h h' m : h `prefix_of` h' -> valid h m -> name_of h' m = name_of h m.
Proof. apply prop_prefix. Qed.

Lemma toggleModel_run h1 l o r n xs :
  h1 !! l = Some (CObject o) ->
  iterate (models r) h1 = Some (xs, h1) ->
  Forall is_entry xs -> Forall (valid h1) xs ->
  exists idx,
    match idx with
    | Some i =>
        exists m, xs !! i = Some m /\ name_of h1 m = VString n
                  /\ forall j m', j < i -> xs !! j = Some m' -> name_of h1 m' <> VString n
    | None => forall m, m ∈ xs -> name_of h1 m <> VString n
    end
    /\ let h3 := h1 ++ toggled_cells h1 n xs idx in
       toggleModel (VRef l) r n h1
       = Some (VRef (S (length h3)),
               h3 ++ [CObject (<["models" := VRef (length h1)]> (spread h3 (searchSpace r)));
                      CObject (<["search_space" := VRef (length h3)]> o)]).
Proof.
  intros Hl Hit He Hv.
  set (h2 := h1 ++ [CArray xs]).
  assert (Hp12 : h1 `prefix_of` h2) by now apply prefix_app_r.
  assert (Hv2 : Forall (valid h2) xs).
  { eapply Forall_impl; [exact Hv|]. intros v. now apply valid_prefix. }
  destruct (findIndex_spec h2 n xs He Hv2) as (idx & Hfind & Hspec).
  exists idx. split.
  { destruct idx as [i|].
    - destruct Hspec as (m & Hi & Hn & Hbefore). exists m. split; [exact Hi|].
      assert (Hname : forall j x, xs !! j = Some x -> name_of h2 x = name_of h1 x).
      { intros j x Hj. apply name_of_prefix; [exact Hp12|].
        eapply Forall_lookup_1; eauto. }
      split; [now rewrite <- (Hname i m Hi)|].
      intros j m' Hj Hm'. rewrite <- (Hname j m' Hm'). eauto.
    - intros m Hm. rewrite <- (name_of_prefix h1 h2 m Hp12).
      + now apply Hspec.
      + revert m Hm. now apply Forall_forall. }
  cbn zeta. unfold toggleModel.
  rewrite (bind_eq _ _ _ _ _ Hit).
  unfold alloc at 1. unfold bind at 1. fold h2.
  rewrite (bind_eq _ _ _ _ _ Hfind).
  assert (Hl2 : forall e, (h1 ++ e) !! l = Some (CObject o)).
  { intros e. apply lookup_app_l_Some. exact Hl. }
  destruct idx as [i|]; cbn [toggled_cells].
  - unfold store. unfold bind at 1. unfold h2. rewrite insert_fresh.
    unfold bind, alloc. cbn [spread]. rewrite Hl2.
    rewrite !length_app. cbn [length]. rewrite <- !app_assoc. cbn [app].
    repeat f_equal; lia.
  - unfold bind at 1. unfold bind at 1. unfold alloc at 1.
    unfold bind at 1. unfold alloc at 1. unfold store.
    unfold h2. rewrite <- !app_assoc. cbn [app]. rewrite insert_fresh.
    unfold bind, alloc. cbn [spread]. rewrite Hl2.
    rewrite !length_app. cbn [length]. rewrite <- !app_assoc. cbn [app].
    replace (length h1 + 2) with (S (length h1 + 1)) by lia.
    repeat f_equal; lia.
Qed.

Lemma models_of_valid h intent : closed h -> Forall (valid h) (models_of h intent).
Proof.
  intros Hh. rewrite models_of_eq.
  destruct (prop h (prop h intent "search_space") "models") as [| | | |s|a]; cbn [iterate];
    try constructor.
  - unfold chars. apply Forall_forall. intros x Hx.
    apply list_elem_of_In, in_map_iff in Hx. destruct Hx as (c & <- & _). exact I.
  - destruct (h !! a) as [[o|xs]|] eqn:Ha; try constructor.
    exact (closed_lookup _ _ _ Hh Ha).
Qed.

Lemma toggle_spec h l o n :
  closed h -> h !! l = Some (CObject o) -> models_ok h (VRef l) ->
  exists l' h' o',
    toggle (VRef l) n h = Some (VRef l', h')
    /\ h `prefix_of` h' /\ closed h'
    /\ h' !! l' = Some (CObject o') /\ l' <> l
    /\ models_ok h' (VRef l')
    /\ (forall k, k <> "search_space" -> o' !! k = o !! k)
    /\ toggled h h' n (models_of h (VRef l)) (models_of h' (VRef l')).
Proof.
  intros Hh Hl Hok.
  destruct (render_spec h l o Hh Hl) as (r & h1 & Hr & Hp & Hc1 & _ & _ & Hss & Hit & Hvs).
  specialize (Hit Hok).
  set (xs := models_of h (VRef l)) in *.
  assert (Hl1 : h1 !! l = Some (CObject o)) by (eapply prefix_lookup_Some; eauto).
  assert (Hvx : Forall (valid h) xs) by now apply models_of_valid.
  assert (Hvx1 : Forall (valid h1) xs).
  { eapply Forall_impl; [exact Hvx|]. intros v. now apply valid_prefix. }
  destruct Hok as [_ Hent]. fold xs in Hent.
  destruct (toggleModel_run h1 l o r n xs Hl1 Hit Hent Hvx1) as (idx & Hidx & Hrun).
  cbn zeta in Hrun.
  set (cells := toggled_cells h1 n xs idx) in *.
  set (h3 := h1 ++ cells) in *.
  assert (Hp13 : h1 `prefix_of` h3) by now apply prefix_app_r.
  rewrite (spread_prefix h1 h3 _ Hp13 Hvs) in Hrun.
  set (css := CObject (<["models" := VRef (length h1)]> (spread h1 (searchSpace r)))) in *.
  set (o' := <["search_space" := VRef (length h3)]> o) in *.
  set (h' := h3 ++ [css; CObject o']) in *.
  assert (Hp3' : h3 `prefix_of` h') by now apply prefix_app_r.
  assert (Hp1' : h1 `prefix_of` h') by (etransitivity; eauto).
  assert (Hp' : h `prefix_of` h') by (etransitivity; eauto).
  assert (Hlen3 : length h1 < length h3).
  { unfold h3, cells. rewrite length_app. destruct idx; cbn; lia. }
  assert (Hlen' : length h' = S (S (length h3))).
  { unfold h'. rewrite length_app. cbn. lia. }
  assert (Hcss : h' !! length h3 = Some css) by (unfold h'; now rewrite list_lookup_middle).
  assert (Hnew : h' !! S (length h3) = Some (CObject o')).
  { unfold h'. rewrite lookup_app_r by lia.
    replace (S (length h3) - length h3) with 1 by lia. reflexivity. }
  set (xs' := match idx with Some i => delete i xs | None => xs ++ [VRef (length h1 + 2)] end).
  assert (Harr : h' !! length h1 = Some (CArray xs')).
  { apply (prefix_lookup_Some h3); [|exact Hp3'].
    unfold h3, cells, xs'. destruct idx; cbn [toggled_cells]; now rewrite list_lookup_middle. }
  assert (Hmodels : models_of h' (VRef (S (length h3))) = xs').
  { rewrite models_of_eq. rewrite (prop_object h' _ o' _ Hnew).
    unfold o'. rewrite lookup_insert_eq. simpl default.
    unfold css in Hcss. rewrite (prop_object h' _ _ _ Hcss).
    rewrite lookup_insert_eq. simpl default. cbn [iterate]. now rewrite Harr. }
  assert (Hvx' : Forall (valid h') xs).
  { eapply Forall_impl; [exact Hvx|]. intros v. now apply valid_prefix. }
  assert (Hvxs' : Forall (valid h') xs').
  { unfold xs'. destruct idx.
    - now apply Forall_delete.
    - apply Forall_app. split; [exact Hvx'|]. constructor; [|constructor].
      cbn. lia. }
  assert (Hclosed : closed h').
  { unfold h', h3. rewrite <- app_assoc. apply closed_app; [exact Hc1|].
    rewrite app_assoc. fold h3. fold h'.
    apply Forall_app. split.
    - unfold cells. destruct idx; cbn [toggled_cells].
      + constructor; [exact Hvxs'|constructor].
      + constructor; [exact Hvxs'|].
        constructor; [apply map_Forall_empty|].
        constructor; [|constructor].
        cbn [cell_closed]. apply map_Forall_insert_2; [exact I|].
        apply map_Forall_insert_2; [cbn; lia|apply map_Forall_empty].
    - constructor; [|constructor; [|constructor]].
      + unfold css. cbn [cell_closed]. apply map_Forall_insert_2; [cbn; lia|].
        eapply map_Forall_impl; [apply (spread_closed h1 _ Hc1)|].
        intros ? v. now apply valid_prefix.
      + cbn [cell_closed]. unfold o'. apply map_Forall_insert_2; [cbn; lia|].
        eapply map_Forall_impl; [exact (closed_lookup _ _ _ Hc1 Hl1)|].
        intros ? v. now apply valid_prefix. }
  exists (S (length h3)), h', o'.
  split; [unfold toggle; now rewrite (bind_eq _ _ _ _ _ Hr)|].
  split; [exact Hp'|]. split; [exact Hclosed|].
  split; [exact Hnew|].
  split; [apply lookup_lt_Some in Hl1; lia|].
  split; [|split].
  - split.
    + right. exists (length h1), xs'. split; [|exact Harr].
      rewrite (prop_object h' _ o' _ Hnew). unfold o'. rewrite lookup_insert_eq.
      simpl default. unfold css in Hcss. rewrite (prop_object h' _ _ _ Hcss).
      now rewrite lookup_insert_eq.
    + rewrite Hmodels. unfold xs'. destruct idx.
      * now apply Forall_delete.
      * apply Forall_app. split; [exact Hent|]. constructor; [|constructor].
        split; discriminate.
  - intros k Hk. unfold o'. now rewrite lookup_insert_ne.
  - rewrite Hmodels. fold xs.
    assert (Hname : forall m, m ∈ xs -> name_of h1 m = name_of h m).
    { intros m Hm. apply name_of_prefix; [exact Hp|]. revert m Hm. now apply Forall_forall. }
    unfold toggled, xs'. destruct idx as [i|].
    + right. destruct Hidx as (m & Hi & Hn & Hbefore). exists i, m.
      split; [exact Hi|]. split.
      { rewrite <- Hname; [exact Hn|]. eapply list_elem_of_lookup_2; eauto. }
      split; [|reflexivity].
      intros j m' Hj Hm'. rewrite <- Hname; [eauto|]. eapply list_elem_of_lookup_2; eauto.
    + left. split.
      { intros m Hm. rewrite <- Hname by exact Hm. now apply Hidx. }
      exists (length h1 + 2), (length h1 + 1).
      split; [reflexivity|].
      assert (Hlenp : length h <= length h1) by now apply prefix_length.
      split; [|split; [|lia]].
      * apply (prefix_lookup_Some h3); [|exact Hp3'].
        unfold h3, cells. cbn [toggled_cells]. rewrite lookup_app_r by lia.
        replace (length h1 + 2 - length h1) with 2 by lia. reflexivity.
      * apply (prefix_lookup_Some h3); [|exact Hp3'].
        unfold h3, cells. cbn [toggled_cells]. rewrite lookup_app_r by lia.
        replace (length h1 + 1 - length h1) with 1 by lia. reflexivity.
Qed.

Lemma names_eq h intent : names h intent = map (name_of h) (models_of h intent).
Proof. reflexivity. Qed.

Lemma map_name_of_prefix h h' xs :
  h `prefix_of` h' -> Forall (valid h) xs -> map (name_of h') xs = map (name_of h) xs.
Proof.
  intros Hp Hv. induction Hv as [|x xs Hx _ IH]; [reflexivity|].
  cbn [map]. rewrite IH. now rewrite (name_of_prefix h h' x Hp Hx).
Qed.

Lemma name_of_new_entry h' e n p :
  h' !! e = Some (CObject (<["name" := VString n]> (<["params" := VRef p]> ∅))) ->
  name_of h' (VRef e) = VString n.
Proof.
  intros He. unfold name_of. rewrite (prop_object _ _ _ _ He).
  now rewrite lookup_insert_eq.
Qed.

Lemma unique_listed_at_most_once n ns : NoDup ns -> listed_at_most_once n ns.
Proof. intros Hnd i j Hi Hj. eapply NoDup_lookup; eauto. Qed.

(** C6.  One click on model [n], on every intent whose [models] entries
    are objects: with no entry named [n] it appends [{name: n, params: {}}];
    otherwise it takes out the first entry named [n] and keeps the others in
    order; no cell that existed before is changed.  Two clicks (each on a
    fresh render) leave a models list with the same set of names as soon as
    [n] names at most one entry, hence on every intent of the data model,
    whose entries are unique by name. *)
Theorem toggleModel_twice_same_names h l o n :
  closed h -> h !! l = Some (CObject o) -> models_ok h (VRef l) ->
  exists l1 h1 l2 h2,
    toggle (VRef l) n h = Some (VRef l1, h1)
    /\ h `prefix_of` h1
    /\ toggled h h1 n (models_of h (VRef l)) (models_of h1 (VRef l1))
    /\ toggle (VRef l1) n h1 = Some (VRef l2, h2)
    /\ (listed_at_most_once n (names h (VRef l)) ->
        forall x, x ∈ names h2 (VRef l2) <-> x ∈ names h (VRef l))
    /\ (NoDup (names h (VRef l)) ->
        forall x, x ∈ names h2 (VRef l2) <-> x ∈ names h (VRef l)).
Proof.
  intros Hh Hl Hok.
  destruct (toggle_spec h l o n Hh Hl Hok)
    as (l1 & h1 & o1 & Hrun1 & Hp1 & Hc1 & Hl1 & _ & Hok1 & _ & Ht1).
  destruct (toggle_spec h1 l1 o1 n Hc1 Hl1 Hok1)
    as (l2 & h2 & o2 & Hrun2 & Hp2 & Hc2 & Hl2 & _ & Hok2 & _ & Ht2).
  exists l1, h1, l2, h2.
  split; [exact Hrun1|]. split; [exact Hp1|]. split; [exact Ht1|]. split; [exact Hrun2|].
  assert (Hmain : listed_at_most_once n (names h (VRef l)) ->
                  forall x, x ∈ names h2 (VRef l2) <-> x ∈ names h (VRef l)).
  2:{ split; [exact Hmain|]. intros Hnd. now apply Hmain, unique_listed_at_most_once. }
  intros Honce. unfold listed_at_most_once in Honce.
  rewrite !names_eq in *.
  set (xs := models_of h (VRef l)) in *.
  set (xs1 := models_of h1 (VRef l1)) in *.
  set (xs2 := models_of h2 (VRef l2)) in *.
  assert (Hv : Forall (valid h) xs) by now apply models_of_valid.
  clearbody xs xs1 xs2.
  assert (Hp02 : h `prefix_of` h2) by (etransitivity; eauto).
  assert (Hn1 : map (name_of h1) xs = map (name_of h) xs) by now apply map_name_of_prefix.
  assert (Hn2 : map (name_of h2) xs = map (name_of h) xs) by now apply map_name_of_prefix.
  destruct Ht1 as [(Habs & e & p & -> & He & _)|(i & m & Hi & Hm & _ & ->)].
  - (* added, then removed again: the very same list *)
    destruct Ht2 as [(Habs2 & _)|(i & m & Hi & Hm & Hbefore & ->)].
    + exfalso. apply (Habs2 (VRef e)); [apply elem_of_app; right; now left|].
      eapply name_of_new_entry; eauto.
    + assert (i = length xs) as ->.
      { destruct (Nat.lt_total i (length xs)) as [Hlt|[Heq|Hgt]]; [|exact Heq|].
        - exfalso. rewrite lookup_app_l in Hi by exact Hlt.
          apply list_elem_of_lookup_2 in Hi.
          apply (Habs m Hi). rewrite <- (name_of_prefix h h1 m Hp1); [exact Hm|].
          eapply Forall_forall in Hv; eauto.
        - exfalso. apply lookup_lt_Some in Hi. rewrite length_app in Hi. cbn in Hi. lia. }
      rewrite delete_take_drop, take_app_length.
      rewrite drop_ge by (rewrite length_app; cbn; lia).
      rewrite app_nil_r, Hn2. tauto.
  - (* removed, then added back at the end *)
    assert (Hnames_i : map (name_of h) xs !! i = Some (VString n)).
    { rewrite list_lookup_fmap, Hi. cbn. now rewrite Hm. }
    destruct Ht2 as [(_ & e & p & -> & He & _)|(i2 & m2 & Hi2 & Hm2 & _)].
    + intros x. rewrite map_app. cbn [map]. rewrite (name_of_new_entry _ _ _ _ He).
      rewrite (map_name_of_prefix h h2) by (try apply Forall_delete; assumption).
      rewrite map_delete. rewrite elem_of_app, list_elem_of_singleton. split.
      * intros [Hx| ->]; [now apply elem_of_delete_sub in Hx|].
        eapply list_elem_of_lookup_2; eauto.
      * intros Hx. destruct (elem_of_delete_or _ _ _ _ Hnames_i Hx); auto.
    + (* a second entry named [n] would have been left behind *)
      exfalso.
      assert (Hm2' : name_of h m2 = VString n).
      { rewrite <- Hm2. symmetry. apply name_of_prefix; [exact Hp1|].
        apply list_elem_of_lookup_2 in Hi2. apply elem_of_delete_sub in Hi2.
        eapply Forall_forall in Hv; eauto. }
      rewrite list_lookup_delete in Hi2.
      assert (Hj : exists j, j <> i /\ map (name_of h) xs !! j = Some (VString n)).
      { destruct (decide (i2 < i)).
        - exists i2. split; [lia|]. rewrite list_lookup_fmap, Hi2. cbn. now rewrite Hm2'.
        - exists (S i2). split; [lia|]. rewrite list_lookup_fmap, Hi2. cbn. now rewrite Hm2'. }
      destruct Hj as (j & Hne & Hj). apply Hne. symmetry. exact (Honce i j Hnames_i Hj).
Qed.

Lemma toggleModel_twice_same_names_witness :
  closed Examples.example_heap
  /\ Examples.example_heap !! 0
     = Some (CObject (<["task" := VRef 1]> (<["search_space" := VRef 2]> ∅)))
  /\ models_ok Examples.example_heap (VRef 0)
  /\ listed_at_most_once "xgboost" (names Examples.example_heap (VRef 0))
  /\ exists l2 h2,
      toggle_twice (VRef 0) "xgboost" Examples.example_heap = Some (VRef l2, h2)
      /\ forall x, x ∈ names h2 (VRef l2) <-> x ∈ names Examples.example_heap (VRef 0).
Proof.
  assert (Honce : listed_at_most_once "xgboost" (names Examples.example_heap (VRef 0))).
  { rewrite example_names. intros [|i] [|j] Hi Hj; try reflexivity; discriminate. }
  split; [exact example_heap_closed|]. split; [reflexivity|].
  split; [exact example_models_ok|]. split; [exact Honce|].
  destruct (toggleModel_twice_same_names Examples.example_heap 0 _ "xgboost"
              example_heap_closed eq_refl example_models_ok)
    as (l1 & h1 & l2 & h2 & Hrun1 & _ & _ & Hrun2 & Hset & _).
  exists l2, h2. split; [|exact (Hset Honce)].
  unfold toggle_twice. now rewrite (bind_eq _ _ _ _ _ Hrun1).
Defined.

(** Why [n] must not be listed twice.  A list with ["xgboost"] twice is not
    one of the data model, but nothing in the editor rules it out for an
    intent that comes from the backend; two clicks then remove both entries
    and the name is gone from the set. *)
Lemma toggleModel_twice_duplicates :
  exists v h',
    toggle_twice (VRef 0) "xgboost" Examples.duplicate_heap = Some (v, h')
    /\ VString "xgboost" ∈ names Examples.duplicate_heap (VRef 0)
    /\ VString "xgboost" ∉ names h' v.
Proof.
  eexists _, _. split; [vm_compute; reflexivity|]. split.
  - change (VString "xgboost" ∈ [VString "xgboost"; VString "xgboost"]). now left.
  - vm_compute. intros H. inversion H.
Qed.

End IntentEditorSpec.

(* ===================================================================== *)
(** * The build session                                                   *)
(* ===================================================================== *)

Module PromptBuilderSpec.
Import JS PromptBuilder JSFacts.

Lemma or_string_truthy o fallback :
  truthy_string fallback = true -> truthy_string (or_string o fallback) = true.
Proof.
  intros Hf. unfold or_string. destruct o as [s|]; [|exact Hf].
  destruct (truthy_string s) eqn:Hs; assumption.
Qed.

Lemma error_text_truthy e fallback :
  truthy_string fallback = true -> truthy_string (error_text e fallback) = true.
Proof. intros Hf. unfold error_text. now repeat apply or_string_truthy. Qed.

Ltac run_step :=
  match goal with
  | |- context [run ?b ?p ?s] =>
      let y := eval cbn in (run b p s) in
      change (run b p s) with y; cbv beta iota
  end.

Ltac step := cbn -[upload_form error_text or_string truthy_number parseInt].

(** C1.  [handleSubmit] raises the loading flag, and so begins dataset
    resolution, only on a prompt that is not blank after trimming and a
    complete selection; on a blank prompt or an incomplete selection its
    whole effect is one [setError] with an input message, with no backend
    call.  With a project id at hand the two conditions are also
    sufficient. *)
Theorem handleSubmit_guards (b : backend) (projectId : option Z) (s : state) :
  let '(s', t) := run b (handleSubmit projectId s) s in
  (resolution_started t -> blank (prompt s) = false /\ complete s = true)
  /\ (blank (prompt s) = true \/ complete s = false ->
      exists msg, In msg input_errors
                  /\ t = [EvSet (setError msg)]
                  /\ s' = apply (setError msg) s
                  /\ calls t = [])
  /\ (truthy_id projectId = true -> blank (prompt s) = false -> complete s = true ->
      resolution_started t).
Proof.
  unfold handleSubmit, complete, resolution_started.
  rewrite truthy_trim, negb_involutive.
  destruct projectId as [pid|]; cbn [truthy_id].
  2:{ cbn. split; [|split]; try discriminate.
      - intros [H|[]]. discriminate.
      - intros _. exists "Project context missing. Please refresh the page.".
        cbn. intuition. }
  destruct (pid =? 0)%Z eqn:Hpid; cbn [negb].
  { cbn. split; [|split]; try discriminate.
    - intros [H|[]]. discriminate.
    - intros _. exists "Project context missing. Please refresh the page.".
      cbn. intuition. }
  destruct (blank (prompt s)) eqn:Hb.
  { cbn. split; [|split]; try discriminate.
    - intros [H|[]]. discriminate.
    - intros _. exists "Please enter a prompt". cbn. intuition. }
  destruct (selectionMode s) eqn:Hm.
  - destruct (file s) as [f|] eqn:Hf.
    + cbn -[upload_form]. 
      destruct (run b _ _) as [s' t] eqn:Hr.
      split; [|split]; try (intuition; discriminate).
      cbn in Hr. 
      destruct (run b _ _) as [s'' t'] in Hr. injection Hr as <- <-. intros. now left.
    + cbn. split; [|split]; try discriminate.
      * intros [H|[]]. discriminate.
      * intros _. exists "Please upload a dataset file". cbn. intuition.
  - destruct (truthy_string (selectedDatasetId s)) eqn:Hsel.
    + cbn [negb]. cbn iota.
      destruct (run b _ _) as [s' t] eqn:Hr.
      split; [|split]; try (intuition; discriminate).
      cbn in Hr.
      destruct (run b _ _) as [s'' t'] in Hr. injection Hr as <- <-. intros. now left.
    + cbn. split; [|split]; try discriminate.
      * intros [H|[]]. discriminate.
      * intros _. exists "Please select a dataset". cbn. intuition.
Qed.

Lemma or_zero_score x : or_zero (test_score x) = Fin (score x).
Proof.
  unfold score. destruct (test_score x) as [[|q]|]; simpl; try reflexivity.
  destruct (Qeq_bool q 0); reflexivity.
Qed.

Lemma sign_compareFn a b : sign (compareFn a b) = (score b ?= score a)%Q.
Proof.
  unfold compareFn. rewrite !or_zero_score. simpl.
  destruct (Qcompare_spec (score b) (score a)) as [H|H|H].
  - apply Qeq_alt. rewrite H. ring.
  - apply Qlt_alt. apply (Qplus_lt_l _ _ (score a)). ring_simplify. exact H.
  - apply Qgt_alt. apply (Qplus_lt_l _ _ (score a)). ring_simplify. exact H.
Qed.

Lemma insert_sorted x l :
  StronglySorted descending l -> StronglySorted descending (sort_insert (fun a b => sign (compareFn a b)) x l).
Proof.
  induction 1 as [|y l Hs IH Hy]; simpl.
  - repeat constructor.
  - rewrite sign_compareFn.
    destruct (Qcompare_spec (score y) (score x)) as [H|H|H].
    + constructor; [now constructor|].
      constructor; [unfold descending; rewrite H; apply Qle_refl|].
      eapply List.Forall_impl; [|exact Hy]. intros z Hz. unfold descending in *. rewrite <- H. exact Hz.
    + constructor; [now constructor|].
      constructor; [unfold descending; now apply Qlt_le_weak|].
      eapply List.Forall_impl; [|exact Hy]. intros z Hz. unfold descending in *.
      eapply Qle_trans; [exact Hz|now apply Qlt_le_weak].
    + constructor; [exact IH|].
      apply List.Forall_forall. intros z Hz.
      apply (Permutation_in _ (sort_insert_perm _ x l)) in Hz.
      destruct Hz as [<-|Hz]; [unfold descending; now apply Qlt_le_weak|].
      revert z Hz. now apply List.Forall_forall.
Qed.

Lemma ranking_sorted rs : StronglySorted descending (ranking rs).
Proof.
  unfold ranking. induction (List.filter completed rs) as [|x l IH]; simpl.
  - constructor.
  - now apply insert_sorted.
Qed.

Lemma insert_stable q x l :
  List.filter (tie q) (sort_insert (fun a b => sign (compareFn a b)) x l) = List.filter (tie q) (x :: l).
Proof.
  induction l as [|y l IH]; [reflexivity|].
  simpl sort_insert. rewrite sign_compareFn.
  destruct (Qcompare_spec (score y) (score x)) as [H|H|H]; try reflexivity.
  change (List.filter (tie q) (y :: sort_insert (fun a b => sign (compareFn a b)) x l))
    with (if tie q y then y :: List.filter (tie q) (sort_insert (fun a b => sign (compareFn a b)) x l)
          else List.filter (tie q) (sort_insert (fun a b => sign (compareFn a b)) x l)).
  rewrite IH. simpl.
  destruct (tie q y) eqn:Hy, (tie q x) eqn:Hx; try reflexivity.
  exfalso. unfold tie in *. apply Qeq_bool_iff in Hy, Hx.
  rewrite Hy, Hx in H. now apply Qlt_irrefl in H.
Qed.

Lemma ranking_stable q rs :
  List.filter (tie q) (ranking rs) = List.filter (tie q) (List.filter completed rs).
Proof.
  unfold ranking. induction (List.filter completed rs) as [|x l IH]; [reflexivity|].
  simpl sort. rewrite insert_stable. simpl. now rewrite IH.
Qed.

Lemma sorted_above l a b :
  StronglySorted descending l -> In a l -> In b l -> (score b < score a)%Q ->
  above a b l.
Proof.
  induction 1 as [|x l Hs IH Hx]; intros Ha Hb Hlt; [contradiction|].
  destruct Ha as [<-|Ha], Hb as [<-|Hb].
  - exfalso. now apply Qlt_irrefl in Hlt.
  - destruct (in_split _ _ Hb) as (m1 & m2 & ->). now exists [], m1, m2.
  - exfalso. rewrite List.Forall_forall in Hx. specialize (Hx a Ha).
    unfold descending in Hx. apply (Qlt_irrefl (score a)).
    eapply Qle_lt_trans; eauto.
  - destruct (IH Ha Hb Hlt) as (l1 & l2 & l3 & ->). now exists (x :: l1), l2, l3.
Qed.

Lemma above_descending l a b :
  StronglySorted descending l -> above a b l -> descending a b.
Proof.
  intros Hs (l1 & l2 & l3 & ->).
  induction l1 as [|x l1 IH]; cbn in Hs; apply StronglySorted_inv in Hs;
    destruct Hs as [Hs Hall]; [|now apply IH].
  rewrite List.Forall_forall in Hall. apply Hall, in_or_app. right. now left.
Qed.

(** C2, as amended.  The results table shows exactly the completed
    entries, in descending order of test score with a missing score counted
    as 0, ties in their original order.  A row without a score therefore
    stands below every row with a positive score and above every row with a
    negative one: it is at the bottom only among scores that are not
    negative.  On the sample of three the table shows ["c"; "a"]. *)
Theorem ranking_completed_by_descending_score :
  (forall results,
      Permutation (ranking results) (List.filter completed results)
      /\ StronglySorted (fun a b => (score b <= score a)%Q) (ranking results)
      /\ (forall q, List.filter (tie q) (ranking results)
                    = List.filter (tie q) (List.filter completed results)))
  /\ (forall r, test_score r = None -> score r = 0%Q)
  /\ (forall results r r',
        In r (ranking results) -> In r' (ranking results) -> test_score r = None ->
        ((0 < score r')%Q -> above r' r (ranking results))
        /\ ((score r' < 0)%Q -> above r r' (ranking results))
        /\ ((score r' < 0)%Q -> ~ above r' r (ranking results)))
  /\ map exp_id (ranking Examples.example_results) = ["c"; "a"].
Proof.
  assert (H0 : forall r, test_score r = None -> score r = 0%Q).
  { intros r H. unfold score. now rewrite H. }
  split; [|split; [exact H0|split]].
  - intros rs. split; [apply sort_perm|]. split; [apply ranking_sorted|].
    intros q. apply ranking_stable.
  - intros rs r r' Hr Hr' Hnone. specialize (H0 r Hnone).
    split; [|split]; intros Hs.
    + apply sorted_above; [apply ranking_sorted|assumption..|]. now rewrite H0.
    + apply sorted_above; [apply ranking_sorted|assumption..|]. now rewrite H0.
    + intros Habove.
      pose proof (above_descending _ _ _ (ranking_sorted rs) Habove) as Hd.
      unfold descending in Hd. rewrite H0 in Hd.
      apply (Qlt_irrefl 0%Q). eapply Qle_lt_trans; eauto.
  - reflexivity.
Qed.

(** A run scored -0.5 and a run without a score: the one without a score
    is shown first, not last. *)
Lemma ranking_missing_score_above_negative :
  map exp_id (ranking Examples.negative_results) = ["missing"; "neg"]
  /\ map completed Examples.negative_results = [true; true].
Proof. split; reflexivity. Qed.

(** C3.  With an intent present, [handleStartTraining] sends one training
    request whose dataset id is: the parsed selected id when the mode is
    "select" and an id is picked; else the [dataset_id] of the extraction's
    [dataset_info] when it is there (truthy); else the default 1.  With
    "7" selected the request carries 7, whatever [dataset_info] holds. *)
Theorem training_dataset_id_order b projectId now s r :
  intentResult s = Some r -> truthy (ier_intent r) = true ->
  exists req,
    calls (run b (handleStartTraining projectId now s) s).2 = [startTraining req]
    /\ (selectionMode s = select -> selectedDatasetId s <> "" ->
        trq_dataset_id req = VNumber (parseInt (selectedDatasetId s)))
    /\ (selectionMode s = upload \/ selectedDatasetId s = "" ->
        truthy (extraction_dataset_id r) = true ->
        trq_dataset_id req = extraction_dataset_id r)
    /\ (selectionMode s = upload \/ selectedDatasetId s = "" ->
        truthy (extraction_dataset_id r) = false ->
        trq_dataset_id req = VNumber (of_Z 1))
    /\ (selectionMode s = select -> selectedDatasetId s = "7" ->
        trq_dataset_id req = VNumber (of_Z 7)).
Proof.
  intros Hr Hi. unfold handleStartTraining. rewrite Hr, Hi. cbn [negb].
  eexists. split.
  { cbn [run]. destruct (on_startTraining b _); reflexivity. }
  cbn [trq_dataset_id]. unfold finalDatasetId.
  split; [|split; [|split]].
  - intros -> Hsel. apply truthy_string_ne in Hsel. now rewrite Hsel.
  - intros Hm Ht. rewrite Ht.
    destruct Hm as [->| ->]; [reflexivity|]. now destruct (selectionMode s).
  - intros Hm Ht. rewrite Ht.
    destruct Hm as [->| ->]; [reflexivity|]. now destruct (selectionMode s).
  - intros -> ->. reflexivity.
Qed.

Lemma training_dataset_id_order_witness :
  intentResult Examples.reviewing = Some Examples.extracted
  /\ truthy (ier_intent Examples.extracted) = true
  /\ extraction_dataset_id Examples.extracted = VNumber (of_Z 3)
  /\ exists req,
      calls (run Examples.offline
               (handleStartTraining (Some 2%Z) "1/1/2026" Examples.reviewing)
               Examples.reviewing).2 = [startTraining req]
      /\ trq_dataset_id req = VNumber (of_Z 7).
Proof.
  split; [reflexivity|]. split; [reflexivity|]. split; [reflexivity|].
  destruct (training_dataset_id_order Examples.offline (Some 2%Z) "1/1/2026"
              Examples.reviewing Examples.extracted eq_refl eq_refl)
    as (req & Hcalls & _ & _ & _ & H7).
  exists req. split; [exact Hcalls|]. apply H7; reflexivity.
Defined.

(** C4, as amended.  [handleReset] empties the prompt, the attached file,
    the intent, the training outcome and the error, calls no backend, and
    leaves the selection mode, the selected dataset id and the dataset
    list as they were. *)
Theorem handleReset_clears b s :
  let '(s', t) := run b handleReset s in
  prompt s' = "" /\ file s' = None /\ intentResult s' = None
  /\ trainingResult s' = None /\ error s' = ""
  /\ selectionMode s' = selectionMode s
  /\ selectedDatasetId s' = selectedDatasetId s
  /\ datasets s' = datasets s
  /\ loading s' = loading s /\ trainingLoading s' = trainingLoading s
  /\ calls t = [].
Proof. cbn. repeat split. Qed.

(** After a reset of a session that had dataset 7 picked from the list,
    the choice is still there: the session is not a fresh one. *)
Lemma handleReset_keeps_selected_dataset :
  let s' := (run Examples.offline handleReset Examples.reviewing).1 in
  selectionMode s' = select /\ selectedDatasetId s' = "7" /\ s' <> initial.
Proof. cbn. repeat split. discriminate. Qed.

(** C7.  When the training request fails, the stored extraction result,
    and with it the intent, is the one from before, a non-empty error
    message is shown, and a second click sends a training request with that
    same intent and nothing else (no extraction). *)
Theorem training_failure_keeps_intent b projectId now s r e :
  intentResult s = Some r -> truthy (ier_intent r) = true ->
  (forall req, on_startTraining b req = Err e) ->
  let '(s', t) := run b (handleStartTraining projectId now s) s in
  intentResult s' = Some r
  /\ error s' = error_text e "Failed to start training. Please try again."
  /\ error s' <> ""
  /\ trainingLoading s' = false
  /\ trainingResult s' = trainingResult s
  /\ forall b' now',
       exists req,
         calls (run b' (handleStartTraining projectId now' s') s').2 = [startTraining req]
         /\ trq_intent req = ier_intent r.
Proof.
  intros Hr Hi Hfail. unfold handleStartTraining at 1. rewrite Hr, Hi. cbn [negb run].
  rewrite Hfail. cbn.
  split; [exact Hr|]. split; [reflexivity|].
  split; [apply truthy_string_ne, error_text_truthy; reflexivity|].
  split; [reflexivity|]. split; [reflexivity|].
  intros b' now'. unfold handleStartTraining. cbn [intentResult]. rewrite Hr, Hi.
  cbn [negb run]. eexists. split; [destruct (on_startTraining b' _); reflexivity|].
  reflexivity.
Qed.

Lemma training_failure_keeps_intent_witness :
  intentResult Examples.reviewing = Some Examples.extracted
  /\ truthy (ier_intent Examples.extracted) = true
  /\ (forall req, on_startTraining Examples.offline req = Err Examples.network_error)
  /\ let '(s', t) := run Examples.offline
                       (handleStartTraining (Some 2%Z) "1/1/2026" Examples.reviewing)
                       Examples.reviewing in
     intentResult s' = Some Examples.extracted /\ error s' = "Network Error".
Proof.
  split; [reflexivity|]. split; [reflexivity|]. split; [reflexivity|].
  pose proof (training_failure_keeps_intent Examples.offline (Some 2%Z) "1/1/2026"
                Examples.reviewing Examples.extracted Examples.network_error
                eq_refl eq_refl (fun _ => eq_refl)) as H.
  destruct (run _ _ _) as [s' t]. destruct H as (H1 & H2 & _). split; [exact H1|exact H2].
Defined.

(** C8.  An extraction answered with [success: false] (the request itself
    succeeding) stores no intent and shows an error: the server's [error]
    text when it has one (non-empty), ["Failed to extract intent"]
    otherwise. *)
Theorem extraction_success_false_is_failure b projectId s result :
  (forall req, on_extractIntent b req = Ok result) ->
  ier_success result = false ->
  let '(s', t) := run b (handleSubmit projectId s) s in
  (exists req, In (extractIntent req) (calls t)) ->
  intentResult s' = None
  /\ error s' = or_string (ier_error result) "Failed to extract intent"
  /\ error s' <> ""
  /\ (forall msg, ier_error result = Some msg -> msg <> "" -> error s' = msg)
  /\ (ier_error result = None \/ ier_error result = Some "" ->
      error s' = "Failed to extract intent")
  /\ loading s' = false.
Proof.
  intros Hans Hfail.
  assert (Hmsg : forall o, error_text (Error (or_string o "Failed to extract intent"))
                             "An error occurred. Please try again."
                           = or_string o "Failed to extract intent").
  { intros o. unfold error_text, Error. cbn.
    now rewrite (or_string_truthy o "Failed to extract intent" eq_refl). }
  assert (Hfinal : forall o,
    or_string o "Failed to extract intent" <> ""
    /\ (forall msg, o = Some msg -> msg <> "" -> or_string o "Failed to extract intent" = msg)
    /\ (o = None \/ o = Some "" -> or_string o "Failed to extract intent"
                                   = "Failed to extract intent")).
  { intros o. split; [apply truthy_string_ne, or_string_truthy; reflexivity|]. split.
    - intros msg -> Hne. cbn. apply truthy_string_ne in Hne. now rewrite Hne.
    - intros [->| ->]; reflexivity. }
  unfold handleSubmit.
  destruct projectId as [pid|]; [|cbn; intros (req & []) ].
  destruct (negb (truthy_id (Some pid))); [cbn; intros (req & [])|].
  destruct (negb (truthy_string (trim (prompt s)))); [cbn; intros (req & [])|].
  destruct (selectionMode s) eqn:Hm.
  - destruct (file s) as [f|]; [|cbn; intros (req & [])].
    step.
    destruct (on_uploadDataset b _) as [d|e]; step.
    2:{ intros (req & [Hreq|[]]). discriminate. }
    destruct (on_getDatasets b _) as [l|e]; step.
    2:{ intros (req & [Hreq|[Hreq|[]]]); discriminate. }
    destruct (negb (truthy_number _)); step.
    { intros (req & [Hreq|[Hreq|[]]]); discriminate. }
    rewrite Hans, Hfail. step.
    intros _. rewrite Hmsg. destruct (Hfinal (ier_error result)) as (H1 & H2 & H3).
    repeat split; assumption.
  - destruct (negb (truthy_string (selectedDatasetId s))) eqn:Hsel; [cbn; intros (req & [])|].
    apply negb_false_iff in Hsel. rewrite Hsel.
    step.
    destruct (negb (truthy_number _)); step.
    { intros (req & []). }
    rewrite Hans, Hfail. step.
    intros _. rewrite Hmsg. destruct (Hfinal (ier_error result)) as (H1 & H2 & H3).
    repeat split; assumption.
Qed.

Lemma extraction_success_false_is_failure_witness :
  (forall req, on_extractIntent Examples.rejecting req = Ok Examples.rejection)
  /\ ier_success Examples.rejection = false
  /\ let '(s', t) := run Examples.rejecting (handleSubmit (Some 2%Z) Examples.ready)
                       Examples.ready in
     calls t = [extractIntent {| req_prompt := "predict churn"; req_dataset_id := of_Z 7 |}]
     /\ intentResult s' = None
     /\ error s' = "Target column not found".
Proof.
  split; [reflexivity|]. split; [reflexivity|].
  pose proof (extraction_success_false_is_failure Examples.rejecting (Some 2%Z)
                Examples.ready Examples.rejection (fun _ => eq_refl) eq_refl) as H.
  destruct (run _ _ _) as [s' t] eqn:Hrun.
  assert (Ht : t = [EvSet (setLoading true); EvSet (setError ""); EvSet (setIntentResult None);
                    EvSet (setTrainingResult None);
                    EvCall (extractIntent {| req_prompt := "predict churn";
                                             req_dataset_id := of_Z 7 |});
                    EvSet (setError "Target column not found");
                    EvSet (setLoading false); EvSet (setTrainingLoading false)]).
  { vm_compute in Hrun. now injection Hrun as _ <-. }
  subst t. split; [reflexivity|].
  destruct H as (H1 & H2 & _).
  - eexists. cbn. left. reflexivity.
  - split; [exact H1|]. rewrite H2. reflexivity.
Defined.

(** C9.  Resuming a draft that carries an intent and a dataset id stores
    that intent (with the draft's id and no experiment plan), switches to
    select mode with the dataset id as the selected one, asks the backend
    for the model only, and does not touch the training outcome; a
    training started from there carries that intent and that dataset id. *)
Theorem loadModel_rehydrates b id s m d :
  on_getModel b id = Ok (Some m) ->
  truthy (mlm_intent m) = true -> mlm_dataset m = Some d -> d <> 0%Z ->
  let '(s', t) := run b (loadModel id) s in
  (exists r, intentResult s' = Some r
             /\ ier_intent r = mlm_intent m
             /\ ier_model_id r = Some (mlm_id m)
             /\ ier_experiment_plan r = None)
  /\ selectionMode s' = select
  /\ selectedDatasetId s' = toString d
  /\ parseInt (selectedDatasetId s') = of_Z d
  /\ calls t = [getModel id]
  /\ trainingResult s' = trainingResult s
  /\ prompt s' = prompt s /\ file s' = file s /\ error s' = error s
  /\ loading s' = false
  /\ forall b' projectId now,
       exists req,
         calls (run b' (handleStartTraining projectId now s') s').2 = [startTraining req]
         /\ trq_intent req = mlm_intent m
         /\ trq_model_id req = Some (mlm_id m)
         /\ trq_dataset_id req = VNumber (of_Z d).
Proof.
  intros Hget Hi Hd Hnz. unfold loadModel. cbn [run]. rewrite Hget, Hi, Hd.
  cbn [truthy_id]. apply Z.eqb_neq in Hnz. rewrite Hnz. cbn [negb].
  run_step. cbn [intentResult selectionMode selectedDatasetId trainingResult prompt file
                 error loading].
  assert (Hsel : truthy_string (toString d) = true).
  { pose proof (parseInt_toString d) as Hp. destruct (toString d); [|reflexivity].
    discriminate Hp. }
  split; [eexists; split; [reflexivity|]; repeat split|].
  split; [reflexivity|]. split; [reflexivity|]. split; [apply parseInt_toString|].
  split; [reflexivity|]. split; [reflexivity|]. split; [reflexivity|].
  split; [reflexivity|]. split; [reflexivity|]. split; [reflexivity|].
  intros b' projectId now. unfold handleStartTraining. cbn [intentResult ier_intent].
  rewrite Hi. cbn [negb run]. eexists.
  split; [destruct (on_startTraining b' _); reflexivity|].
  split; [reflexivity|]. split; [reflexivity|].
  cbn [trq_dataset_id]. unfold finalDatasetId. cbn [selectionMode selectedDatasetId].
  rewrite Hsel. now rewrite parseInt_toString.
Qed.

Lemma loadModel_rehydrates_witness :
  on_getModel Examples.serving_draft 5%Z = Ok (Some Examples.draft)
  /\ truthy (mlm_intent Examples.draft) = true
  /\ mlm_dataset Examples.draft = Some 12%Z
  /\ 12%Z <> 0%Z
  /\ let '(s', t) := run Examples.serving_draft (loadModel 5) initial in
     selectionMode s' = select /\ selectedDatasetId s' = "12"
     /\ calls t = [getModel 5%Z] /\ trainingResult s' = None.
Proof.
  split; [reflexivity|]. split; [reflexivity|]. split; [reflexivity|].
  split; [lia|].
  pose proof (loadModel_rehydrates Examples.serving_draft 5%Z initial Examples.draft 12%Z
                eq_refl eq_refl eq_refl ltac:(lia)) as H.
  destruct (run _ _ _) as [s' t].
  destruct H as (_ & H1 & H2 & _ & H3 & H4 & _).
  repeat split; assumption.
Defined.

(** C10.  After a resume the stored validation is [{is_valid: true}] with
    no warnings and [dataset_info] is the empty object, so it has no
    [dataset_id]: a training started from there sends the parsed selected
    id when one is picked in select mode and the default 1 otherwise. *)
Theorem loadModel_validation_and_dataset_info b id s m :
  on_getModel b id = Ok (Some m) -> truthy (mlm_intent m) = true ->
  let '(s', t) := run b (loadModel id) s in
  exists r,
    intentResult s' = Some r
    /\ ier_validation r = Some {| is_valid := true; warnings := None |}
    /\ ier_dataset_info r = Some ∅
    /\ extraction_dataset_id r = VUndefined
    /\ forall b' projectId now,
         exists req,
           calls (run b' (handleStartTraining projectId now s') s').2 = [startTraining req]
           /\ trq_dataset_id req
              = if match selectionMode s' with
                   | select => truthy_string (selectedDatasetId s')
                   | upload => false
                   end
                then VNumber (parseInt (selectedDatasetId s'))
                else VNumber (of_Z 1).
Proof.
  intros Hget Hi. unfold loadModel. cbn [run]. rewrite Hget, Hi.
  set (r := {| ier_success := true; ier_intent := mlm_intent m;
               ier_model_id := Some (mlm_id m);
               ier_validation := Some {| is_valid := true; warnings := None |};
               ier_experiment_plan := None; ier_dataset_info := Some ∅;
               ier_raw_prompt := ""; ier_error := None |}).
  assert (Hstart : forall st, intentResult st = Some r ->
            forall b' projectId now,
              exists req,
                calls (run b' (handleStartTraining projectId now st) st).2 = [startTraining req]
                /\ trq_dataset_id req
                   = if match selectionMode st with
                        | select => truthy_string (selectedDatasetId st)
                        | upload => false
                        end
                     then VNumber (parseInt (selectedDatasetId st))
                     else VNumber (of_Z 1)).
  { intros st Hst b' projectId now. unfold handleStartTraining. rewrite Hst.
    cbn [ier_intent r]. rewrite Hi. cbn [negb run]. eexists.
    split; [destruct (on_startTraining b' _); reflexivity|].
    cbn [trq_dataset_id]. unfold finalDatasetId.
    destruct (match selectionMode st with select => _ | upload => _ end); reflexivity. }
  destruct (mlm_dataset m) as [d|]; [destruct (truthy_id (Some d))|];
    run_step; exists r; (split; [reflexivity|]); (split; [reflexivity|]);
    (split; [reflexivity|]); (split; [reflexivity|]); apply Hstart; reflexivity.
Qed.

Lemma loadModel_validation_and_dataset_info_witness :
  on_getModel Examples.serving_draft 5%Z = Ok (Some Examples.draft)
  /\ truthy (mlm_intent Examples.draft) = true
  /\ let '(s', t) := run Examples.serving_draft (loadModel 5) initial in
     exists r, intentResult s' = Some r
               /\ ier_validation r = Some {| is_valid := true; warnings := None |}
               /\ ier_dataset_info r = Some ∅.
Proof.
  split; [reflexivity|]. split; [reflexivity|].
  pose proof (loadModel_validation_and_dataset_info Examples.serving_draft 5%Z initial
                Examples.draft eq_refl eq_refl) as H.
  destruct (run _ _ _) as [s' t].
  destruct H as (r & H1 & H2 & H3 & _). exists r. repeat split; assumption.
Defined.

End PromptBuilderSpec.

(* ===================================================================== *)
(** * More about the intent editor                                       *)
(* ===================================================================== *)

Module IntentEditorFacts.
Import JS IntentEditor JSFacts IntentEditorSpec.

(** A local [x || {}] reads like [x]. *)
Lemma or_literal_prop h v x h1 h' k :
  closed h -> valid h v ->
  or_literal v (CObject ∅) h = Some (x, h1) -> h1 `prefix_of` h' ->
  prop h' x k = prop h v k.
Proof.
  intros Hh Hv Hor Hp.
  destruct (or_literal_spec h v (CObject ∅) Hh Hv) as (x' & h1' & Hor' & Hp1 & _ & _ & _ & Hcase).
  { apply map_Forall_empty. }
  rewrite Hor in Hor'. injection Hor' as <- <-.
  destruct Hcase as [(Ht & -> & ->)|(Ht & -> & ->)].
  - now apply prop_prefix.
  - rewrite (prop_falsy _ _ _ Ht).
    assert (Hl : h' !! length h = Some (CObject ∅)).
    { eapply prefix_lookup_Some; [|exact Hp]. now apply list_lookup_middle. }
    now rewrite (prop_object _ _ _ _ Hl).
Qed.

Lemma render_locals h l o :
  closed h -> h !! l = Some (CObject o) ->
  exists r h',
    render (VRef l) h = Some (r, h') /\ h `prefix_of` h' /\ closed h'
    /\ spread h' (task r) = spread h (prop h (VRef l) "task")
    /\ spread h' (preprocessing r) = spread h (prop h (VRef l) "preprocessing")
    /\ spread h' (searchSpace r) = spread h (prop h (VRef l) "search_space")
    /\ valid h' (preprocessing r) /\ truthy (preprocessing r) = true
    /\ (forall k, prop h' (preprocessing r) k = prop h (prop h (VRef l) "preprocessing") k)
    /\ valid h' (searchSpace r)
    /\ (models_ok h (VRef l) ->
        exists a, models r = VRef a /\ h' !! a = Some (CArray (models_of h (VRef l)))).
Proof.
  intros Hh Hl.
  assert (Hvl : valid h (VRef l)) by (apply lookup_lt_Some in Hl; exact Hl).
  assert (Hempty : forall h0, cell_closed h0 (CObject ∅)) by (intros; apply map_Forall_empty).
  set (intent := VRef l) in *.
  destruct (or_literal_spec h (prop h intent "task") (CObject ∅) Hh
              (valid_prop _ _ _ Hh) (Hempty _))
    as (x1 & h1 & Hor1 & Hp1 & Hc1 & Hv1 & Ht1 & _).
  destruct (or_literal_spec h1 (prop h intent "preprocessing") (CObject ∅) Hc1
              (valid_prefix _ _ _ Hp1 (valid_prop _ _ _ Hh)) (Hempty _))
    as (x2 & h2 & Hor2 & Hp2 & Hc2 & Hv2 & Ht2 & _).
  assert (Hp02 : h `prefix_of` h2) by (etransitivity; eauto).
  destruct (or_literal_spec h2 (prop h intent "search_space") (CObject ∅) Hc2
              (valid_prefix _ _ _ Hp02 (valid_prop _ _ _ Hh)) (Hempty _))
    as (x3 & h3 & Hor3 & Hp3 & Hc3 & Hv3 & Ht3 & Hcase3).
  assert (Hp03 : h `prefix_of` h3) by (etransitivity; eauto).
  assert (Hm : prop h3 x3 "models" = prop h (prop h intent "search_space") "models").
  { destruct Hcase3 as [(Ht & -> & ->)|(Ht & -> & ->)].
    - apply prop_prefix; [exact Hp02|]. now apply valid_prop.
    - rewrite (prop_falsy h _ _ Ht). unfold prop, get.
      now rewrite list_lookup_middle. }
  set (m := prop h (prop h intent "search_space") "models") in *.
  assert (Hvm : valid h m) by (apply valid_prop; exact Hh).
  destruct (or_literal_spec h3 m (CArray []) Hc3 (valid_prefix _ _ _ Hp03 Hvm))
    as (x4 & h4 & Hor4 & Hp4 & Hc4 & Hv4 & Ht4 & Hcase4).
  { constructor. }
  exists {| task := x1; preprocessing := x2; searchSpace := x3; models := x4 |}, h4.
  assert (Hp14 : h1 `prefix_of` h4) by (repeat (etransitivity; eauto)).
  assert (Hp24 : h2 `prefix_of` h4) by (repeat (etransitivity; eauto)).
  assert (Hp04 : h `prefix_of` h4) by (etransitivity; eauto).
  split; [|split; [exact Hp04|split; [exact Hc4|]]].
  - unfold render.
    rewrite (bind_eq _ _ h _ h (get_prop h intent "task" Hvl ltac:(discriminate) ltac:(discriminate))).
    rewrite (bind_eq _ _ _ _ _ Hor1).
    rewrite (bind_eq _ _ h1 _ h1 (get_prop h1 intent "preprocessing"
               (valid_prefix _ _ _ Hp1 Hvl) ltac:(discriminate) ltac:(discriminate))).
    rewrite (prop_prefix h h1 intent) by assumption.
    rewrite (bind_eq _ _ _ _ _ Hor2).
    rewrite (bind_eq _ _ h2 _ h2 (get_prop h2 intent "search_space"
               (valid_prefix _ _ _ Hp02 Hvl) ltac:(discriminate) ltac:(discriminate))).
    rewrite (prop_prefix h h2 intent) by assumption.
    rewrite (bind_eq _ _ _ _ _ Hor3).
    destruct (truthy_not_nullish _ Ht3) as [Hn1 Hn2].
    rewrite (bind_eq _ _ h3 _ h3 (get_prop h3 x3 "models" Hv3 Hn1 Hn2)).
    rewrite Hm.
    rewrite (bind_eq _ _ _ _ _ Hor4).
    reflexivity.
  - cbn [task preprocessing searchSpace models].
    assert (Hvp : valid h1 (prop h intent "preprocessing")).
    { apply (valid_prefix h); auto using valid_prop. }
    split; [eapply or_literal_spread; eauto using valid_prop|].
    split.
    { rewrite <- (spread_prefix h h1) by (auto using valid_prop).
      eapply or_literal_spread; eauto. }
    split.
    { rewrite <- (spread_prefix h h2) by (auto using valid_prop).
      eapply or_literal_spread; eauto.
      apply (valid_prefix h); auto using valid_prop. }
    split; [apply (valid_prefix h2); auto; etransitivity; eauto|].
    split; [exact Ht2|].
    split.
    { intros k. rewrite (or_literal_prop h1 _ x2 h2 h4 k Hc1 Hvp Hor2) by (etransitivity; eauto).
      apply prop_prefix; auto using valid_prop. }
    split; [now apply (valid_prefix h3)|].
    intros [Hshape _]. rewrite models_of_eq. fold intent. fold m. fold m in Hshape.
    destruct Hcase4 as [(Ht & -> & ->)|(Ht & -> & ->)].
    + destruct Hshape as [Hf|(a & xs & Hma & Ha)]; [congruence|].
      exists a. split; [exact Hma|]. rewrite Hma. cbn [iterate]. rewrite Ha.
      eapply prefix_lookup_Some; eauto.
    + exists (length h3). split; [reflexivity|].
      rewrite list_lookup_middle by reflexivity. f_equal. f_equal.
      destruct m; try discriminate; try reflexivity.
      * simpl in Ht. destruct s; [reflexivity|discriminate].
Qed.

(** The effect of [setField], with what the next operation needs to go on. *)
Lemma setField_spec h l o sec key value :
  closed h -> h !! l = Some (CObject o) -> valid h value ->
  exists l' h' o',
    setField (VRef l) sec key value h = Some (VRef l', h')
    /\ h `prefix_of` h' /\ closed h'
    /\ h' !! l' = Some (CObject o') /\ l' <> l
    /\ (forall k, k <> section_name sec -> o' !! k = o !! k)
    /\ (forall k, field h' (VRef l') sec k
                  = if decide (key = k) then Some value else field h (VRef l) sec k).
Proof.
  intros Hh Hl Hval.
  destruct (render_locals h l o Hh Hl)
    as (r & h1 & Hr & Hp & Hc1 & Ht & Hpp & _ & _ & _ & _ & _ & _).
  assert (Hl1 : h1 !! l = Some (CObject o)) by (eapply prefix_lookup_Some; eauto).
  assert (Hlt : l < length h1) by (now apply lookup_lt_Some in Hl1).
  set (secv := match sec with Task => task r | Preprocessing => preprocessing r end).
  assert (Hsecv : spread h1 secv = spread h (prop h (VRef l) (section_name sec)))
    by (destruct sec; assumption).
  set (t' := <[key := value]> (spread h1 secv)).
  set (o' := <[section_name sec := VRef (length h1)]> o).
  set (h' := h1 ++ [CObject t'; CObject o']).
  assert (Hrun : setField (VRef l) sec key value h = Some (VRef (S (length h1)), h')).
  { unfold setField. rewrite (bind_eq _ _ _ _ _ Hr).
    destruct sec; apply (update_section_spec h1 l o _ _ key value Hl1). }
  assert (Hp1' : h1 `prefix_of` h') by now apply prefix_app_r.
  assert (Hp' : h `prefix_of` h') by (etransitivity; eauto).
  assert (Hnew : h' !! S (length h1) = Some (CObject o')).
  { unfold h'. rewrite lookup_app_r by lia.
    replace (S (length h1) - length h1) with 1 by lia. reflexivity. }
  assert (Hsec : h' !! length h1 = Some (CObject t')).
  { unfold h'. now rewrite list_lookup_middle. }
  assert (Hclosed : closed h').
  { unfold h'. apply closed_app; [exact Hc1|]. fold h'.
    assert (Hlen : length h' = S (S (length h1))).
    { unfold h'. rewrite length_app. cbn. lia. }
    constructor; [|constructor; [|constructor]]; cbn [cell_closed].
    - unfold t'. apply map_Forall_insert_2.
      + apply (valid_prefix h); assumption.
      + rewrite Hsecv. eapply map_Forall_impl; [apply (spread_closed h _ Hh)|].
        intros ? v. now apply valid_prefix.
    - unfold o'. apply map_Forall_insert_2; [cbn; lia|].
      eapply map_Forall_impl; [exact (closed_lookup _ _ _ Hh Hl)|].
      intros ? v. now apply valid_prefix. }
  assert (Ho1 : o' !! section_name sec = Some (VRef (length h1)))
    by (unfold o'; now rewrite lookup_insert_eq).
  assert (Ho2 : forall k, k <> section_name sec -> o' !! k = o !! k)
    by (intros k Hk; unfold o'; now rewrite lookup_insert_ne).
  assert (Hfield : forall k, t' !! k = if decide (key = k) then Some value
                                       else field h (VRef l) sec k).
  { intros k. unfold t', field. rewrite lookup_insert. now rewrite Hsecv. }
  clearbody h' t' o'.
  exists (S (length h1)), h', o'.
  split; [exact Hrun|]. split; [exact Hp'|]. split; [exact Hclosed|].
  split; [exact Hnew|]. split; [lia|]. split; [exact Ho2|].
  intros k. rewrite <- Hfield. unfold field. rewrite (prop_object h' _ o' _ Hnew).
  rewrite Ho1. simpl. now rewrite Hsec.
Qed.

(** Reads that go through a property the update did not replace. *)
Lemma prop_kept h h' l l' o o' k :
  closed h -> h `prefix_of` h' ->
  h !! l = Some (CObject o) -> h' !! l' = Some (CObject o') ->
  o' !! k = o !! k ->
  prop h' (VRef l') k = prop h (VRef l) k /\ valid h (prop h (VRef l) k).
Proof.
  intros Hh Hp Hl Hl' Hk.
  rewrite (prop_object _ _ _ _ Hl'), (prop_object _ _ _ _ Hl), Hk. split; [reflexivity|].
  rewrite <- (prop_object _ _ _ _ Hl). now apply valid_prop.
Qed.

Lemma field_kept h h' l l' o o' sec k :
  closed h -> h `prefix_of` h' ->
  h !! l = Some (CObject o) -> h' !! l' = Some (CObject o') ->
  o' !! section_name sec = o !! section_name sec ->
  field h' (VRef l') sec k = field h (VRef l) sec k.
Proof.
  intros Hh Hp Hl Hl' Hk. unfold field.
  destruct (prop_kept h h' l l' o o' _ Hh Hp Hl Hl' Hk) as [-> Hv].
  now rewrite (spread_prefix h h').
Qed.

Lemma iterate_prefix h h' v :
  h `prefix_of` h' -> valid h v ->
  match iterate v h' with Some (xs, _) => xs | None => [] end
  = match iterate v h with Some (xs, _) => xs | None => [] end.
Proof.
  intros Hp Hv. destruct v; try reflexivity. cbn [iterate].
  cbn [valid] in Hv. rewrite (lookup_prefix h h') by assumption.
  destruct (h !! l) as [[?|?]|]; reflexivity.
Qed.

Lemma models_of_kept h h' l l' o o' :
  closed h -> h `prefix_of` h' ->
  h !! l = Some (CObject o) -> h' !! l' = Some (CObject o') ->
  o' !! "search_space" = o !! "search_space" ->
  models_of h' (VRef l') = models_of h (VRef l).
Proof.
  intros Hh Hp Hl Hl' Hk. rewrite !models_of_eq.
  destruct (prop_kept h h' l l' o o' _ Hh Hp Hl Hl' Hk) as [-> Hv].
  rewrite (prop_prefix h h') by assumption.
  apply iterate_prefix; [exact Hp|]. now apply valid_prop.
Qed.


Lemma some_spec h n xs :
  Forall is_entry xs -> Forall (valid h) xs ->
  exists b, some n xs h = Some (b, h)
            /\ (b = true <-> VString n ∈ map (name_of h) xs).
Proof.
  induction xs as [|m xs IH]; intros He Hv.
  - exists false. split; [reflexivity|]. split; [discriminate|]. intros H. inversion H.
  - apply Forall_cons in He as [He1 He], Hv as [Hv1 Hv].
    destruct (has_name_spec h n m He1 Hv1) as (b & Hb & Hiff).
    cbn [some]. rewrite (bind_eq _ _ _ _ _ Hb). destruct b.
    + exists true. split; [reflexivity|]. split; [|reflexivity].
      intros _. cbn [map]. rewrite (proj1 Hiff eq_refl). now left.
    + destruct (IH He Hv) as (b & Hr & Hspec). exists b. split; [exact Hr|].
      rewrite Hspec. cbn [map]. rewrite elem_of_cons. split; [now right|].
      intros [E|H]; [|exact H]. symmetry in E. apply Hiff in E. discriminate.
Qed.

Lemma selected_spec h l o n :
  closed h -> h !! l = Some (CObject o) -> models_ok h (VRef l) ->
  exists b h1,
    selected (VRef l) n h = Some (b, h1)
    /\ (b = true <-> (VString n ∈ names h (VRef l))).
Proof.
  intros Hh Hl Hok.
  destruct (render_locals h l o Hh Hl)
    as (r & h1 & Hr & Hp & Hc1 & _ & _ & _ & _ & _ & _ & _ & Harr).
  destruct (Harr Hok) as (a & Hm & Ha).
  assert (Hv : Forall (valid h) (models_of h (VRef l))) by now apply models_of_valid.
  assert (Hv1 : Forall (valid h1) (models_of h (VRef l))).
  { eapply Forall_impl; [exact Hv|]. intros v. now apply valid_prefix. }
  destruct (some_spec h1 n _ (proj2 Hok) Hv1) as (b & Hsome & Hiff).
  exists b, h1. split.
  - unfold selected. rewrite (bind_eq _ _ _ _ _ Hr). unfold isModelSelected.
    assert (He : elements (models r) h1 = Some (models_of h (VRef l), h1)).
    { rewrite Hm. cbn [elements]. now rewrite Ha. }
    now rewrite (bind_eq _ _ _ _ _ He).
  - rewrite Hiff, names_eq. now rewrite (map_name_of_prefix h h1).
Qed.

(** One click, read off the names. *)
Lemma toggled_names h h' n xs xs' :
  h `prefix_of` h' -> Forall (valid h) xs -> toggled h h' n xs xs' ->
((VString n ∉ map (name_of h) xs)
   /\ map (name_of h') xs' = map (name_of h) xs ++ [VString n])
  \/ (exists i, map (name_of h) xs !! i = Some (VString n)
                /\ map (name_of h') xs' = delete i (map (name_of h) xs)).
Proof.
  intros Hp Hv [(Habs & e & p & -> & He & _)|(i & m & Hi & Hm & _ & ->)].
  - left. split.
    + intros Hin. apply list_elem_of_In, in_map_iff in Hin.
      destruct Hin as (m & Hm & Hin). apply (Habs m); [now apply list_elem_of_In|exact Hm].
    + rewrite map_app. cbn [map]. rewrite (name_of_new_entry _ _ _ _ He).
      now rewrite (map_name_of_prefix h h').
  - right. exists i. split.
    + rewrite list_lookup_fmap, Hi. cbn. now rewrite Hm.
    + rewrite (map_name_of_prefix h h') by (try apply Forall_delete; assumption).
      apply map_delete.
Qed.

(** X12. [isModelSelected] read after [toggleModel n]: the checkbox of every
    other name shows what it showed; the one of [n] is on if it was off; and
    with names unique it is the negation of what it was. *)
Theorem toggleModel_flips_checkbox h l o n n' :
  closed h -> h !! l = Some (CObject o) -> models_ok h (VRef l) ->
  exists l' h' b b' h0 h1,
    toggle (VRef l) n h = Some (VRef l', h')
    /\ selected (VRef l) n' h = Some (b, h0)
    /\ selected (VRef l') n' h' = Some (b', h1)
    /\ (n' <> n -> b' = b)
    /\ (n' = n -> b = false -> b' = true)
    /\ (n' = n -> NoDup (names h (VRef l)) -> b' = negb b).
Proof.
  intros Hh Hl Hok.
  destruct (toggle_spec h l o n Hh Hl Hok)
    as (l' & h' & o' & Hrun & Hp & Hc' & Hl' & _ & Hok' & _ & Ht).
  destruct (selected_spec h l o n' Hh Hl Hok) as (b & h0 & Hs & Hb).
  destruct (selected_spec h' l' o' n' Hc' Hl' Hok') as (b' & h1 & Hs' & Hb').
  exists l', h', b, b', h0, h1.
  split; [exact Hrun|]. split; [exact Hs|]. split; [exact Hs'|].
  rewrite names_eq in Hb, Hb'. rewrite names_eq.
  apply (toggled_names h h' n _ _ Hp (models_of_valid h _ Hh)) in Ht.
  set (ns := map (name_of h) (models_of h (VRef l))) in *.
  set (ns' := map (name_of h') (models_of h' (VRef l'))) in *.
  clearbody ns ns'.
  assert (Hbool : forall x y : bool, (x = true <-> y = true) -> x = y).
  { intros [] [] [H1 H2]; try reflexivity; [symmetry; now apply H1|now apply H2]. }
  assert (Hnot : forall x : bool, (x = true -> False) -> x = false).
  { intros [] H; [now destruct H|reflexivity]. }
  split; [|split].
  - intros Hne. apply Hbool. rewrite Hb, Hb'.
    destruct Ht as [(_ & ->)|(i & Hi & ->)].
    + rewrite elem_of_app, list_elem_of_singleton. split; [|now left].
      intros [H|E]; [exact H|congruence].
    + split; [apply elem_of_delete_sub|].
      intros H. destruct (elem_of_delete_or _ _ _ _ Hi H) as [E|H']; [congruence|exact H'].
  - intros -> Hf. apply Hb'.
    destruct Ht as [(_ & ->)|(i & Hi & _)].
    + apply elem_of_app. right. now left.
    + exfalso. apply list_elem_of_lookup_2 in Hi. apply Hb in Hi. congruence.
  - intros -> Hnd. destruct Ht as [(Hn & ->)|(i & Hi & ->)].
    + assert (b = false) as -> by (apply Hnot; intros E; apply Hb in E; contradiction).
      apply Hb'. apply elem_of_app. right. now left.
    + assert (b = true) as ->.
      { apply Hb. eapply list_elem_of_lookup_2; eauto. }
      apply Hnot. intros E. apply Hb' in E.
      exact (NoDup_delete_not_in _ _ _ Hnd Hi E).
Qed.

Lemma toggleModel_flips_checkbox_witness :
  exists l' h' h0 h1,
    toggle (VRef 0) "xgboost" Examples.example_heap = Some (VRef l', h')
    /\ selected (VRef 0) "xgboost" Examples.example_heap = Some (true, h0)
    /\ selected (VRef l') "xgboost" h' = Some (false, h1).
Proof.
  destruct (toggleModel_flips_checkbox Examples.example_heap 0 _ "xgboost" "xgboost"
              example_heap_closed eq_refl example_models_ok)
    as (l' & h' & b & b' & h0 & h1 & Hrun & Hs & Hs' & _ & _ & Hflip).
  assert (Hb : b = true).
  { vm_compute in Hs. now injection Hs as <- _. }
  assert (Hb' : b' = false).
  { rewrite (Hflip eq_refl), Hb; [reflexivity|].
    rewrite example_names. apply NoDup_singleton. }
  subst. exists l', h', h0, h1. repeat split; assumption.
Defined.

(** X16. [toggleModel] preserves uniqueness of the model names: from an
    intent whose [search_space.models] entries are pairwise distinct by name
    it gives another such intent, again well formed on a closed heap. *)
Theorem toggleModel_keeps_names_unique h l o n :
  closed h -> h !! l = Some (CObject o) -> models_ok h (VRef l) ->
  NoDup (names h (VRef l)) ->
  exists l' h',
    toggle (VRef l) n h = Some (VRef l', h')
    /\ NoDup (names h' (VRef l'))
    /\ models_ok h' (VRef l') /\ closed h'.
Proof.
  intros Hh Hl Hok Hnd.
  destruct (toggle_spec h l o n Hh Hl Hok)
    as (l' & h' & o' & Hrun & Hp & Hc' & Hl' & _ & Hok' & _ & Ht).
  exists l', h'. split; [exact Hrun|]. split; [|split; assumption].
  rewrite names_eq in *.
  apply (toggled_names h h' n _ _ Hp (models_of_valid h _ Hh)) in Ht.
  destruct Ht as [(Hn & ->)|(i & Hi & ->)].
  - apply NoDup_app. split; [exact Hnd|]. split; [|apply NoDup_singleton].
    intros x Hx Hin. apply list_elem_of_singleton in Hin. subst. contradiction.
  - eapply sublist_NoDup; [exact Hnd|apply sublist_delete].
Qed.

Lemma toggleModel_keeps_names_unique_witness :
  exists l' h',
    toggle (VRef 0) "random_forest" Examples.example_heap = Some (VRef l', h')
    /\ NoDup (names h' (VRef l')).
Proof.
  destruct (toggleModel_keeps_names_unique Examples.example_heap 0 _ "random_forest"
              example_heap_closed eq_refl example_models_ok)
    as (l' & h' & Hrun & Hnd & _).
  { rewrite example_names. apply NoDup_singleton. }
  exists l', h'. split; assumption.
Defined.

(** X17. On an intent with no [search_space] at all, [toggleModel n] does not
    fail: the result has a [search_space] whose [models] is the one fresh
    entry [{name: n, params: {}}]. *)
Theorem toggleModel_without_search_space h l o n :
  closed h -> h !! l = Some (CObject o) -> o !! "search_space" = None ->
  exists l' h',
    toggle (VRef l) n h = Some (VRef l', h')
    /\ names h' (VRef l') = [VString n]
    /\ exists e p,
         models_of h' (VRef l') = [VRef e]
         /\ h' !! e = Some (CObject (<["name" := VString n]> (<["params" := VRef p]> ∅)))
         /\ h' !! p = Some (CObject ∅).
Proof.
  intros Hh Hl Hnone.
  assert (Hm : models_of h (VRef l) = []).
  { rewrite models_of_eq, (prop_object _ _ _ _ Hl), Hnone. reflexivity. }
  assert (Hok : models_ok h (VRef l)).
  { split; [|rewrite Hm; constructor].
    left. rewrite (prop_object _ _ _ _ Hl), Hnone. reflexivity. }
  destruct (toggle_spec h l o n Hh Hl Hok)
    as (l' & h' & o' & Hrun & Hp & Hc' & Hl' & _ & Hok' & _ & Ht).
  exists l', h'. split; [exact Hrun|]. rewrite names_eq.
  rewrite Hm in Ht. destruct Ht as [(_ & e & p & Hxs & He & Hpp & _)|(i & m & Hi & _)].
  - cbn [app] in Hxs. rewrite Hxs. cbn [map].
    rewrite (name_of_new_entry _ _ _ _ He). split; [reflexivity|].
    exists e, p. repeat split; assumption.
  - discriminate Hi.
Qed.

Lemma toggleModel_without_search_space_witness :
  exists l' h',
    toggle (VRef 0) "knn" Examples.bare_heap = Some (VRef l', h')
    /\ names h' (VRef l') = [VString "knn"].
Proof.
  destruct (toggleModel_without_search_space Examples.bare_heap 0
              (<["task" := VNull]> ∅) "knn")
    as (l' & h' & Hrun & Hn & _).
  - apply (bool_decide_unpack _). vm_compute. exact I.
  - reflexivity.
  - reflexivity.
  - exists l', h'. split; assumption.
Defined.

Lemma section_not_search_space sec : "search_space" <> section_name sec.
Proof. destruct sec; discriminate. Qed.

Lemma missing_strategy_kept h h' l l' o o' k :
  closed h -> h `prefix_of` h' ->
  h !! l = Some (CObject o) -> h' !! l' = Some (CObject o') ->
  o' !! "preprocessing" = o !! "preprocessing" ->
  missing_strategy h' (VRef l') k = missing_strategy h (VRef l) k.
Proof.
  intros Hh Hp Hl Hl' Hk. unfold missing_strategy.
  destruct (prop_kept h h' l l' o o' _ Hh Hp Hl Hl' Hk) as [-> Hv].
  rewrite (prop_prefix h h') by assumption.
  rewrite (spread_prefix h h'); [reflexivity|exact Hp|]. now apply valid_prop.
Qed.

(** X13. [updateTask] and [updatePreprocessing] leave the search space alone:
    the model entries, their names and every key of [search_space] read the
    same after the update. *)
Theorem setField_keeps_models h l o sec key value :
  closed h -> h !! l = Some (CObject o) -> valid h value ->
  exists l' h',
    setField (VRef l) sec key value h = Some (VRef l', h')
    /\ models_of h' (VRef l') = models_of h (VRef l)
    /\ names h' (VRef l') = names h (VRef l)
    /\ (forall k, spread h' (prop h' (VRef l') "search_space") !! k
                  = spread h (prop h (VRef l) "search_space") !! k).
Proof.
  intros Hh Hl Hval.
  destruct (setField_spec h l o sec key value Hh Hl Hval)
    as (l' & h' & o' & Hrun & Hp & Hc' & Hl' & _ & Hframe & _).
  pose proof (Hframe "search_space" (section_not_search_space sec)) as Hss.
  pose proof (models_of_kept h h' l l' o o' Hh Hp Hl Hl' Hss) as Hm.
  exists l', h'. split; [exact Hrun|]. split; [exact Hm|]. split.
  - rewrite !names_eq, Hm. apply map_name_of_prefix; [exact Hp|].
    now apply models_of_valid.
  - intros k. destruct (prop_kept h h' l l' o o' _ Hh Hp Hl Hl' Hss) as [-> Hv].
    now rewrite (spread_prefix h h').
Qed.

Lemma setField_keeps_models_witness :
  exists l' h',
    setField (VRef 0) Task "cv_folds" (VNumber (of_Z 10)) Examples.example_heap
    = Some (VRef l', h')
    /\ names h' (VRef l') = [VString "xgboost"].
Proof.
  destruct (setField_keeps_models Examples.example_heap 0 _ Task "cv_folds"
              (VNumber (of_Z 10)) example_heap_closed eq_refl I)
    as (l' & h' & Hrun & _ & Hn & _).
  exists l', h'. split; [exact Hrun|]. rewrite Hn. exact example_names.
Defined.

(** X14. [toggleModel] changes [search_space.models] only: every field of
    [task] and [preprocessing], both missing-value strategies and every other
    key of [search_space] read the same after it. *)
Theorem toggleModel_keeps_fields h l o n :
  closed h -> h !! l = Some (CObject o) -> models_ok h (VRef l) ->
  exists l' h',
    toggle (VRef l) n h = Some (VRef l', h')
    /\ (forall sec k, field h' (VRef l') sec k = field h (VRef l) sec k)
    /\ (forall k, missing_strategy h' (VRef l') k = missing_strategy h (VRef l) k)
    /\ (forall k, k <> "models" ->
          spread h' (prop h' (VRef l') "search_space") !! k
          = spread h (prop h (VRef l) "search_space") !! k).
Proof.
  intros Hh Hl Hok.
  destruct (toggle_spec h l o n Hh Hl Hok)
    as (l' & h' & o' & Hrun & Hp & Hc' & Hl' & _ & _ & Hframe & _).
  exists l', h'. split; [exact Hrun|]. split; [|split].
  - intros sec k. apply (field_kept h h' l l' o o'); auto;
      apply Hframe; intros E; symmetry in E; exact (section_not_search_space _ E).
  - intros k. apply (missing_strategy_kept h h' l l' o o'); auto;
      apply Hframe; discriminate.
  - intros k Hk.
    destruct (render_locals h l o Hh Hl)
      as (r & h1 & Hr & Hp1 & Hc1 & _ & _ & Hss & _ & _ & _ & Hvs & Harr).
    destruct (Harr Hok) as (a & Hm & Ha).
    assert (Hl1 : h1 !! l = Some (CObject o)) by (eapply prefix_lookup_Some; eauto).
    assert (Hit : iterate (models r) h1 = Some (models_of h (VRef l), h1)).
    { rewrite Hm. cbn [iterate]. now rewrite Ha. }
    assert (Hvx1 : Forall (valid h1) (models_of h (VRef l))).
    { eapply Forall_impl; [apply (models_of_valid h _ Hh)|]. intros v. now apply valid_prefix. }
    destruct (toggleModel_run h1 l o r n _ Hl1 Hit (proj2 Hok) Hvx1) as (idx & _ & Hexp).
    cbv zeta in Hexp. unfold toggle in Hrun. rewrite (bind_eq _ _ _ _ _ Hr), Hexp in Hrun.
    set (h3 := h1 ++ toggled_cells h1 n (models_of h (VRef l)) idx) in *.
    assert (Hp13 : h1 `prefix_of` h3) by now apply prefix_app_r.
    injection Hrun as Hl'eq Hh'eq.
    assert (Hcss : h' !! length h3
                   = Some (CObject (<["models" := VRef (length h1)]>
                                      (spread h3 (searchSpace r))))).
    { rewrite <- Hh'eq. now rewrite list_lookup_middle. }
    assert (Ho' : o' !! "search_space" = Some (VRef (length h3))).
    { assert (Hnew : h' !! l' = Some (CObject (<["search_space" := VRef (length h3)]> o))).
      { rewrite <- Hh'eq, <- Hl'eq. rewrite lookup_app_r by lia.
        replace (S (length h3) - length h3) with 1 by lia. reflexivity. }
      rewrite Hl' in Hnew. injection Hnew as ->. now rewrite lookup_insert_eq. }
    rewrite (prop_object _ _ _ _ Hl'), Ho'. simpl default. cbn [spread]. rewrite Hcss.
    rewrite lookup_insert_ne by congruence.
    rewrite (spread_prefix h1 h3 _ Hp13 Hvs). now rewrite Hss.
Qed.

Lemma toggleModel_keeps_fields_witness :
  exists l' h',
    toggle (VRef 0) "knn" Examples.example_heap = Some (VRef l', h')
    /\ field h' (VRef l') Task "metric" = Some (VString "rmse").
Proof.
  destruct (toggleModel_keeps_fields Examples.example_heap 0 _ "knn"
              example_heap_closed eq_refl example_models_ok)
    as (l' & h' & Hrun & Hf & _).
  exists l', h'. split; [exact Hrun|]. rewrite Hf. reflexivity.
Defined.

Lemma setField_reads h l o sec key value :
  closed h -> h !! l = Some (CObject o) -> valid h value ->
  exists l' h' o',
    setField (VRef l) sec key value h = Some (VRef l', h')
    /\ h `prefix_of` h' /\ closed h' /\ h' !! l' = Some (CObject o')
    /\ forall sec' k,
         field h' (VRef l') sec' k
         = if decide ((sec', k) = (sec, key)) then Some value else field h (VRef l) sec' k.
Proof.
  intros Hh Hl Hval.
  destruct (setField_spec h l o sec key value Hh Hl Hval)
    as (l' & h' & o' & Hrun & Hp & Hc' & Hl' & _ & Hframe & Hread).
  exists l', h', o'. repeat (split; [assumption|]).
  intros sec' k. destruct (decide (sec' = sec)) as [->|Hs].
  - rewrite Hread. destruct (decide (key = k)) as [->|Hk].
    + now rewrite decide_True.
    + rewrite decide_False; [reflexivity|congruence].
  - rewrite decide_False by congruence.
    apply (field_kept h h' l l' o o'); auto.
    apply Hframe. intros E. apply section_name_inj in E. contradiction.
Qed.

(** X15. Two field updates in a row: the second value is read back at its
    path; updates at two distinct paths both hold and give the same reads in
    either order; every path other than the two reads as before. *)
Theorem setField_composition h l o sec1 k1 v1 sec2 k2 v2 :
  closed h -> h !! l = Some (CObject o) -> valid h v1 -> valid h v2 ->
  exists la ha lb hb,
    setField_twice (VRef l) sec1 k1 v1 sec2 k2 v2 h = Some (VRef la, ha)
    /\ setField_twice (VRef l) sec2 k2 v2 sec1 k1 v1 h = Some (VRef lb, hb)
    /\ field ha (VRef la) sec2 k2 = Some v2
    /\ ((sec1, k1) <> (sec2, k2) ->
        field ha (VRef la) sec1 k1 = Some v1
        /\ forall sec k, field ha (VRef la) sec k = field hb (VRef lb) sec k)
    /\ (forall sec k, (sec, k) <> (sec1, k1) -> (sec, k) <> (sec2, k2) ->
          field ha (VRef la) sec k = field h (VRef l) sec k).
Proof.
  intros Hh Hl Hv1 Hv2.
  destruct (setField_reads h l o sec1 k1 v1 Hh Hl Hv1)
    as (l1 & h1 & o1 & Hrun1 & Hp1 & Hc1 & Hl1 & Hr1).
  destruct (setField_reads h1 l1 o1 sec2 k2 v2 Hc1 Hl1 (valid_prefix _ _ _ Hp1 Hv2))
    as (la & ha & oa & Hruna & _ & _ & _ & Hra).
  destruct (setField_reads h l o sec2 k2 v2 Hh Hl Hv2)
    as (l2 & h2 & o2 & Hrun2 & Hp2 & Hc2 & Hl2 & Hr2).
  destruct (setField_reads h2 l2 o2 sec1 k1 v1 Hc2 Hl2 (valid_prefix _ _ _ Hp2 Hv1))
    as (lb & hb & ob & Hrunb & _ & _ & _ & Hrb).
  exists la, ha, lb, hb.
  split; [unfold setField_twice; now rewrite (bind_eq _ _ _ _ _ Hrun1)|].
  split; [unfold setField_twice; now rewrite (bind_eq _ _ _ _ _ Hrun2)|].
  split; [rewrite Hra; now rewrite decide_True|].
  split.
  - intros Hne. split.
    + rewrite Hra, decide_False by exact Hne. rewrite Hr1. now rewrite decide_True.
    + intros sec k. rewrite Hra, Hrb, Hr1, Hr2.
      destruct (decide ((sec, k) = (sec2, k2))) as [E2|N2],
               (decide ((sec, k) = (sec1, k1))) as [E1|N1]; try reflexivity.
      congruence.
  - intros sec k N1 N2. rewrite Hra, decide_False by exact N2.
    rewrite Hr1. now rewrite decide_False.
Qed.

Lemma setField_composition_witness :
  exists la ha lb hb,
    setField_twice (VRef 0) Task "metric" (VString "mae")
      Preprocessing "scaling" (VString "robust") Examples.example_heap = Some (VRef la, ha)
    /\ setField_twice (VRef 0) Preprocessing "scaling" (VString "robust")
         Task "metric" (VString "mae") Examples.example_heap = Some (VRef lb, hb)
    /\ field ha (VRef la) Task "metric" = Some (VString "mae")
    /\ field hb (VRef lb) Task "metric" = Some (VString "mae")
    /\ field hb (VRef lb) Task "type" = Some (VString "regression").
Proof.
  destruct (setField_composition Examples.example_heap 0 _ Task "metric" (VString "mae")
              Preprocessing "scaling" (VString "robust") example_heap_closed eq_refl I I)
    as (la & ha & lb & hb & Ha & Hb & _ & Hcomm & Hframe).
  destruct Hcomm as [H1 Heq]; [discriminate|].
  exists la, ha, lb, hb. split; [exact Ha|]. split; [exact Hb|]. split; [exact H1|].
  split; [now rewrite <- Heq|].
  rewrite <- Heq. rewrite Hframe; [reflexivity|discriminate|discriminate].
Defined.

(** X18. The two missing-value selects write through
    [updatePreprocessing('missing_strategy', {...old, [which]: value})]: the
    result is a new intent on an extended heap in which the chosen strategy
    reads the new value, the other strategy and every other preprocessing key
    read as before, and [task] and the model list are untouched. *)
Theorem setMissingStrategy_frame h l o which value :
  closed h -> h !! l = Some (CObject o) ->
  exists l' h',
    setMissingStrategy (VRef l) which value h = Some (VRef l', h')
    /\ l' <> l /\ h `prefix_of` h'
    /\ missing_strategy h' (VRef l') which = Some (VString value)
    /\ (forall k, k <> which ->
          missing_strategy h' (VRef l') k = missing_strategy h (VRef l) k)
    /\ (forall k, k <> "missing_strategy" ->
          field h' (VRef l') Preprocessing k = field h (VRef l) Preprocessing k)
    /\ (forall k, field h' (VRef l') Task k = field h (VRef l) Task k)
    /\ models_of h' (VRef l') = models_of h (VRef l).
Proof.
  intros Hh Hl.
  destruct (render_locals h l o Hh Hl)
    as (r & h1 & Hr & Hp & Hc1 & _ & Hpp & _ & Hvp & Htp & Hprop & _ & _).
  assert (Hl1 : h1 !! l = Some (CObject o)) by (eapply prefix_lookup_Some; eauto).
  assert (Hlt : l < length h1) by (now apply lookup_lt_Some in Hl1).
  set (ms := prop h (prop h (VRef l) "preprocessing") "missing_strategy").
  assert (Hvms : valid h ms) by now apply valid_prop.
  destruct (truthy_not_nullish _ Htp) as [Hn1 Hn2].
  pose proof (get_prop h1 (preprocessing r) "missing_strategy" Hvp Hn1 Hn2) as Hget.
  rewrite Hprop in Hget. fold ms in Hget.
  set (c0 := CObject (<[which := VString value]> (spread h1 ms))).
  set (h2 := h1 ++ [c0]).
  assert (Hp12 : h1 `prefix_of` h2) by now apply prefix_app_r.
  assert (Hl2 : h2 !! l = Some (CObject o)) by (eapply prefix_lookup_Some; eauto).
  pose proof (update_section_spec h2 l o (preprocessing r) "preprocessing"
                "missing_strategy" (VRef (length h1)) Hl2) as Hupd.
  cbv zeta in Hupd.
  set (c1 := CObject (<["missing_strategy" := VRef (length h1)]>
                        (spread h2 (preprocessing r)))) in *.
  set (c2 := CObject (<["preprocessing" := VRef (length h2)]> o)) in *.
  set (h' := h2 ++ [c1; c2]) in *.
  assert (Hlen2 : length h2 = S (length h1)) by (unfold h2; rewrite length_app; cbn; lia).
  assert (Hrun : setMissingStrategy (VRef l) which value h = Some (VRef (S (length h2)), h')).
  { unfold setMissingStrategy. rewrite (bind_eq _ _ _ _ _ Hr).
    unfold onMissingStrategyChange. rewrite (bind_eq _ _ _ _ _ Hget).
    unfold bind at 1. unfold alloc at 1. fold c0. fold h2.
    unfold updatePreprocessing. exact Hupd. }
  assert (Hp2' : h2 `prefix_of` h') by now apply prefix_app_r.
  assert (Hp' : h `prefix_of` h') by (repeat (etransitivity; eauto)).
  assert (H0 : h' !! length h1 = Some c0).
  { apply (prefix_lookup_Some h2); [|exact Hp2']. unfold h2. now rewrite list_lookup_middle. }
  assert (H1 : h' !! length h2 = Some c1) by (unfold h'; now rewrite list_lookup_middle).
  assert (H2 : h' !! S (length h2) = Some c2).
  { unfold h'. rewrite lookup_app_r by lia.
    replace (S (length h2) - length h2) with 1 by lia. reflexivity. }
  assert (Hpre : prop h' (VRef (S (length h2))) "preprocessing" = VRef (length h2)).
  { unfold c2 in H2. rewrite (prop_object _ _ _ _ H2). now rewrite lookup_insert_eq. }
  assert (Hms : prop h' (VRef (length h2)) "missing_strategy" = VRef (length h1)).
  { unfold c1 in H1. rewrite (prop_object _ _ _ _ H1). now rewrite lookup_insert_eq. }
  assert (Hsp : spread h1 ms = spread h ms) by now apply spread_prefix.
  exists (S (length h2)), h'.
  split; [exact Hrun|]. split; [lia|]. split; [exact Hp'|].
  split; [|split; [|split; [|split]]].
  - unfold missing_strategy. rewrite Hpre, Hms. cbn [spread]. rewrite H0.
    unfold c0. now rewrite lookup_insert_eq.
  - intros k Hk. unfold missing_strategy. rewrite Hpre, Hms. cbn [spread]. rewrite H0.
    unfold c0. rewrite lookup_insert_ne by congruence. now rewrite Hsp.
  - intros k Hk. unfold field. cbn [section_name]. rewrite Hpre. cbn [spread]. rewrite H1.
    unfold c1. rewrite lookup_insert_ne by congruence.
    rewrite (spread_prefix h1 h2 _ Hp12 Hvp). now rewrite Hpp.
  - intros k. unfold c2 in H2.
    apply (field_kept h h' l _ o (<["preprocessing" := VRef (length h2)]> o) Task k
             Hh Hp' Hl H2).
    now rewrite lookup_insert_ne.
  - unfold c2 in H2.
    apply (models_of_kept h h' l _ o (<["preprocessing" := VRef (length h2)]> o)
             Hh Hp' Hl H2).
    now rewrite lookup_insert_ne.
Qed.

Lemma setMissingStrategy_frame_witness :
  exists l' h',
    setMissingStrategy (VRef 0) "numeric" "median" Examples.strategy_heap
    = Some (VRef l', h')
    /\ missing_strategy h' (VRef l') "numeric" = Some (VString "median")
    /\ missing_strategy h' (VRef l') "categorical" = Some (VString "constant")
    /\ field h' (VRef l') Preprocessing "scaling" = Some (VString "minmax").
Proof.
  destruct (setMissingStrategy_frame Examples.strategy_heap 0
              (<["preprocessing" := VRef 1]> ∅) "numeric" "median")
    as (l' & h' & Hrun & _ & _ & H1 & H2 & H3 & _).
  - apply (bool_decide_unpack _). vm_compute. exact I.
  - reflexivity.
  - exists l', h'. split; [exact Hrun|]. split; [exact H1|]. split.
    + rewrite H2 by discriminate. reflexivity.
    + rewrite H3 by discriminate. reflexivity.
Defined.
End IntentEditorFacts.

(* ===================================================================== *)
(** * More about the prompt builder                                      *)
(* ===================================================================== *)

Module PromptBuilderFacts.
Import JS PromptBuilder JSFacts PromptBuilderSpec.

Lemma truthy_of_Z z : truthy_number (of_Z z) = negb (z =? 0)%Z.
Proof. destruct z; reflexivity. Qed.

Lemma run_apply_all b p : forall s, (run b p s).1 = apply_all (updates (run b p s).2) s.
Proof.
  induction p as [|u k IH|id k IH|pid k IH|fd k IH|d k IH|d k IH]; intros s; cbn [run].
  - reflexivity.
  - specialize (IH (apply u s)). destruct (run b k (apply u s)) as [s' t]. exact IH.
  - specialize (IH (on_getModel b id) s). destruct (run b _ s) as [s' t]. exact IH.
  - specialize (IH (on_getDatasets b pid) s). destruct (run b _ s) as [s' t]. exact IH.
  - specialize (IH (on_uploadDataset b fd) s). destruct (run b _ s) as [s' t]. exact IH.
  - specialize (IH (on_extractIntent b d) s). destruct (run b _ s) as [s' t]. exact IH.
  - specialize (IH (on_startTraining b d) s). destruct (run b _ s) as [s' t]. exact IH.
Qed.

(** X1. In upload mode, with a project, a non-blank prompt and an attached
    file: when the upload answers with a dataset whose id is not 0, the list
    is fetched again and the extraction succeeds, [handleSubmit] makes exactly
    three requests in this order (the upload of the file with the project id,
    the dataset list of the project, the extraction with the prompt and the
    id of the uploaded dataset), stores the extraction answer, replaces the
    dataset list by the fetched one, shows no error, and leaves the prompt,
    the file and the selection as they were. *)
Theorem handleSubmit_upload_path b pid s f d l result :
  pid <> 0%Z -> blank (prompt s) = false ->
  selectionMode s = upload -> file s = Some f ->
  on_uploadDataset b (upload_form f pid) = Ok d -> ds_id d <> 0%Z ->
  on_getDatasets b (Some pid) = Ok l ->
  on_extractIntent b {| req_prompt := prompt s; req_dataset_id := of_Z (ds_id d) |}
    = Ok result ->
  ier_success result = true ->
  let '(s', t) := run b (handleSubmit (Some pid) s) s in
  calls t = [ uploadDataset (upload_form f pid); getDatasets (Some pid);
              extractIntent {| req_prompt := prompt s;
                               req_dataset_id := of_Z (ds_id d) |} ]
  /\ intentResult s' = Some result
  /\ datasets s' = l
  /\ error s' = ""
  /\ loading s' = false /\ trainingLoading s' = false
  /\ trainingResult s' = None
  /\ prompt s' = prompt s /\ file s' = file s
  /\ selectionMode s' = selectionMode s /\ selectedDatasetId s' = selectedDatasetId s.
Proof.
  intros Hpid Hb Hm Hf Hup Hd Hl Hex Hok. unfold handleSubmit.
  cbn [truthy_id]. apply Z.eqb_neq in Hpid. rewrite Hpid. cbn [negb].
  rewrite truthy_trim, Hb, Hm, Hf. cbn [negb run].
  rewrite Hup. cbn [run]. rewrite Hl. cbn [run]. rewrite truthy_of_Z.
  apply Z.eqb_neq in Hd. rewrite Hd. cbn [negb run]. rewrite Hex. cbn [run]. rewrite Hok.
  cbn. repeat split; assumption.
Qed.

Lemma handleSubmit_upload_path_witness :
  let s := apply (setSelectionMode upload)
             (apply (setFile (Some {| file_name := "churn.v2.csv" |})) Examples.ready) in
  let '(s', t) := run Examples.uploading (handleSubmit (Some 2%Z) s) s in
  calls t = [ uploadDataset [ ("file_path", FormFile {| file_name := "churn.v2.csv" |});
                              ("name", FormText "churn");
                              ("description", FormText "Uploaded via Model Builder");
                              ("project", FormText "2") ];
              getDatasets (Some 2%Z);
              extractIntent {| req_prompt := "predict churn"; req_dataset_id := of_Z 9 |} ]
  /\ intentResult s' = Some Examples.extracted.
Proof.
  pose proof (handleSubmit_upload_path Examples.uploading 2%Z
                (apply (setSelectionMode upload)
                   (apply (setFile (Some {| file_name := "churn.v2.csv" |})) Examples.ready))
                {| file_name := "churn.v2.csv" |}
                {| ds_id := 9; ds_name := "churn" |}
                [ {| ds_id := 9; ds_name := "churn" |}; {| ds_id := 7; ds_name := "customers" |} ]
                Examples.extracted
                ltac:(lia) eq_refl eq_refl eq_refl eq_refl ltac:(cbn; lia) eq_refl eq_refl eq_refl)
    as H.
  cbv zeta. destruct (run _ _ _) as [s' t].
  destruct H as (H1 & H2 & _). split; [exact H1|exact H2].
Defined.

(** X2. The refresh of the dataset list sits in the same [try] as the
    upload: when it fails after a successful upload, no extraction is
    requested, the error of the refresh is shown (never empty), no intent is
    stored, the dataset list is the old one and loading ends. *)
Theorem handleSubmit_refresh_failure_aborts b pid s f d e :
  pid <> 0%Z -> blank (prompt s) = false ->
  selectionMode s = upload -> file s = Some f ->
  on_uploadDataset b (upload_form f pid) = Ok d ->
  on_getDatasets b (Some pid) = Err e ->
  let '(s', t) := run b (handleSubmit (Some pid) s) s in
  calls t = [ uploadDataset (upload_form f pid); getDatasets (Some pid) ]
  /\ intentResult s' = None
  /\ error s' = error_text e "An error occurred. Please try again."
  /\ error s' <> ""
  /\ datasets s' = datasets s
  /\ loading s' = false.
Proof.
  intros Hpid Hb Hm Hf Hup Hl. unfold handleSubmit.
  cbn [truthy_id]. apply Z.eqb_neq in Hpid. rewrite Hpid. cbn [negb].
  rewrite truthy_trim, Hb, Hm, Hf. cbn [negb run].
  rewrite Hup. cbn [run]. rewrite Hl. cbn -[error_text].
  repeat split. apply truthy_string_ne, error_text_truthy. reflexivity.
Qed.

Lemma handleSubmit_refresh_failure_aborts_witness :
  let s := apply (setSelectionMode upload)
             (apply (setFile (Some {| file_name := "churn.v2.csv" |})) Examples.ready) in
  let '(s', t) := run Examples.uploading_only (handleSubmit (Some 2%Z) s) s in
  intentResult s' = None /\ error s' = "Network Error"
  /\ calls t = [ uploadDataset (upload_form {| file_name := "churn.v2.csv" |} 2);
                 getDatasets (Some 2%Z) ].
Proof.
  pose proof (handleSubmit_refresh_failure_aborts Examples.uploading_only 2%Z
                (apply (setSelectionMode upload)
                   (apply (setFile (Some {| file_name := "churn.v2.csv" |})) Examples.ready))
                {| file_name := "churn.v2.csv" |}
                {| ds_id := 9; ds_name := "churn" |} Examples.network_error
                ltac:(lia) eq_refl eq_refl eq_refl eq_refl eq_refl) as H.
  cbv zeta. destruct (run _ _ _) as [s' t].
  destruct H as (H1 & H2 & H3 & _). split; [exact H2|]. split; [exact H3|exact H1].
Defined.

(** X3. In select mode with a non-empty selected id that [parseInt] reads as
    [NaN] or 0, [handleSubmit] makes no request at all, shows "Failed to
    resolve dataset ID", and has by then discarded the previous intent and
    training outcome. *)
Theorem handleSubmit_unparsable_selection b pid s :
  pid <> 0%Z -> blank (prompt s) = false ->
  selectionMode s = select -> selectedDatasetId s <> "" ->
  truthy_number (parseInt (selectedDatasetId s)) = false ->
  let '(s', t) := run b (handleSubmit (Some pid) s) s in
  calls t = []
  /\ error s' = "Failed to resolve dataset ID"
  /\ intentResult s' = None /\ trainingResult s' = None
  /\ loading s' = false.
Proof.
  intros Hpid Hb Hm Hsel Hparse. unfold handleSubmit.
  cbn [truthy_id]. apply Z.eqb_neq in Hpid. rewrite Hpid. cbn [negb].
  apply truthy_string_ne in Hsel.
  rewrite truthy_trim, Hb, Hm, Hsel. cbn [negb run]. rewrite Hparse. cbn.
  repeat split.
Qed.

Lemma handleSubmit_unparsable_selection_witness :
  let s := apply (setSelectedDatasetId "0") Examples.reviewing in
  intentResult s = Some Examples.extracted
  /\ let '(s', t) := run Examples.offline (handleSubmit (Some 2%Z) s) s in
     calls t = [] /\ error s' = "Failed to resolve dataset ID" /\ intentResult s' = None.
Proof.
  cbv zeta. split; [reflexivity|].
  pose proof (handleSubmit_unparsable_selection Examples.offline 2%Z
                (apply (setSelectedDatasetId "0") Examples.reviewing)
                ltac:(lia) eq_refl eq_refl ltac:(discriminate) eq_refl) as H.
  destruct (run _ _ _) as [s' t].
  destruct H as (H1 & H2 & H3 & _). repeat split; assumption.
Defined.

Lemma started_iff b projectId s :
  resolution_started (run b (handleSubmit projectId s) s).2
  <-> truthy_id projectId = true /\ blank (prompt s) = false /\ complete s = true.
Proof.
  unfold handleSubmit, complete, resolution_started.
  rewrite truthy_trim, negb_involutive.
  assert (Hno : forall m, In (EvSet (setLoading true)) [EvSet (setError m)] -> False).
  { intros m [H|[]]. discriminate. }
  destruct projectId as [pid|]; cbn [truthy_id].
  2:{ cbn. split; [intros H; now apply Hno in H|intros (H & _); discriminate]. }
  destruct (pid =? 0)%Z; cbn [negb].
  { cbn. split; [intros H; now apply Hno in H|intros (H & _); discriminate]. }
  destruct (blank (prompt s)).
  { cbn. split; [intros H; now apply Hno in H|intros (_ & H & _); discriminate]. }
  destruct (selectionMode s).
  - destruct (file s) as [f|].
    + cbn [run]. destruct (run b _ _) as [s' t]. cbn. intuition.
    + cbn. split; [intros H; now apply Hno in H|intros (_ & _ & H); discriminate].
  - destruct (truthy_string (selectedDatasetId s)); cbn [negb].
    + cbn [run]. destruct (run b _ _) as [s' t]. cbn. intuition.
    + cbn. split; [intros H; now apply Hno in H|intros (_ & _ & H); discriminate].
Qed.

Ltac answer b :=
  cbn [run];
  match goal with
  | |- context [on_uploadDataset b ?x] => destruct (on_uploadDataset b x) as [?d|?e] eqn:?
  | |- context [on_getDatasets b ?x] => destruct (on_getDatasets b x) as [?l|?e] eqn:?
  | |- context [on_extractIntent b ?x] => destruct (on_extractIntent b x) as [?r|?e] eqn:?
  | |- context [negb (truthy_number ?n)] => destruct (truthy_number n) eqn:?; cbn [negb]
  | |- context [negb (ier_success ?r)] => destruct (ier_success r) eqn:?; cbn [negb]
  end.

(** X4. Whatever the backend answers, a submit that got past the input checks
    ends with both loading flags off and no training outcome, and in exactly
    one of two shapes: no intent and a non-empty error, or no error and the
    stored intent is an answer with [success = true] that the backend gave to
    an extraction request of this very submit. *)
Theorem handleSubmit_outcome b projectId s :
  let '(s', t) := run b (handleSubmit projectId s) s in
  resolution_started t ->
  loading s' = false /\ trainingLoading s' = false /\ trainingResult s' = None
  /\ ((intentResult s' = None /\ error s' <> "")
      \/ (error s' = ""
          /\ exists req r,
               In (extractIntent req) (calls t)
               /\ on_extractIntent b req = Ok r /\ ier_success r = true
               /\ intentResult s' = Some r)).
Proof.
  pose proof (started_iff b projectId s) as Hiff.
  destruct (run b (handleSubmit projectId s) s) as [s' t] eqn:Hrun.
  cbn [snd] in Hiff. intros Hst. apply Hiff in Hst as (Hp & Hb & Hc). clear Hiff.
  revert Hrun. unfold handleSubmit.
  destruct projectId as [pid|]; [|discriminate]. rewrite Hp, truthy_trim, Hb. cbn [negb].
  assert (Hne : forall e, error_text e "An error occurred. Please try again." <> "").
  { intros e. apply truthy_string_ne, error_text_truthy. reflexivity. }
  unfold complete in Hc.
  destruct (selectionMode s) eqn:Hm;
    [destruct (file s) as [f|]; [|discriminate]|rewrite Hc; cbn [negb]];
    repeat answer b; cbn -[error_text or_string]; intros [= <- <-];
    cbn -[error_text or_string];
    (split; [reflexivity|]); (split; [reflexivity|]); (split; [reflexivity|]);
    try (left; split; [reflexivity|apply Hne]);
    right; (split; [reflexivity|]); eexists _, _;
    (split; [cbn; eauto 6|]); (split; [eassumption|]); (split; [assumption|reflexivity]).
Qed.

Lemma handleSubmit_outcome_witness :
  let '(s', t) := run Examples.rejecting (handleSubmit (Some 2%Z) Examples.reviewing)
                    Examples.reviewing in
  resolution_started t
  /\ intentResult s' = None /\ error s' <> "" /\ loading s' = false.
Proof.
  pose proof (handleSubmit_outcome Examples.rejecting (Some 2%Z) Examples.reviewing) as H.
  destruct (run _ _ _) as [s' t] eqn:Hrun.
  assert (Hst : resolution_started t).
  { vm_compute in Hrun. injection Hrun as _ <-. now left. }
  split; [exact Hst|].
  destruct (H Hst) as (H1 & _ & _ & [(H2 & H3)|(_ & req & r & _ & Hans & Hs & _)]).
  - repeat split; assumption.
  - exfalso. cbn in Hans. injection Hans as <-. discriminate Hs.
Defined.

(** X5. Without a stored answer, or with one whose [intent] is falsy,
    [handleStartTraining] sets the error "No intent available" and does
    nothing else: no request, no loading flag. *)
Theorem handleStartTraining_needs_intent b projectId now s :
  (forall r, intentResult s = Some r -> truthy (ier_intent r) = false) ->
  run b (handleStartTraining projectId now s) s
  = (apply (setError "No intent available") s, [EvSet (setError "No intent available")]).
Proof.
  intros H. unfold handleStartTraining.
  destruct (intentResult s) as [r|]; [|reflexivity].
  now rewrite (H r eq_refl).
Qed.

Lemma handleStartTraining_needs_intent_witness :
  calls (run Examples.offline (handleStartTraining (Some 2%Z) "1/1/2026" Examples.ready)
           Examples.ready).2 = []
  /\ error (run Examples.offline (handleStartTraining (Some 2%Z) "1/1/2026" Examples.ready)
              Examples.ready).1 = "No intent available".
Proof.
  rewrite (handleStartTraining_needs_intent Examples.offline (Some 2%Z) "1/1/2026"
             Examples.ready); [split; reflexivity|].
  intros r Hr. discriminate Hr.
Defined.

(** X6. A training request that resolves is stored as the training outcome
    whatever its [success] field says, with the error cleared, the intent
    kept and training loading off; the single request carries the project id
    with 1 standing in for a missing or zero one, and a model name made of
    "Model - " and the time given. *)
Theorem handleStartTraining_stores_any_response b projectId now s r result :
  intentResult s = Some r -> truthy (ier_intent r) = true ->
  (forall req, on_startTraining b req = Ok result) ->
  let '(s', t) := run b (handleStartTraining projectId now s) s in
  trainingResult s' = Some result
  /\ error s' = ""
  /\ intentResult s' = Some r
  /\ trainingLoading s' = false
  /\ (exists req, calls t = [startTraining req]
                  /\ trq_project_id req
                     = match projectId with
                       | Some p => if (p =? 0)%Z then 1%Z else p
                       | None => 1%Z
                       end
                  /\ trq_model_name req = "Model - " ++ now)%string.
Proof.
  intros Hr Hi Hans. unfold handleStartTraining. rewrite Hr, Hi. cbn [negb run].
  rewrite Hans. cbn. repeat split; auto.
  eexists. split; [reflexivity|]. split; [|reflexivity].
  cbn. destruct projectId as [p|]; [|reflexivity]. cbn. now destruct (p =? 0)%Z.
Qed.

Lemma handleStartTraining_stores_any_response_witness :
  tr_success Examples.failed_training = false
  /\ let '(s', t) := run Examples.training_failed
                       (handleStartTraining None "1/1/2026" Examples.reviewing)
                       Examples.reviewing in
     trainingResult s' = Some Examples.failed_training /\ error s' = "".
Proof.
  split; [reflexivity|].
  pose proof (handleStartTraining_stores_any_response Examples.training_failed None
                "1/1/2026" Examples.reviewing Examples.extracted Examples.failed_training
                eq_refl eq_refl (fun _ => eq_refl)) as H.
  destruct (run _ _ _) as [s' t]. destruct H as (H1 & H2 & _). split; assumption.
Defined.

(** X7. With a project and neither loading flag set, the submit button is
    enabled exactly when [handleSubmit] gets past its input checks: the
    button's test and the handler's checks accept the same prompts and
    selections. *)
Theorem isSubmitDisabled_agrees_with_guards b projectId s :
  truthy_id projectId = true -> loading s = false -> trainingLoading s = false ->
  (isSubmitDisabled s = false
   <-> resolution_started (run b (handleSubmit projectId s) s).2).
Proof.
  intros Hp Hl Ht. rewrite started_iff. unfold isSubmitDisabled, complete.
  rewrite truthy_trim, negb_involutive, Hl, Ht.
  destruct (blank (prompt s)), (selectionMode s), (file s),
    (truthy_string (selectedDatasetId s)); cbn; intuition congruence.
Qed.

Lemma isSubmitDisabled_agrees_with_guards_witness :
  isSubmitDisabled Examples.ready = false
  /\ resolution_started
       (run Examples.offline (handleSubmit (Some 2%Z) Examples.ready) Examples.ready).2.
Proof.
  assert (H : isSubmitDisabled Examples.ready = false) by reflexivity.
  split; [exact H|].
  apply (isSubmitDisabled_agrees_with_guards Examples.offline (Some 2%Z) Examples.ready
           eq_refl eq_refl eq_refl). exact H.
Defined.

(** X8. An edit in the intent editor replaces the [intent] of the stored
    answer and keeps its model id, validation, dataset information and
    experiment plan; a training started next sends the edited intent, the
    same model id and the same dataset id as before the edit. *)
Theorem onChange_then_training b s r newIntent :
  intentResult s = Some r -> truthy newIntent = true ->
  let s1 := (run b (onChange s newIntent) s).1 in
  (exists r1, intentResult s1 = Some r1
              /\ ier_intent r1 = newIntent
              /\ ier_model_id r1 = ier_model_id r
              /\ ier_validation r1 = ier_validation r
              /\ ier_dataset_info r1 = ier_dataset_info r
              /\ ier_experiment_plan r1 = ier_experiment_plan r)
  /\ forall b' projectId now,
       exists req,
         calls (run b' (handleStartTraining projectId now s1) s1).2 = [startTraining req]
         /\ trq_intent req = newIntent
         /\ trq_model_id req = ier_model_id r
         /\ trq_dataset_id req = finalDatasetId s r.
Proof.
  intros Hr Hi. unfold onChange. rewrite Hr. cbn [run fst]. cbv zeta.
  split; [eexists; split; [reflexivity|]; repeat split|].
  intros b' projectId now. unfold handleStartTraining. cbn [apply intentResult ier_intent].
  rewrite Hi. cbn [negb run]. eexists.
  split; [destruct (on_startTraining b' _); reflexivity|].
  repeat split.
Qed.

Lemma onChange_then_training_witness :
  let s1 := (run Examples.offline (onChange Examples.reviewing (VRef 8)) Examples.reviewing).1 in
  exists req,
    calls (run Examples.offline (handleStartTraining (Some 2%Z) "1/1/2026" s1) s1).2
    = [startTraining req]
    /\ trq_intent req = VRef 8 /\ trq_model_id req = Some 5%Z
    /\ trq_dataset_id req = VNumber (of_Z 7).
Proof.
  destruct (onChange_then_training Examples.offline Examples.reviewing Examples.extracted
              (VRef 8) eq_refl eq_refl) as [_ H].
  destruct (H Examples.offline (Some 2%Z) "1/1/2026") as (req & H1 & H2 & H3 & H4).
  exists req. repeat split; assumption.
Defined.

(** X9. When [getModel] fails, [loadModel] makes that one request, shows
    "Failed to load model details.", ends loading and changes nothing else:
    intent, selection, training outcome, prompt, file and dataset list are
    those of before. *)
Theorem loadModel_failure b id s e :
  on_getModel b id = Err e ->
  let '(s', t) := run b (loadModel id) s in
  calls t = [getModel id]
  /\ error s' = "Failed to load model details."
  /\ loading s' = false
  /\ intentResult s' = intentResult s
  /\ selectionMode s' = selectionMode s
  /\ selectedDatasetId s' = selectedDatasetId s
  /\ trainingResult s' = trainingResult s
  /\ prompt s' = prompt s /\ file s' = file s /\ datasets s' = datasets s.
Proof.
  intros Hget. unfold loadModel. cbn [run]. rewrite Hget. cbn. repeat split.
Qed.

Lemma loadModel_failure_witness :
  let '(s', t) := run Examples.offline (loadModel 5) initial in
  error s' = "Failed to load model details." /\ intentResult s' = None.
Proof.
  pose proof (loadModel_failure Examples.offline 5%Z initial Examples.network_error eq_refl)
    as H.
  destruct (run _ _ _) as [s' t]. destruct H as (_ & H1 & _ & H2 & _).
  split; [exact H1|exact H2].
Defined.

Lemma apply_setDatasets_comm u l s :
  sets_datasets u = false -> apply u (apply (setDatasets l) s) = apply (setDatasets l) (apply u s).
Proof. destruct u; cbn; intros H; try reflexivity; discriminate. Qed.

Lemma apply_all_setDatasets_comm us l s :
  Forall (fun u => sets_datasets u = false) us ->
  apply_all us (apply (setDatasets l) s) = apply (setDatasets l) (apply_all us s).
Proof.
  intros H. revert s. induction H as [|u us Hu _ IH]; intros s; [reflexivity|].
  cbn [apply_all fold_left]. fold (apply_all us (apply u (apply (setDatasets l) s))).
  rewrite (apply_setDatasets_comm u l s Hu). apply IH.
Qed.

Lemma apply_all_app us vs s : apply_all (us ++ vs) s = apply_all vs (apply_all us s).
Proof. unfold apply_all. apply fold_left_app. Qed.

Lemma interleaving_independent ls ds t :
  interleaving ls ds t ->
  Forall (fun u => sets_datasets u = false) ls ->
  Forall (fun u => sets_datasets u = true) ds ->
  forall s, apply_all t s = apply_all ds (apply_all ls s).
Proof.
  induction 1 as [|x l1 l2 t _ IH|x l1 l2 t _ IH]; intros Hl Hd s.
  - reflexivity.
  - apply Forall_cons in Hl as [_ Hl]. exact (IH Hl Hd (apply x s)).
  - apply Forall_cons in Hd as [Hx Hd].
    change (apply_all t (apply x s) = apply_all l2 (apply x (apply_all l1 s))).
    rewrite (IH Hl Hd). f_equal.
    destruct x; try discriminate Hx. now apply apply_all_setDatasets_comm.
Qed.

Lemma loadModel_updates b id s :
  Forall (fun u => sets_datasets u = false) (updates (run b (loadModel id) s).2).
Proof.
  unfold loadModel. cbn [run].
  destruct (on_getModel b id) as [[m|]|e].
  - destruct (truthy (mlm_intent m)), (mlm_dataset m) as [d|];
      try destruct (truthy_id (Some d)); cbn; repeat constructor.
  - cbn. repeat constructor.
  - cbn. repeat constructor.
Qed.

Lemma fetchDatasets_updates b pid s :
  Forall (fun u => sets_datasets u = true) (updates (run b (fetchDatasets pid) s).2).
Proof.
  unfold fetchDatasets. cbn [run]. destruct (on_getDatasets b pid); cbn; repeat constructor.
Qed.

Lemma loadModel_state_free b id s s0 :
  (run b (loadModel id) s).2 = (run b (loadModel id) s0).2.
Proof.
  unfold loadModel. cbn [run].
  destruct (on_getModel b id) as [[m|]|e]; try reflexivity.
  destruct (truthy (mlm_intent m)), (mlm_dataset m) as [d|];
    try destruct (truthy_id (Some d)); reflexivity.
Qed.

Lemma fetchDatasets_state_free b pid s s0 :
  (run b (fetchDatasets pid) s).2 = (run b (fetchDatasets pid) s0).2.
Proof.
  unfold fetchDatasets. cbn [run]. destruct (on_getDatasets b pid); reflexivity.
Qed.

(** X10. The two effects run at mount, [loadModel] and [fetchDatasets], call
    disjoint setters: whatever way their setter calls interleave, the state
    reached is the one of running either effect after the other, in both
    orders. *)
Theorem mount_effects_commute b id pid s t :
  interleaving (updates (run b (loadModel id) s).2)
               (updates (run b (fetchDatasets pid) s).2) t ->
  apply_all t s = (run b (fetchDatasets pid) (run b (loadModel id) s).1).1
  /\ apply_all t s = (run b (loadModel id) (run b (fetchDatasets pid) s).1).1.
Proof.
  intros Hi.
  pose proof (interleaving_independent _ _ _ Hi (loadModel_updates b id s)
                (fetchDatasets_updates b pid s) s) as H.
  pose proof (run_apply_all b (loadModel id) s) as El.
  pose proof (run_apply_all b (fetchDatasets pid) s) as Ed.
  pose proof (run_apply_all b (fetchDatasets pid) (run b (loadModel id) s).1) as Eld.
  pose proof (run_apply_all b (loadModel id) (run b (fetchDatasets pid) s).1) as Edl.
  rewrite (fetchDatasets_state_free b pid _ s) in Eld.
  rewrite (loadModel_state_free b id _ s) in Edl.
  pose proof (loadModel_updates b id s) as Hl.
  pose proof (fetchDatasets_updates b pid s) as Hd.
  set (ls := updates (run b (loadModel id) s).2) in *.
  set (ds := updates (run b (fetchDatasets pid) s).2) in *.
  rewrite Eld, Edl, El, Ed, H. split; [reflexivity|].
  clearbody ls ds. clear -Hl Hd. revert s. induction Hd as [|d ds Hx _ IH]; intros s; [reflexivity|].
  change (apply_all ds (apply d (apply_all ls s)) = apply_all ls (apply_all ds (apply d s))).
  destruct d; try discriminate Hx.
  rewrite <- (apply_all_setDatasets_comm ls v s Hl). apply IH.
Qed.

Lemma mount_effects_commute_witness :
  let s := Examples.ready in
  let t := [ setLoading true; setDatasets [ {| ds_id := 9; ds_name := "churn" |} ];
             setIntentResult (Some {|
               ier_success := true; ier_intent := VRef 0; ier_model_id := Some 5%Z;
               ier_validation := Some {| is_valid := true; warnings := None |};
               ier_experiment_plan := None; ier_dataset_info := Some ∅;
               ier_raw_prompt := ""; ier_error := None |});
             setSelectionMode select; setSelectedDatasetId "12"; setLoading false ] in
  apply_all t s = (run Examples.resuming (loadModel 5)
                     (run Examples.resuming (fetchDatasets (Some 2%Z)) s).1).1.
Proof.
  cbv zeta.
  refine (proj2 (mount_effects_commute Examples.resuming 5%Z (Some 2%Z) Examples.ready _ _)).
  cbn. repeat constructor.
Defined.

(** X11. After a draft with dataset [d] (not 0) has been loaded and a
    non-blank prompt typed, [handleSubmit] uploads nothing and its first and
    only request is the extraction with that prompt and [dataset_id = d]. *)
Theorem resume_then_submit b b' id pid s m d p :
  on_getModel b id = Ok (Some m) -> mlm_dataset m = Some d -> d <> 0%Z ->
  pid <> 0%Z -> blank p = false ->
  let s1 := apply (setPrompt p) (run b (loadModel id) s).1 in
  exists rest,
    calls (run b' (handleSubmit (Some pid) s1) s1).2
    = [ extractIntent {| req_prompt := p; req_dataset_id := of_Z d |} ]
    /\ (run b' (handleSubmit (Some pid) s1) s1).2
       = [ EvSet (setLoading true); EvSet (setError ""); EvSet (setIntentResult None);
           EvSet (setTrainingResult None);
           EvCall (extractIntent {| req_prompt := p; req_dataset_id := of_Z d |}) ]
         ++ rest.
Proof.
  intros Hget Hd Hnz Hpid Hb. cbv zeta.
  assert (Hs1 : selectionMode (run b (loadModel id) s).1 = select
                /\ selectedDatasetId (run b (loadModel id) s).1 = toString d).
  { unfold loadModel. cbn [run]. rewrite Hget, Hd. cbn [truthy_id].
    apply Z.eqb_neq in Hnz. rewrite Hnz. cbn [negb].
    destruct (truthy (mlm_intent m)); cbn; split; reflexivity. }
  destruct Hs1 as [Hm Hsel].
  set (s0 := (run b (loadModel id) s).1) in *.
  assert (Htr : truthy_string (toString d) = true).
  { pose proof (parseInt_toString d) as Hp. destruct (toString d); [|reflexivity].
    discriminate Hp. }
  unfold handleSubmit. cbn [truthy_id]. apply Z.eqb_neq in Hpid. rewrite Hpid. cbn [negb].
  cbn [apply prompt selectionMode selectedDatasetId file].
  rewrite truthy_trim, Hb, Hm, Hsel, Htr. cbn [negb].
  rewrite parseInt_toString, truthy_of_Z.
  apply Z.eqb_neq in Hnz. rewrite Hnz. cbn [negb run].
  destruct (on_extractIntent b' _) as [r|e]; [destruct (ier_success r)|];
    cbn -[error_text or_string]; eexists; split; reflexivity.
Qed.

Lemma resume_then_submit_witness :
  let s1 := apply (setPrompt "predict churn")
              (run Examples.serving_draft (loadModel 5) initial).1 in
  calls (run Examples.rejecting (handleSubmit (Some 2%Z) s1) s1).2
  = [ extractIntent {| req_prompt := "predict churn"; req_dataset_id := of_Z 12 |} ].
Proof.
  destruct (resume_then_submit Examples.serving_draft Examples.rejecting 5%Z 2%Z initial
              Examples.draft 12%Z "predict churn" eq_refl eq_refl ltac:(lia) ltac:(lia)
              eq_refl) as (rest & H & _).
  exact H.
Defined.
(** X27. The resume effect asks for a model only when [initialModelId] is
    truthy: with no id, or with id 0, it makes no request and changes no
    state; otherwise its single request is [getModel] for that id, whatever
    the backend answers. *)
Theorem resume_only_with_model_id b initialModelId s :
  calls (run b (resume initialModelId) s).2
  = match initialModelId with
    | Some id => if (id =? 0)%Z then [] else [getModel id]
    | None => []
    end
  /\ (truthy_id initialModelId = false -> run b (resume initialModelId) s = (s, [])).
Proof.
  unfold resume. destruct initialModelId as [id|]; [|split; reflexivity].
  cbn [truthy_id]. destruct (id =? 0)%Z; cbn [negb]; [split; reflexivity|].
  split; [|discriminate].
  unfold loadModel. cbn [run]. destruct (on_getModel b id) as [[m|]|e]; cbn [run].
  - destruct (truthy (mlm_intent m)); cbn [run];
      (destruct (mlm_dataset m) as [d|]; [|reflexivity]);
      destruct (truthy_id (Some d)); reflexivity.
  - reflexivity.
  - reflexivity.
Qed.

(** X28. The file input feeds the submit, in upload mode with a project and
    a non-blank prompt: after a file was chosen the first request of
    [handleSubmit] is the upload of that very file for the project; after
    [removeFile] the submit only shows "Please upload a dataset file"; and a
    change event without a file leaves the state as it was. *)
Theorem file_input_then_submit b b' pid s f :
  pid <> 0%Z -> blank (prompt s) = false -> selectionMode s = upload ->
  (let s1 := (run b (handleFileChange (Some f)) s).1 in
   exists rest, calls (run b' (handleSubmit (Some pid) s1) s1).2
                = uploadDataset (upload_form f pid) :: rest)
  /\ (let s2 := (run b removeFile s).1 in
      run b' (handleSubmit (Some pid) s2) s2
      = (apply (setError "Please upload a dataset file") s2,
         [EvSet (setError "Please upload a dataset file")]))
  /\ run b (handleFileChange None) s = (s, []).
Proof.
  intros Hp Hb Hm.
  assert (Hid : truthy_id (Some pid) = true).
  { cbn. now apply negb_true_iff, Z.eqb_neq. }
  split; [|split; [|reflexivity]].
  - cbv zeta. cbn [handleFileChange run fst]. unfold handleSubmit.
    rewrite Hid. cbn [negb]. cbn [apply prompt selectionMode file].
    rewrite truthy_trim, Hb. cbn [negb]. rewrite Hm. cbn [run].
    destruct (run b' _ _) as [s' t] eqn:E. cbn.
    revert E. destruct (on_uploadDataset b' (upload_form f pid)); cbn [run].
    all: intros E; eexists; reflexivity.
  - cbv zeta. cbn [removeFile run fst]. unfold handleSubmit.
    rewrite Hid. cbn [negb]. cbn [apply prompt selectionMode file].
    rewrite truthy_trim, Hb. cbn [negb]. rewrite Hm. reflexivity.
Qed.

Lemma file_input_then_submit_witness :
  let s := apply (setSelectionMode upload) Examples.ready in
  let s2 := (run Examples.offline removeFile s).1 in
  (run Examples.uploading (handleSubmit (Some 2%Z) s2) s2).2
  = [EvSet (setError "Please upload a dataset file")].
Proof.
  cbv zeta.
  pose proof (file_input_then_submit Examples.offline Examples.uploading 2%Z
                (apply (setSelectionMode upload) Examples.ready)
                {| file_name := "churn.csv" |}
                ltac:(lia) eq_refl eq_refl) as (_ & H & _).
  cbv zeta in H. rewrite H. reflexivity.
Defined.

End PromptBuilderFacts.

(* ===================================================================== *)
(** * The upload modal, the model list and the routes                    *)
(* ===================================================================== *)

Module DatasetUploadModalSpec.
Import JS JSFacts.
Import PromptBuilder (File, FormData, FormValue, FormFile, FormText, Dataset,
                      Thrown, response_data_error, result, Ok, Err, or_string).
Import DatasetUploadModal.

(** X19. Without a file or with an empty name the modal's [handleSubmit] sets
    the error "Please select a file and provide a name" and does nothing
    else: no upload is requested and no other state cell changes. *)
Theorem upload_needs_file_and_name projectId s upload :
  file s = None \/ name s = "" ->
  handleSubmit projectId s upload
  = [ EvSet (setError "Please select a file and provide a name") ]
  /\ uploads (handleSubmit projectId s upload) = []
  /\ after (handleSubmit projectId s upload) s
     = apply (setError "Please select a file and provide a name") s.
Proof.
  intros H. unfold handleSubmit.
  destruct (file s) as [f|]; [|repeat split].
  destruct H as [H|H]; [discriminate|]. rewrite H. repeat split.
Qed.

Lemma upload_needs_file_and_name_witness :
  uploads (handleSubmit (Some 2%Z)
             {| file := None; name := "churn"; description := ""; uploading := false;
                error := "" |} (fun _ => Err Examples.network_error)) = [].
Proof.
  apply (upload_needs_file_and_name (Some 2%Z)
           {| file := None; name := "churn"; description := ""; uploading := false;
              error := "" |} (fun _ => Err Examples.network_error)).
  now left.
Defined.

(** X20. With a file and a name, when the upload succeeds: one upload is
    requested, carrying the file, the name, the description and the project
    id as text (1 when the prop is not passed); [onUploadSuccess] is called
    with the dataset before [onClose], and [onClose] is not called before it;
    the last call is [setUploading(false)]; the form ends empty with no
    error. *)
Theorem upload_success_resets_and_reports projectId s f upload d :
  file s = Some f -> name s <> "" ->
  (forall fd, upload fd = Ok d) ->
  let t := handleSubmit projectId s upload in
  uploads t = [ [ ("file_path", FormFile f); ("name", FormText (name s));
                  ("description", FormText (description s));
                  ("project", FormText (toString (match projectId with
                                                  | Some p => p
                                                  | None => 1%Z
                                                  end))) ] ]
  /\ (exists before between,
        t = before ++ EvUploadSuccess d :: between ++ [EvClose; EvSet (setUploading false)]
        /\ ~ In EvClose before)
  /\ after t s = {| file := None; name := ""; description := ""; uploading := false;
                    error := "" |}.
Proof.
  intros Hf Hn Hup. cbv zeta. unfold handleSubmit. rewrite Hf.
  apply truthy_string_ne in Hn. rewrite Hn. cbn [negb]. rewrite Hup.
  split; [reflexivity|]. split; [|reflexivity].
  eexists [_; _; _], [_; _; _; _]. split; [reflexivity|].
  intros [H|[H|[H|[]]]]; discriminate.
Qed.

Lemma upload_success_resets_and_reports_witness :
  let s := {| file := Some {| PromptBuilder.file_name := "churn.csv" |}; name := "Churn";
              description := "2024 export"; uploading := false; error := "old" |} in
  after (handleSubmit None s (fun _ => Ok {| PromptBuilder.ds_id := 9;
                                             PromptBuilder.ds_name := "Churn" |})) s
  = {| file := None; name := ""; description := ""; uploading := false; error := "" |}.
Proof.
  cbv zeta.
  refine (proj2 (proj2 (upload_success_resets_and_reports None
            {| file := Some {| PromptBuilder.file_name := "churn.csv" |}; name := "Churn";
               description := "2024 export"; uploading := false; error := "old" |}
            {| PromptBuilder.file_name := "churn.csv" |}
            (fun _ => Ok {| PromptBuilder.ds_id := 9; PromptBuilder.ds_name := "Churn" |})
            {| PromptBuilder.ds_id := 9; PromptBuilder.ds_name := "Churn" |}
            eq_refl _ _))).
  - discriminate.
  - intros fd. reflexivity.
Defined.

(** X21. When the upload fails the modal stays open with what the user
    entered: neither [onClose] nor [onUploadSuccess] is called, file, name
    and description are kept, uploading ends, and the error shown is the
    server's [error] when it is a non-empty string and the fixed text
    otherwise (the message of the exception is never shown). *)
Theorem upload_failure_keeps_form projectId s f upload e :
  file s = Some f -> name s <> "" ->
  (forall fd, upload fd = Err e) ->
  let t := handleSubmit projectId s upload in
  ~ In EvClose t
  /\ (forall d, ~ In (EvUploadSuccess d) t)
  /\ file (after t s) = file s /\ name (after t s) = name s
  /\ description (after t s) = description s
  /\ uploading (after t s) = false
  /\ error (after t s)
     = match response_data_error e with
       | Some msg => if truthy_string msg then msg
                     else "Failed to upload dataset. Please try again."
       | None => "Failed to upload dataset. Please try again."
       end.
Proof.
  intros Hf Hn Hup. cbv zeta. unfold handleSubmit. rewrite Hf.
  apply truthy_string_ne in Hn. rewrite Hn. cbn [negb]. rewrite Hup.
  split; [intros [H|[H|[H|[H|[H|[]]]]]]; discriminate|].
  split; [intros d [H|[H|[H|[H|[H|[]]]]]]; discriminate|].
  cbn -[or_string]. repeat split. exact Hf.
Qed.

Lemma upload_failure_keeps_form_witness :
  let s := {| file := Some {| PromptBuilder.file_name := "churn.csv" |}; name := "Churn";
              description := "2024 export"; uploading := false; error := "" |} in
  let t := handleSubmit None s (fun _ => Err Examples.network_error) in
  name (after t s) = "Churn"
  /\ error (after t s) = "Failed to upload dataset. Please try again.".
Proof.
  cbv zeta.
  destruct (upload_failure_keeps_form None
              {| file := Some {| PromptBuilder.file_name := "churn.csv" |}; name := "Churn";
                 description := "2024 export"; uploading := false; error := "" |}
              {| PromptBuilder.file_name := "churn.csv" |}
              (fun _ => Err Examples.network_error) Examples.network_error eq_refl)
    as (_ & _ & _ & H1 & _ & _ & H2).
  - discriminate.
  - intros fd. reflexivity.
  - split; [exact H1|exact H2].
Defined.

End DatasetUploadModalSpec.

Module ModelsSpec.
Import JS JSFacts.
Import PromptBuilder (result, Ok, Err).
Import Models.

Lemma filter_sublist {A} (f : A -> bool) (l : list A) : sublist (List.filter f l) l.
Proof.
  induction l as [|x l IH]; cbn; [constructor|].
  destruct (f x); [apply sublist_skip|apply sublist_cons]; exact IH.
Qed.

Lemma after_confirmDelete s deleteModel target :
  modelToDelete s = Some target ->
  after (confirmDelete s deleteModel) s
  = {| models := match deleteModel (id target) with
                 | Ok _ => List.filter (fun m => negb (id m =? id target)%Z) (models s)
                 | Err _ => models s
                 end;
       loading := loading s; searchTerm := searchTerm s;
       isDeleteDialogOpen := false; modelToDelete := None |}.
Proof.
  intros H. unfold confirmDelete. rewrite H.
  destruct (deleteModel (id target)) as [[]|e]; reflexivity.
Qed.

(** X22. With a model picked for deletion, [confirmDelete] requests the
    deletion of that id once, always closes the dialog and forgets the pick,
    and keeps the search term; when the request succeeds the list becomes the
    models with another id, in their order (every entry with that id goes,
    nothing else does); when it fails the list is unchanged. *)
Theorem confirmDelete_removes_by_id s deleteModel target :
  modelToDelete s = Some target ->
  let s' := after (confirmDelete s deleteModel) s in
  isDeleteDialogOpen s' = false /\ modelToDelete s' = None
  /\ searchTerm s' = searchTerm s
  /\ ((exists u, deleteModel (id target) = Ok u) ->
      sublist (models s') (models s)
      /\ (forall m, In m (models s') <-> In m (models s) /\ id m <> id target)
      /\ (length (models s') <= length (models s))%nat)
  /\ ((exists e, deleteModel (id target) = Err e) -> models s' = models s)
  /\ omap (fun e => match e with EvDeleteModel i => Some i | _ => None end)
          (confirmDelete s deleteModel) = [id target].
Proof.
  intros H. cbv zeta. rewrite (after_confirmDelete _ _ _ H). cbn.
  repeat split.
  - destruct H0 as [u ->]. apply filter_sublist.
  - destruct H0 as [u Hu]. rewrite Hu in H1. apply List.filter_In in H1. tauto.
  - destruct H0 as [u Hu]. rewrite Hu in H1. apply List.filter_In in H1.
    destruct H1 as [_ H1]. apply negb_true_iff, Z.eqb_neq in H1. exact H1.
  - destruct H0 as [u ->]. intros [Hin Hne]. apply List.filter_In. split; [exact Hin|].
    apply negb_true_iff, Z.eqb_neq. exact Hne.
  - destruct H0 as [u ->]. apply List.filter_length_le.
  - intros [e ->]. reflexivity.
  - unfold confirmDelete. rewrite H.
    destruct (deleteModel (id target)) as [[]|e]; reflexivity.
Qed.

Lemma confirmDelete_removes_by_id_witness :
  let a := {| id := 1; name := "churn"; algorithm := Some "xgboost"; status := "completed" |} in
  let b := {| id := 2; name := "sales"; algorithm := None; status := "draft" |} in
  let s := {| models := [a; b; a]; loading := false; searchTerm := "";
              isDeleteDialogOpen := true; modelToDelete := Some a |} in
  models (after (confirmDelete s (fun _ => Ok tt)) s) = [b]
  /\ isDeleteDialogOpen (after (confirmDelete s (fun _ => Ok tt)) s) = false.
Proof.
  cbv zeta.
  destruct (confirmDelete_removes_by_id
              {| models := [ {| id := 1; name := "churn"; algorithm := Some "xgboost";
                                status := "completed" |};
                             {| id := 2; name := "sales"; algorithm := None;
                                status := "draft" |};
                             {| id := 1; name := "churn"; algorithm := Some "xgboost";
                                status := "completed" |} ];
                 loading := false; searchTerm := "";
                 isDeleteDialogOpen := true;
                 modelToDelete := Some {| id := 1; name := "churn";
                                          algorithm := Some "xgboost";
                                          status := "completed" |} |}
              (fun _ => Ok tt) _ eq_refl) as (H & _).
  split; [reflexivity|exact H].
Defined.

(** ** The search box *)

Lemma prefix_empty s : String.prefix "" s = true.
Proof. destruct s; reflexivity. Qed.

Lemma append_cons c a b : String.append (String c a) b = String c (String.append a b).
Proof. reflexivity. Qed.

Lemma append_nil b : String.append "" b = b.
Proof. reflexivity. Qed.

Lemma prefix_app x b : String.prefix x (String.append x b) = true.
Proof.
  induction x as [|c x IH]; [apply prefix_empty|].
  rewrite append_cons. cbn [String.prefix].
  destruct (ascii_dec c c) as [_|n]; [exact IH|contradiction].
Qed.

Lemma prefix_split x s : String.prefix x s = true -> exists b, s = String.append x b.
Proof.
  revert s. induction x as [|c x IH]; intros s H; [exists s; reflexivity|].
  destruct s as [|d s]; cbn in H; [discriminate|].
  destruct (ascii_dec c d) as [->|]; [|discriminate].
  destruct (IH _ H) as [b ->]. exists b. reflexivity.
Qed.

Lemma includes_spec s sub :
  includes s sub = true <-> exists a b, s = String.append a (String.append sub b).
Proof.
  split.
  - induction s as [|c s IH]; cbn [includes]; intros H; apply orb_true_iff in H.
    + destruct H as [H|H]; [|discriminate].
      destruct (prefix_split _ _ H) as [b ->]. exists "", b. reflexivity.
    + destruct H as [H|H].
      * destruct (prefix_split _ _ H) as [b Hb]. exists "", b. exact Hb.
      * destruct (IH H) as (a & b & ->). exists (String c a), b. reflexivity.
  - intros (a & b & ->). induction a as [|c a IH].
    + rewrite append_nil. destruct (String.append sub b) eqn:E; cbn [includes];
        rewrite <- E, prefix_app; reflexivity.
    + rewrite append_cons. cbn [includes]. rewrite IH. apply orb_true_r.
Qed.

Lemma toLowerCase_app a b :
  toLowerCase (String.append a b) = String.append (toLowerCase a) (toLowerCase b).
Proof.
  induction a as [|c a IH]; [reflexivity|].
  rewrite append_cons. cbn [toLowerCase]. now rewrite append_cons, IH.
Qed.

Lemma toLowerCase_split s a b :
  toLowerCase s = String.append a b ->
  exists a' b', s = String.append a' b' /\ toLowerCase a' = a /\ toLowerCase b' = b.
Proof.
  revert s. induction a as [|c a IH]; intros s H.
  - exists "", s. repeat split. exact H.
  - destruct s as [|d s]; [discriminate|].
    rewrite append_cons in H. cbn [toLowerCase] in H. injection H as Hc Hs.
    destruct (IH _ Hs) as (a' & b' & -> & Ha & Hb).
    exists (String d a'), b'. cbn [toLowerCase]. rewrite Ha, Hc. repeat split. exact Hb.
Qed.

Lemma includes_lower s term :
  includes (toLowerCase s) (toLowerCase term) = true <-> occurs term s.
Proof.
  rewrite includes_spec. split.
  - intros (a & b & H).
    destruct (toLowerCase_split _ _ _ H) as (a' & r & -> & _ & Hr).
    destruct (toLowerCase_split _ _ _ Hr) as (x & b' & -> & Hx & _).
    exists a', x, b'. split; [reflexivity|exact Hx].
  - intros (a & x & b & -> & Hx).
    exists (toLowerCase a), (toLowerCase b).
    now rewrite !toLowerCase_app, Hx.
Qed.

(** X23. A model is listed exactly when it is in [models] and the search term
    occurs, up to the case of letters, in its name or in its algorithm when
    it has one; the listing keeps the order of [models], and an empty term
    lists every model. *)
Theorem filteredModels_case_insensitive s :
  (forall m, In m (filteredModels s)
             <-> In m (models s)
                 /\ (occurs (searchTerm s) (name m)
                     \/ exists a, algorithm m = Some a /\ occurs (searchTerm s) a))
  /\ sublist (filteredModels s) (models s)
  /\ (searchTerm s = "" -> filteredModels s = models s).
Proof.
  assert (Hm : forall m, matches (searchTerm s) m = true
                         <-> occurs (searchTerm s) (name m)
                             \/ exists a, algorithm m = Some a /\ occurs (searchTerm s) a).
  { intros m. unfold matches. rewrite orb_true_iff, includes_lower.
    destruct (algorithm m) as [a|].
    - rewrite includes_lower. split; intros [H|H]; auto.
      + right. exists a. auto.
      + destruct H as (a' & [= <-] & H). auto.
    - split; intros [H|H]; auto; [discriminate|]. destruct H as (a' & [=] & _). }
  split; [|split].
  - intros m. unfold filteredModels. rewrite List.filter_In, Hm. reflexivity.
  - apply filter_sublist.
  - intros Hs. unfold filteredModels. rewrite Hs.
    apply List.forallb_filter_id, forallb_forall. intros m _.
    unfold matches. cbn [toLowerCase].
    replace (includes (toLowerCase (name m)) "") with true; [reflexivity|].
    symmetry. apply includes_spec. exists "", (toLowerCase (name m)). reflexivity.
Qed.

(** X29. Clicking delete on a model opens the dialog with that model
    picked and the list untouched; confirming then closes the dialog and
    clears the pick, on success removes the model while keeping every model
    with another id, on failure keeps the list, and a second confirmation
    does nothing. *)
Theorem delete_click_then_confirm s m deleteModel :
  let s1 := after (handleDeleteClick m) s in
  let s2 := after (confirmDelete s1 deleteModel) s1 in
  (isDeleteDialogOpen s1 = true /\ modelToDelete s1 = Some m /\ models s1 = models s)
  /\ (isDeleteDialogOpen s2 = false /\ modelToDelete s2 = None)
  /\ (forall u, deleteModel (id m) = Ok u ->
        ~ In m (models s2)
        /\ forall m', In m' (models s) -> id m' <> id m -> In m' (models s2))
  /\ (forall e, deleteModel (id m) = Err e -> models s2 = models s)
  /\ confirmDelete s2 deleteModel = [].
Proof.
  cbv zeta.
  rewrite (after_confirmDelete (after (handleDeleteClick m) s) deleteModel m eq_refl).
  cbn [after handleDeleteClick fold_left apply models isDeleteDialogOpen modelToDelete
       loading searchTerm].
  split; [repeat split|]. split; [repeat split|]. split; [|split; [|reflexivity]].
  - intros u ->. split.
    + intros H. apply List.filter_In in H. destruct H as [_ H].
      rewrite Z.eqb_refl in H. discriminate.
    + intros m' Hin Hne. apply List.filter_In. split; [exact Hin|].
      now apply negb_true_iff, Z.eqb_neq.
  - intros e ->. reflexivity.
Qed.

End ModelsSpec.

Module AppSpec.
Import AuthProvider App.

(** X24. A redirect of [App] never leads to another redirect or to the
    spinner: its target renders a page under the same auth context. A
    redirect to the dashboard happens only with a user, one to the login page
    only without, both only once loading is over, and the home page is the
    target exactly for an unknown path. *)
Theorem redirects_end_on_a_page ctx location to :
  App ctx location = Navigate to ->
  (exists p, App ctx to = Page p)
  /\ (to = DashboardRoute -> loading ctx = false /\ user ctx <> None)
  /\ (to = LoginRoute -> loading ctx = false /\ user ctx = None)
  /\ (to = Home <-> location = CatchAll).
Proof.
  destruct ctx as [[u|] [] e], location; cbn; intros [= <-];
    (split; [eexists; reflexivity|]); repeat split; intros; congruence.
Qed.

Lemma redirects_end_on_a_page_witness :
  exists p, App {| user := None; loading := false; error := None |} LoginRoute = Page p.
Proof.
  exact (proj1 (redirects_end_on_a_page {| user := None; loading := false; error := None |}
                  DashboardRoute LoginRoute eq_refl)).
Defined.

(** X25. The dashboard is rendered only to a signed-in user and the login and
    register pages only without one, all three only once loading is over; the
    spinner means loading; the landing page is rendered whatever the auth
    context. *)
Theorem pages_match_session ctx location :
  (App ctx location = Page Dashboard -> loading ctx = false /\ user ctx <> None)
  /\ (App ctx location = Page Login \/ App ctx location = Page Register ->
      loading ctx = false /\ user ctx = None)
  /\ (App ctx location = Spinner -> loading ctx = true)
  /\ (location = Home -> App ctx location = Page Landing).
Proof.
  destruct ctx as [[u|] [] e], location; cbn; repeat split; intros;
    try discriminate; try congruence; try (destruct H; discriminate).
Qed.

Lemma notified_snoc ns n :
  notified (ns ++ [n]) = onAuthStateChanged n (notified ns).
Proof. unfold notified. rewrite fold_left_app. reflexivity. Qed.

Lemma notified_loading ns : ns <> [] -> loading (notified ns) = false.
Proof.
  destruct ns as [|n ns] using rev_ind; [contradiction|]. intros _.
  rewrite notified_snoc. destruct n; reflexivity.
Qed.

(** X26. Before the first notification of the auth observer the three guarded
    routes, and only they, show the spinner; after any notification no route
    does. After a notification with a user, whatever came before, the login
    route redirects to the dashboard and the dashboard is rendered; after one
    without a user the dashboard redirects to the login page, which is
    rendered; an observer error keeps the user and sets the error text. *)
Theorem first_notification_ends_loading ns :
  (forall location, App (notified []) location = Spinner
                    <-> location = LoginRoute \/ location = RegisterRoute
                        \/ location = DashboardRoute)
  /\ (forall n location, App (notified (ns ++ [n])) location <> Spinner)
  /\ (forall u, App (notified (ns ++ [NextUser (Some u)])) LoginRoute
                = Navigate DashboardRoute
                /\ App (notified (ns ++ [NextUser (Some u)])) DashboardRoute
                   = Page Dashboard
                /\ user (notified (ns ++ [NextUser (Some u)])) = Some (toAuthUser u))
  /\ (App (notified (ns ++ [NextUser None])) DashboardRoute = Navigate LoginRoute
      /\ App (notified (ns ++ [NextUser None])) LoginRoute = Page Login)
  /\ (user (notified (ns ++ [ObserverError])) = user (notified ns)
      /\ error (notified (ns ++ [ObserverError])) = Some "Authentication error occurred").
Proof.
  split; [|split; [|split; [|split]]].
  - intros location. destruct location; cbn; split; intros H;
      try discriminate; try reflexivity; auto;
      destruct H as [H|[H|H]]; discriminate.
  - intros n location H.
    assert (Hl : loading (notified (ns ++ [n])) = false).
    { apply notified_loading. now destruct ns. }
    destruct (notified (ns ++ [n])) as [[u|] l e]; cbn in Hl; subst l;
      destruct location; discriminate.
  - intros u. rewrite notified_snoc. repeat split.
  - rewrite notified_snoc. split; reflexivity.
  - rewrite notified_snoc. split; reflexivity.
Qed.

End AppSpec.
